(** * Appointment booking core: CalendarService, BookingService, validation

    A shallow embedding of the slot calendar ([CalendarService]), the booking
    registry ([BookingService]) and the contact validators of the appointment
    booking feature, together with the properties its specification states
    about them.

    The two services are process-wide singletons that share mutable state and
    register timer callbacks; the embedding threads one [World] record (clock,
    pending timers, local storage, calendar state, booking state) through
    every operation. *)

From Stdlib Require Import ZArith Ascii String List Bool Lia.
From Stdlib Require Import Numbers.DecimalString Numbers.DecimalN Numbers.DecimalPos.
From stdpp Require Import base option list gmap strings fin_maps.

Local Open Scope string_scope.
Local Open Scope Z_scope.

(* ===================================================================== *)
(** * The JavaScript primitives the services rely on                      *)
(* ===================================================================== *)

Module Js.

(** Strings are sequences of 8-bit code units: the model covers text whose
    code points lie below 256 (Latin-1), where one character is one UTF-16
    code unit of the JavaScript string. *)

(** JavaScript numbers are IEEE 754 doubles. The model follows them on the
    integers that doubles hold exactly, the safe integers of magnitude up to
    [2^53 - 1], and on [NaN]; [undefined] used in arithmetic behaves as
    [NaN]. An operation on safe integers whose exact result is a safe integer
    yields exactly that result in double arithmetic. Whatever leaves this
    fragment (a fraction, an infinity, a rounded result) has no value in the
    model: the operation answers [None], and so does every function that
    needs the value. *)
Inductive num :=
| Num (z : Z)
| NaN.

Definition MAX_SAFE_INTEGER : Z := 9007199254740991.

Definition isSafeInteger (z : Z) : bool :=
  (- MAX_SAFE_INTEGER <=? z) && (z <=? MAX_SAFE_INTEGER).

Definition exact (z : Z) : option num :=
  if isSafeInteger z then Some (Num z) else None.

Definition add (a b : num) : option num :=
  match a, b with
  | Num x, Num y => exact (x + y)
  | _, _ => Some NaN
  end.

Definition mul (a b : num) : option num :=
  match a, b with
  | Num x, Num y => exact (x * y)
  | _, _ => Some NaN
  end.

(** [n.toString()] for an integer. *)
Definition Z_toString (z : Z) : string :=
  match z with
  | Z0 => "0"
  | Zpos p => NilEmpty.string_of_uint (Pos.to_uint p)
  | Zneg p => String "-" (NilEmpty.string_of_uint (Pos.to_uint p))
  end.

Definition toString (n : num) : string :=
  match n with
  | Num z => Z_toString z
  | NaN => "NaN"
  end.

Fixpoint repeatChar (c : ascii) (n : nat) : string :=
  match n with
  | O => EmptyString
  | S k => String c (repeatChar c k)
  end.

(** [s.padStart(width, c)] for a one-character filler. *)
Definition padStart (width : nat) (c : ascii) (s : string) : string :=
  repeatChar c (width - String.length s) ++ s.

(** [s.split(sep)] for a one-character separator: always at least one
    piece, empty pieces are kept. *)
Fixpoint split (sep : ascii) (s : string) : list string :=
  match s with
  | EmptyString => [EmptyString]
  | String c rest =>
      if Ascii.eqb c sep then EmptyString :: split sep rest
      else match split sep rest with
           | piece :: pieces => String c piece :: pieces
           | [] => [String c EmptyString]
           end
  end.

(** [pieces.join(sep)]. *)
Fixpoint join (sep : string) (pieces : list string) : string :=
  match pieces with
  | [] => EmptyString
  | [p] => p
  | p :: ps => p ++ sep ++ join sep ps
  end.

(** The white space class [\s] (and the set [trim] strips) below code point
    256: tab, line feed, vertical tab, form feed, carriage return, space and
    the no-break space. *)
Definition isSpace (c : ascii) : bool :=
  let n := nat_of_ascii c in
  ((9 <=? n) && (n <=? 13))%nat || (n =? 32)%nat || (n =? 160)%nat.

Definition isDigit (c : ascii) : bool :=
  let n := nat_of_ascii c in ((48 <=? n) && (n <=? 57))%nat.

Definition isUpper (c : ascii) : bool :=
  let n := nat_of_ascii c in ((65 <=? n) && (n <=? 90))%nat.

Definition isLower (c : ascii) : bool :=
  let n := nat_of_ascii c in ((97 <=? n) && (n <=? 122))%nat.

Definition isAlpha (c : ascii) : bool := isUpper c || isLower c.

Fixpoint trimStart (s : string) : string :=
  match s with
  | EmptyString => EmptyString
  | String c rest => if isSpace c then trimStart rest else s
  end.

Fixpoint rev (s : string) : string :=
  match s with
  | EmptyString => EmptyString
  | String c rest => rev rest ++ String c EmptyString
  end.

Definition trimEnd (s : string) : string := rev (trimStart (rev s)).

(** [s.trim()]. *)
Definition trim (s : string) : string := trimEnd (trimStart s).

(** [s.replace(/[class]/g, '')]: drop every character of the class. *)
Fixpoint remove (cls : ascii -> bool) (s : string) : string :=
  match s with
  | EmptyString => EmptyString
  | String c rest => if cls c then remove cls rest else String c (remove cls rest)
  end.

(** [s.substring(0, n)]. *)
Definition take (n : nat) (s : string) : string := String.substring 0 n s.

(** [s.slice(-n)]: the last [n] characters. *)
Definition takeLast (n : nat) (s : string) : string :=
  String.substring (String.length s - n) n s.

(** The capital letters of the Latin-1 supplement: 192 to 222 without the
    multiplication sign 215. *)
Definition isLatin1Upper (c : ascii) : bool :=
  let n := nat_of_ascii c in ((192 <=? n) && (n <=? 222))%nat && negb (n =? 215)%nat.

Definition lowerChar (c : ascii) : ascii :=
  if isUpper c || isLatin1Upper c then ascii_of_nat (nat_of_ascii c + 32) else c.

Definition upperChar (c : ascii) : ascii :=
  if isLower c then ascii_of_nat (nat_of_ascii c - 32) else c.

Fixpoint mapChars (f : ascii -> ascii) (s : string) : string :=
  match s with
  | EmptyString => EmptyString
  | String c rest => String (f c) (mapChars f rest)
  end.

(** [toLowerCase]: below code point 256 it maps the capitals A to Z and
    those of the Latin-1 supplement to their small letters and leaves every
    other character alone. *)
Definition toLowerCase : string -> string := mapChars lowerChar.

(** [toUpperCase] on text made of ASCII letters and digits, which is where
    the services apply it (the base-36 text drawn from [Math.random]). *)
Definition toUpperCase : string -> string := mapChars upperChar.

Fixpoint allChars (p : ascii -> bool) (s : string) : bool :=
  match s with
  | EmptyString => true
  | String c rest => p c && allChars p rest
  end.

(** The characters that occur in the texts [Number] reads as a number:
    white space, digits, sign, point, exponent letter, the letters of
    [Infinity], and the prefixes and digits of hexadecimal, octal and binary
    literals. *)
Definition numericChar (c : ascii) : bool :=
  isSpace c || isDigit c
  || existsb (Ascii.eqb c) (list_ascii_of_string "+-.abcdefABCDEFxXoOInity").

(** [Number(s)]. A run of decimal digits (leading zeros allowed, the empty
    string is 0) is read as its value when that is a safe integer; a text
    with a character that no numeric text contains is [NaN]. All other texts
    (signs, blanks, fractions, exponents, other bases, [Infinity], digit runs
    beyond the safe integers) are outside the modelled fragment. *)
Definition Number (s : string) : option num :=
  match NilEmpty.uint_of_string s with
  | Some d => exact (Z.of_N (N.of_uint d))
  | None => if allChars numericChar s then None else Some NaN
  end.

(** The delay [setTimeout] honours. A whole number of milliseconds from 1 to
    [2^31 - 1] is waited for in full. Outside this range no wait is
    guaranteed: Node.js replaces the delay by 1 ms, browsers reduce it modulo
    [2^32] and treat a negative result as 0; the callback is then due at
    once. *)
Definition timerDelay (ms : Z) : Z :=
  if (1 <=? ms) && (ms <=? 2147483647) then ms else 0.

(** [s.includes(sub)]. *)
Fixpoint includes (sub s : string) : bool :=
  String.prefix sub s ||
  match s with
  | EmptyString => false
  | String _ rest => includes sub rest
  end.

(** [s.slice(from, to)] for indices within the text. *)
Definition slice (from to : nat) (s : string) : string :=
  String.substring from (to - from) s.

(** [s.slice(from)]. *)
Definition sliceFrom (from : nat) (s : string) : string :=
  String.substring from (String.length s - from) s.

End Js.


(* ===================================================================== *)
(** * Calendar dates as the [Date] object handles them                    *)
(* ===================================================================== *)

Module JsDate.

Definition msPerDay : Z := 86400000.

Definition isLeap (y : Z) : bool :=
  ((y mod 4 =? 0) && negb (y mod 100 =? 0)) || (y mod 400 =? 0).

Definition daysInMonth (y m : Z) : Z :=
  if m =? 2 then (if isLeap y then 29 else 28)
  else if (m =? 4) || (m =? 6) || (m =? 9) || (m =? 11) then 30
  else 31.

(** Day number (days since 1970-01-01) of a proleptic Gregorian date. *)
Definition daysFromCivil (y m d : Z) : Z :=
  let y' := if m <=? 2 then y - 1 else y in
  let era := y' / 400 in
  let yoe := y' - era * 400 in
  let mp := if m <=? 2 then m + 9 else m - 3 in
  let doy := (153 * mp + 2) / 5 + d - 1 in
  let doe := yoe * 365 + yoe / 4 - yoe / 100 + doy in
  era * 146097 + doe - 719468.

(** The inverse: year, month, day of a day number. *)
Definition civilFromDays (n : Z) : Z * Z * Z :=
  let z := n + 719468 in
  let era := z / 146097 in
  let doe := z - era * 146097 in
  let yoe := (doe - doe / 1460 + doe / 36524 - doe / 146096) / 365 in
  let doy := doe - (365 * yoe + yoe / 4 - yoe / 100) in
  let mp := (5 * doy + 2) / 153 in
  let d := doy - (153 * mp + 2) / 5 + 1 in
  let m := if mp <? 10 then mp + 3 else mp - 9 in
  let y := yoe + era * 400 + (if m <=? 2 then 1 else 0) in
  (y, m, d).

Definition digits (n : nat) (s : string) : bool :=
  (String.length s =? n)%nat && Js.allChars Js.isDigit s.

(** [new Date(s).getTime()] for a date-only ISO string [YYYY-MM-DD]: midnight
    UTC of that day, in milliseconds. [None] is the invalid date (time value
    [NaN]). Strings of any other shape, and days past the end of their month
    (which engines treat differently), are modelled as invalid. *)
Definition parse (s : string) : option Z :=
  match Js.split "-" s with
  | [ys; ms; ds] =>
      if digits 4 ys && digits 2 ms && digits 2 ds then
        match Js.Number ys, Js.Number ms, Js.Number ds with
        | Some (Js.Num y), Some (Js.Num m), Some (Js.Num d) =>
            if (1 <=? m) && (m <=? 12) && (1 <=? d) && (d <=? daysInMonth y m)
            then Some (daysFromCivil y m d * msPerDay)
            else None
        | _, _, _ => None
        end
      else None
  | _ => None
  end.

Definition pad (width : nat) (z : Z) : string :=
  Js.padStart width "0" (Js.Z_toString z).

(** [date.toISOString().split('T')[0]]: the UTC calendar day of a time value. *)
Definition toISODate (t : Z) : string :=
  let '(y, m, d) := civilFromDays (t / msPerDay) in
  let year :=
    if (0 <=? y) && (y <=? 9999) then pad 4 y
    else if y <? 0 then String "-" (pad 6 (- y))
    else String "+" (pad 6 y) in
  year ++ "-" ++ pad 2 m ++ "-" ++ pad 2 d.

(** The local time zone as the [Date] object uses it. [offsetAt t] is the
    number of milliseconds local time is ahead of UTC at the instant [t];
    [offsetFor tl] is the offset the engine picks when it turns the local
    time value [tl] back into an instant (for a local time that a clock
    change skips or repeats, the offset before the change). *)
Record Zone := mkZone {
  offsetAt : Z -> Z;
  offsetFor : Z -> Z
}.

(** A zone that keeps one offset, [minutes] east of UTC, all year. *)
Definition fixedZone (minutes : Z) : Zone :=
  {| offsetAt := fun _ => minutes * 60000; offsetFor := fun _ => minutes * 60000 |}.

Definition localTime (zone : Zone) (t : Z) : Z := t + offsetAt zone t.

Definition toUTC (zone : Zone) (tl : Z) : Z := tl - offsetFor zone tl.

(** [date.getDay()]: the day of the week (0 = Sunday ... 6 = Saturday) of the
    local calendar day of the time value. *)
Definition getDay (zone : Zone) (t : Z) : Z :=
  (localTime zone t / msPerDay + 4) mod 7.

(** Day of the week of the UTC calendar day, the one [toISODate] prints. *)
Definition utcDay (t : Z) : Z := (t / msPerDay + 4) mod 7.

(** [date.setDate(date.getDate() + n)]: the same local time of day [n] local
    calendar days on; across a clock change that is not [n] times 24 hours.
    Time values stay inside the range a [Date] can hold. *)
Definition addDays (zone : Zone) (n : Z) (t : Z) : Z :=
  toUTC zone (localTime zone t + n * msPerDay).

(** [date.setDate(date.getDate() + 1)]. *)
Definition nextDay (zone : Zone) (t : Z) : Z := addDays zone 1 t.

(** [new Date(date + 'T00:00:00.000Z').getTime()] for a [date] made of
    4, 2 and 2 digits: midnight UTC of that day. Here the engines are told
    apart: a day number up to 31 that lies past the end of its month is
    rejected by the strict ones and carried over into the next month by the
    lenient ones ([lenient = true]). *)
Definition parseMidnightUTC (lenient : bool) (date : string) : option Z :=
  match Js.split "-" date with
  | [ys; ms; ds] =>
      if digits 4 ys && digits 2 ms && digits 2 ds then
        match Js.Number ys, Js.Number ms, Js.Number ds with
        | Some (Js.Num y), Some (Js.Num m), Some (Js.Num d) =>
            if (1 <=? m) && (m <=? 12) && (1 <=? d)
               && (d <=? (if lenient then 31 else daysInMonth y m))
            then Some (daysFromCivil y m d * msPerDay)
            else None
        | _, _, _ => None
        end
      else None
  | _ => None
  end.

End JsDate.

(* ===================================================================== *)
(** * Regular expression tests                                            *)
(* ===================================================================== *)

(** The patterns of the validators are built from a handful of combinators.
    A matcher maps the text to the list of remainders it can leave, so
    alternatives and optional parts backtrack the way the engine does. *)
Module Re.

Definition matcher := string -> list string.

Definition eps : matcher := fun s => [s].

Definition cls (p : ascii -> bool) : matcher := fun s =>
  match s with
  | String c rest => if p c then [rest] else []
  | EmptyString => []
  end.

Definition chr (c : ascii) : matcher := cls (Ascii.eqb c).

Definition seq (m1 m2 : matcher) : matcher := fun s => flat_map m2 (m1 s).

(** [m?] *)
Definition opt (m : matcher) : matcher := fun s => (m s ++ [s])%list.

(** [m{n}] *)
Fixpoint times (n : nat) (m : matcher) : matcher :=
  match n with
  | O => eps
  | S k => seq m (times k m)
  end.

(** [m{0,n}] *)
Fixpoint upto (n : nat) (m : matcher) : matcher :=
  match n with
  | O => eps
  | S k => opt (seq m (upto k m))
  end.

(** [[class]*] *)
Fixpoint many (p : ascii -> bool) (s : string) : list string :=
  match s with
  | String c rest => if p c then (many p rest ++ [s])%list else [s]
  | EmptyString => [s]
  end.

(** [[class]+] *)
Definition many1 (p : ascii -> bool) : matcher := seq (cls p) (many p).

(** [/^m$/.test(s)] *)
Definition test (m : matcher) (s : string) : bool :=
  existsb (String.eqb "") (m s).

(** [m1|m2] *)
Definition alt (m1 m2 : matcher) : matcher := fun s => (m1 s ++ m2 s)%list.

End Re.

Definition oneOf (chars : string) (c : ascii) : bool :=
  existsb (Ascii.eqb c) (list_ascii_of_string chars).

Definition digit19 (c : ascii) : bool :=
  let n := nat_of_ascii c in ((49 <=? n) && (n <=? 57))%nat.

(* ===================================================================== *)
(** * Data model (types/appointment.ts)                                   *)
(* ===================================================================== *)

Module TimeSlot.
Record t := mk {
  id : string;
  date : string;
  startTime : string;
  endTime : string;
  isAvailable : bool;
  bookedBy : option string
}.
End TimeSlot.

Module ContactInfo.
Record t := mk {
  name : string;
  phone : string;
  email : string
}.
End ContactInfo.

Module BookingConfirmation.
Record t := mk {
  name : string;
  phone : string;
  email : string;
  selectedSlot : TimeSlot.t;
  confirmationId : string
}.
End BookingConfirmation.

Inductive BookingStatus := CONFIRMED | CANCELLED | PENDING.

#[global] Instance BookingStatus_eq_dec : EqDecision BookingStatus.
Proof. solve_decision. Defined.

Module Booking.
(** [createdAt] holds the instant whose ISO 8601 rendering the code stores. *)
Record t := mk {
  id : string;
  contactInfo : ContactInfo.t;
  timeSlot : TimeSlot.t;
  status : BookingStatus;
  createdAt : Z;
  confirmationId : string
}.
End Booking.

Inductive ValidationErrorType :=
| REQUIRED_FIELD
| INVALID_EMAIL
| INVALID_PHONE
| INVALID_NAME
| SLOT_UNAVAILABLE
| BOOKING_CONFLICT.

Module ValidationError.
Record t := mk {
  field : string;
  type : ValidationErrorType;
  message : string
}.
End ValidationError.

Module ValidationResult.
Record t := mk {
  isValid : bool;
  errors : list ValidationError.t
}.
End ValidationResult.

(* ===================================================================== *)
(** * The shared world of the two singleton services                      *)
(* ===================================================================== *)

(** A pending [setTimeout] callback registered by [CalendarService.reserveSlot]:
    at or after [due] it deletes [target] from the reserved set. *)
Record Timer := { due : Z; target : string }.

(** [BookingService.reservations] entries. *)
Record Reservation := { userId : string; expiresAt : Z }.

(** What [saveToStorage] writes under [STORAGE_KEY]. *)
Record StorageBlob := {
  saved_bookings : gmap string Booking.t;
  saved_reservations : gmap string Reservation;
  saved_timestamp : Z
}.

Record World := mkWorld {
  now : Z;                                  (* Date.now() *)
  timers : list Timer;                      (* pending setTimeout callbacks *)
  localStorage : option StorageBlob;
  setItemFails : bool;                      (* localStorage.setItem throws (quota) *)
  reservedSlots : gset string;              (* CalendarService.reservedSlots *)
  bookedSlots : gmap string string;         (* CalendarService.bookedSlots: slotId -> userId *)
  bookings : gmap string Booking.t;         (* BookingService.bookings *)
  reservations : gmap string Reservation    (* BookingService.reservations *)
}.

(** Fresh singletons at time [t0], nothing stored. *)
Definition initial (t0 : Z) : World :=
  mkWorld t0 [] None false ∅ ∅ ∅ ∅.

Definition has {V} (m : gmap string V) (k : string) : bool :=
  match m !! k with Some _ => true | None => false end.

Definition member (s : gset string) (k : string) : bool := bool_decide (k ∈ s).

Definition with_now (t : Z) (w : World) : World :=
  mkWorld t (timers w) (localStorage w) (setItemFails w) (reservedSlots w) (bookedSlots w) (bookings w) (reservations w).
Definition with_timers (ts : list Timer) (w : World) : World :=
  mkWorld (now w) ts (localStorage w) (setItemFails w) (reservedSlots w) (bookedSlots w) (bookings w) (reservations w).
Definition with_localStorage (s : option StorageBlob) (w : World) : World :=
  mkWorld (now w) (timers w) s (setItemFails w) (reservedSlots w) (bookedSlots w) (bookings w)
    (reservations w).
Definition with_setItemFails (b : bool) (w : World) : World :=
  mkWorld (now w) (timers w) (localStorage w) b (reservedSlots w) (bookedSlots w) (bookings w)
    (reservations w).
Definition with_reservedSlots (r : gset string) (w : World) : World :=
  mkWorld (now w) (timers w) (localStorage w) (setItemFails w) r (bookedSlots w) (bookings w)
    (reservations w).
Definition with_bookedSlots (b : gmap string string) (w : World) : World :=
  mkWorld (now w) (timers w) (localStorage w) (setItemFails w) (reservedSlots w) b (bookings w) (reservations w).
Definition with_bookings (b : gmap string Booking.t) (w : World) : World :=
  mkWorld (now w) (timers w) (localStorage w) (setItemFails w) (reservedSlots w) (bookedSlots w) b (reservations w).
Definition with_reservations (r : gmap string Reservation) (w : World) : World :=
  mkWorld (now w) (timers w) (localStorage w) (setItemFails w) (reservedSlots w) (bookedSlots w) (bookings w) r.

(* ===================================================================== *)
(** * CalendarService                                                     *)
(* ===================================================================== *)

Module CalendarService.

(** [minutesToTimeString]: [Math.floor(minutes / 60)] and the remainder
    [minutes % 60] (which takes the sign of [minutes]), each padded to two
    characters. On a safe integer the division is rounded by less than 1/60,
    so the floor is that of the exact quotient. *)
Definition minutesToTimeString (minutes : Js.num) : string :=
  let hours := match minutes with Js.Num z => Js.Num (z / 60) | Js.NaN => Js.NaN end in
  let mins := match minutes with Js.Num z => Js.Num (Z.rem z 60) | Js.NaN => Js.NaN end in
  (Js.padStart 2 "0" (Js.toString hours) ++ ":" ++ Js.padStart 2 "0" (Js.toString mins))%string.

(** Element [k] of [pieces.map(Number)], read as a number: a missing
    element is [undefined], which behaves as [NaN]. *)
Definition piece (pieces : list string) (k : nat) : option Js.num :=
  match nth_error pieces k with
  | Some text => Js.Number text
  | None => Some Js.NaN
  end.

(** [const [h, m] = time.split(':').map(Number); h * 60 + m]. Only the first
    two pieces are used. *)
Definition timeToMinutes (time : string) : option Js.num :=
  let pieces := Js.split ":" time in
  match piece pieces 0, piece pieces 1 with
  | Some h, Some m =>
      match Js.mul h (Js.Num 60) with
      | Some hm => Js.add hm m
      | None => None
      end
  | _, _ => None
  end.

Definition isSlotAvailable (slotId : string) (w : World) : bool :=
  negb (has (bookedSlots w) slotId) && negb (member (reservedSlots w) slotId).

(** The body of the loop of [generateDailySlots] for one value of [minutes]. *)
Definition dailySlot (w : World) (date : string) (minutes intervalMinutes : Z) : TimeSlot.t :=
  let slotStartTime := minutesToTimeString (Js.Num minutes) in
  let slotEndTime := minutesToTimeString (Js.Num (minutes + intervalMinutes)) in
  let slotId := (date ++ "_" ++ slotStartTime)%string in
  let isAvailable := negb (has (bookedSlots w) slotId) && negb (member (reservedSlots w) slotId) in
  {| TimeSlot.id := slotId;
     TimeSlot.date := date;
     TimeSlot.startTime := slotStartTime;
     TimeSlot.endTime := slotEndTime;
     TimeSlot.isAvailable := isAvailable;
     TimeSlot.bookedBy := bookedSlots w !! slotId |}.

(** [for (minutes = startMinutes; minutes < endMinutes; minutes += intervalMinutes)].
    One unit of fuel per evaluation of the loop test. The answer is [None]
    when the fuel runs out before the loop ends, and when [minutes +
    intervalMinutes] is no safe integer (the sum would be rounded). *)
Fixpoint dailyLoop (fuel : nat) (w : World) (date : string)
    (minutes endMinutes intervalMinutes : Z) : option (list TimeSlot.t) :=
  match fuel with
  | O => None
  | S fuel' =>
      if minutes <? endMinutes then
        if Js.isSafeInteger (minutes + intervalMinutes) then
          match dailyLoop fuel' w date (minutes + intervalMinutes) endMinutes intervalMinutes with
          | Some slots => Some (dailySlot w date minutes intervalMinutes :: slots)
          | None => None
          end
        else None
      else Some []
  end.

(** [generateDailySlots] for an interval that is a whole number of minutes.
    [None]: no answer in the model (a time text or the interval outside the
    modelled numbers, or the fuel used up). *)
Definition generateDailySlots (fuel : nat) (date startTime endTime : string)
    (intervalMinutes : Z) (w : World) : option (list TimeSlot.t) :=
  if negb (Js.isSafeInteger intervalMinutes) then None
  else
    match timeToMinutes startTime, timeToMinutes endTime with
    | Some (Js.Num startMinutes), Some (Js.Num endMinutes) =>
        dailyLoop fuel w date startMinutes endMinutes intervalMinutes
    | Some _, Some _ => Some []   (* a comparison with NaN is false: the body never runs *)
    | _, _ => None
    end.

Definition isWeekend (dayOfWeek : Z) : bool := (dayOfWeek =? 0) || (dayOfWeek =? 6).

(** [for (date = new Date(start); date <= end; date.setDate(date.getDate() + 1))]
    in the local time zone [tz]: the day of the week is the local one, the
    printed date the UTC one. *)
Fixpoint dateLoop (fuel : nat) (tz : JsDate.Zone) (w : World) (date end_ : Z)
    (startTime endTime : string) (intervalMinutes : Z) : option (list TimeSlot.t) :=
  match fuel with
  | O => None
  | S fuel' =>
      if date <=? end_ then
        let dateString := JsDate.toISODate date in
        let dayOfWeek := JsDate.getDay tz date in
        if isWeekend dayOfWeek then
          dateLoop fuel' tz w (JsDate.nextDay tz date) end_ startTime endTime intervalMinutes
        else
          match generateDailySlots fuel' dateString startTime endTime intervalMinutes w with
          | Some dailySlots =>
              match dateLoop fuel' tz w (JsDate.nextDay tz date) end_ startTime endTime
                      intervalMinutes with
              | Some slots => Some (dailySlots ++ slots)%list
              | None => None
              end
          | None => None
          end
      else Some []
  end.

Definition generateTimeSlots (fuel : nat) (tz : JsDate.Zone)
    (startDate endDate startTime endTime : string)
    (intervalMinutes : Z) (w : World) : option (list TimeSlot.t) :=
  match JsDate.parse startDate, JsDate.parse endDate with
  | Some start, Some end_ => dateLoop fuel tz w start end_ startTime endTime intervalMinutes
  | _, _ => Some []   (* an invalid date compares false: the body never runs *)
  end.

(** [reserveSlot]: the hold is a bare set entry, released by a timer the call
    registers; the timer waits for the delay [setTimeout] honours. *)
Definition reserveSlot (slotId : string) (reservationTimeoutMs : Z) (w : World) : bool * World :=
  if has (bookedSlots w) slotId || member (reservedSlots w) slotId then (false, w)
  else
    (true,
     with_timers
       (timers w ++ [{| due := now w + Js.timerDelay reservationTimeoutMs; target := slotId |}])
       (with_reservedSlots ({[ slotId ]} ∪ reservedSlots w) w)).

(** The callback [() => this.reservedSlots.delete(slotId)]. *)
Definition releaseCallback (slotId : string) (w : World) : World :=
  with_reservedSlots (reservedSlots w ∖ {[ slotId ]}) w.

Definition bookSlot (slotId userId : string) (w : World) : bool * World :=
  if has (bookedSlots w) slotId then (false, w)
  else
    (true,
     with_bookedSlots (<[ slotId := userId ]> (bookedSlots w))
       (with_reservedSlots (reservedSlots w ∖ {[ slotId ]}) w)).

Definition cancelBooking (slotId userId : string) (w : World) : bool * World :=
  if decide (bookedSlots w !! slotId = Some userId)
  then (true, with_bookedSlots (delete slotId (bookedSlots w)) w)
  else (false, w).

(** [hours * 60 + minutes + 30] of [getSlotById]. *)
Definition endMinutes (startTime : string) : option Js.num :=
  match timeToMinutes startTime with
  | Some start => Js.add start (Js.Num 30)
  | None => None
  end.

(** [getSlotById]. The outer [None]: no answer in the model (the start time
    is outside the modelled numbers); [Some None]: the call returns null. *)
Definition getSlotById (slotId : string) (w : World) : option (option TimeSlot.t) :=
  let pieces := Js.split "_" slotId in
  match pieces !! 0%nat, pieces !! 1%nat with
  | Some date, Some startTime =>
      if String.eqb date "" || String.eqb startTime "" then Some None
      else
        match endMinutes startTime with
        | Some endMinutes =>
            let endTime := minutesToTimeString endMinutes in
            Some (Some {| TimeSlot.id := slotId;
                          TimeSlot.date := date;
                          TimeSlot.startTime := startTime;
                          TimeSlot.endTime := endTime;
                          TimeSlot.isAvailable := isSlotAvailable slotId w;
                          TimeSlot.bookedBy := bookedSlots w !! slotId |})
        | None => None
        end
  | _, _ => Some None   (* a piece is undefined *)
  end.

Definition clearReservations (w : World) : World := with_reservedSlots ∅ w.

Definition clearBookings (w : World) : World := with_bookedSlots ∅ w.

(** [getAvailableSlots] for a whole number of [days]: [today] is the clock
    reading, the end date the same local time of day [days] local days on. *)
Definition getAvailableSlots (fuel : nat) (tz : JsDate.Zone) (days : Z)
    (startTime endTime : string)
    (intervalMinutes : Z) (w : World) : option (list TimeSlot.t) :=
  let today := now w in
  let startDate := JsDate.toISODate today in
  let endDate := JsDate.addDays tz days today in
  let endDateString := JsDate.toISODate endDate in
  match generateTimeSlots fuel tz startDate endDateString startTime endTime intervalMinutes w with
  | Some allSlots => Some (List.filter TimeSlot.isAvailable allSlots)
  | None => None
  end.

(** The object [getBookingStats] of the calendar returns. *)
Record CalendarStats := {
  totalBooked : nat;
  totalReserved : nat;
  totalAvailable : nat
}.

(** [getBookingStats], which calls [getAvailableSlots()] with its defaults:
    14 days, 09:00 to 17:00, 30 minutes. *)
Definition getBookingStats (fuel : nat) (tz : JsDate.Zone) (w : World) : option CalendarStats :=
  match getAvailableSlots fuel tz 14 "09:00" "17:00" 30 w with
  | Some slots =>
      Some {| totalBooked := size (bookedSlots w);
              totalReserved := size (reservedSlots w);
              totalAvailable := length slots |}
  | None => None
  end.

(** [/^([0-1]?[0-9]|2[0-3]):[0-5][0-9]$/] *)
Definition timeRegex : Re.matcher :=
  Re.seq
    (Re.alt (Re.seq (Re.opt (Re.cls (oneOf "01"))) (Re.cls Js.isDigit))
            (Re.seq (Re.chr "2") (Re.cls (oneOf "0123"))))
    (Re.seq (Re.chr ":") (Re.seq (Re.cls (oneOf "012345")) (Re.cls Js.isDigit))).

(** The static [isValidTimeFormat]. *)
Definition isValidTimeFormat (time : string) : bool := Re.test timeRegex time.

(** [/^\d{4}-\d{2}-\d{2}$/] *)
Definition dateRegex : Re.matcher :=
  Re.seq (Re.times 4 (Re.cls Js.isDigit))
    (Re.seq (Re.chr "-")
       (Re.seq (Re.times 2 (Re.cls Js.isDigit))
          (Re.seq (Re.chr "-") (Re.times 2 (Re.cls Js.isDigit))))).

(** The static [isValidDateFormat], on an engine that is [lenient] or not
    about days past the end of a month. *)
Definition isValidDateFormat (lenient : bool) (date : string) : bool :=
  if negb (Re.test dateRegex date) then false
  else
    match JsDate.parseMidnightUTC lenient date with
    | None => false
    | Some dateObj => String.eqb (JsDate.toISODate dateObj) date
    end.

End CalendarService.

(* ===================================================================== *)
(** * Form validators (utils/validation.ts)                               *)
(* ===================================================================== *)

Definition is_Some_b {A} (o : option A) : bool :=
  match o with Some _ => true | None => false end.

Module Validation.

Definition sep (c : ascii) : bool := oneOf "-." c || Js.isSpace c.

(** [/^[\+]?[1-9]?[\-\.\s]?\(?[0-9]{3}\)?[\-\.\s]?[0-9]{3}[\-\.\s]?[0-9]{4}$/] *)
Definition PHONE_REGEX : Re.matcher :=
  Re.seq (Re.opt (Re.chr "+"))
    (Re.seq (Re.opt (Re.cls digit19))
       (Re.seq (Re.opt (Re.cls sep))
          (Re.seq (Re.opt (Re.chr "("))
             (Re.seq (Re.times 3 (Re.cls Js.isDigit))
                (Re.seq (Re.opt (Re.chr ")"))
                   (Re.seq (Re.opt (Re.cls sep))
                      (Re.seq (Re.times 3 (Re.cls Js.isDigit))
                         (Re.seq (Re.opt (Re.cls sep))
                            (Re.times 4 (Re.cls Js.isDigit)))))))))).

Definition err (field : string) (type : ValidationErrorType) (message : string) :=
  {| ValidationError.field := field; ValidationError.type := type;
     ValidationError.message := message |}.

Definition validatePhone (phone : string) : option ValidationError.t :=
  let trimmedPhone := Js.trim phone in
  if String.eqb trimmedPhone "" then
    Some (err "phone" REQUIRED_FIELD "Phone number is required")
  else if negb (Re.test PHONE_REGEX trimmedPhone) then
    Some (err "phone" INVALID_PHONE
            "Please enter a valid phone number (e.g., (123) 456-7890)")
  else
    let digitsOnly := Js.remove (fun c => negb (Js.isDigit c)) trimmedPhone in
    if (String.length digitsOnly <? 10)%nat then
      Some (err "phone" INVALID_PHONE "Phone number must be at least 10 digits")
    else if (15 <? String.length digitsOnly)%nat then
      Some (err "phone" INVALID_PHONE "Phone number must be less than 15 digits")
    else None.

(** [/^[a-zA-Z0-9._%+-]+@[a-zA-Z0-9.-]+\.[a-zA-Z]{2,}$/] *)
Definition EMAIL_REGEX : Re.matcher :=
  Re.seq (Re.many1 (fun c => Js.isAlpha c || Js.isDigit c || oneOf "._%+-" c))
    (Re.seq (Re.chr "@")
       (Re.seq (Re.many1 (fun c => Js.isAlpha c || Js.isDigit c || oneOf ".-" c))
          (Re.seq (Re.chr ".")
             (Re.seq (Re.times 2 (Re.cls Js.isAlpha)) (Re.many Js.isAlpha))))).

(** The class [[a-zA-Z\s\-']]. *)
Definition nameChar (c : ascii) : bool := Js.isAlpha c || Js.isSpace c || oneOf "-'" c.

(** [/^[a-zA-Z\s\-']{2,50}$/] *)
Definition NAME_REGEX : Re.matcher :=
  Re.seq (Re.times 2 (Re.cls nameChar)) (Re.upto 48 (Re.cls nameChar)).

Definition validateName (name : string) : option ValidationError.t :=
  let trimmedName := Js.trim name in
  if String.eqb trimmedName "" then
    Some (err "name" REQUIRED_FIELD "Name is required")
  else if (String.length trimmedName <? 2)%nat then
    Some (err "name" INVALID_NAME "Name must be at least 2 characters long")
  else if (50 <? String.length trimmedName)%nat then
    Some (err "name" INVALID_NAME "Name must be less than 50 characters")
  else if negb (Re.test NAME_REGEX trimmedName) then
    Some (err "name" INVALID_NAME
            "Name can only contain letters, spaces, hyphens, and apostrophes")
  else None.

Definition validateEmail (email : string) : option ValidationError.t :=
  let trimmedEmail := Js.trim email in
  if String.eqb trimmedEmail "" then
    Some (err "email" REQUIRED_FIELD "Email is required")
  else if negb (Re.test EMAIL_REGEX trimmedEmail) then
    Some (err "email" INVALID_EMAIL "Please enter a valid email address")
  else None.

(** [phone.replace(/\D/g, '')] *)
Definition digitsOnly (phone : string) : string :=
  Js.remove (fun c => negb (Js.isDigit c)) phone.

Definition formatPhoneNumber (phone : string) : string :=
  let digits := digitsOnly phone in
  if (String.length digits =? 10)%nat then
    ("(" ++ Js.slice 0 3 digits ++ ") " ++ Js.slice 3 6 digits ++ "-" ++ Js.sliceFrom 6 digits)%string
  else if (String.length digits =? 11)%nat && String.prefix "1" digits then
    ("+1 (" ++ Js.slice 1 4 digits ++ ") " ++ Js.slice 4 7 digits ++ "-"
       ++ Js.sliceFrom 7 digits)%string
  else phone.

(** The object [validateContactForm] returns. *)
Record ContactFormResult := {
  formIsValid : bool;
  nameResult : option ValidationError.t;
  emailResult : option ValidationError.t;
  phoneResult : option ValidationError.t
}.

Definition validateContactForm (name email phone : string) : ContactFormResult :=
  let n := validateName name in
  let e := validateEmail email in
  let p := validatePhone phone in
  {| formIsValid := negb (is_Some_b n) && negb (is_Some_b e) && negb (is_Some_b p);
     nameResult := n; emailResult := e; phoneResult := p |}.

End Validation.

(* ===================================================================== *)
(** * BookingService                                                      *)
(* ===================================================================== *)

(** The value [createBooking] resolves to: [{ success, data?, error? }]. *)
Module CreateBookingResult.
Record t := mk {
  success : bool;
  data : option BookingConfirmation.t;
  error : option string
}.
End CreateBookingResult.

(** The object [getBookingStats] of the booking service returns; the
    calendar's three counters, spread into it by the source, are kept
    together in [calendarStats]. *)
Module BookingStats.
Record t := mk {
  total : nat;
  confirmed : nat;
  cancelled : nat;
  pending : nat;
  activeReservations : nat;
  calendarStats : CalendarService.CalendarStats
}.
End BookingStats.

Module BookingService.

Definition RESERVATION_TIMEOUT : Z := 5 * 60 * 1000.

(** [saveToStorage]: when [setItem] throws, the [catch] branch logs the error
    and the stored entry stays as it was. *)
Definition saveToStorage (w : World) : World :=
  with_localStorage
    (if setItemFails w then localStorage w
     else Some {| saved_bookings := bookings w;
                  saved_reservations := reservations w;
                  saved_timestamp := now w |}) w.

Definition dangerous (c : ascii) : bool :=
  oneOf "<>'&" c || Ascii.eqb c (ascii_of_nat 34).

Definition sanitizeString (input : string) : string :=
  if String.eqb input "" then ""
  else Js.take 255 (Js.remove dangerous (Js.trim input)).

Definition sanitizeContactInfo (contactInfo : ContactInfo.t) : ContactInfo.t :=
  {| ContactInfo.name := sanitizeString (ContactInfo.name contactInfo);
     ContactInfo.email := Js.toLowerCase (sanitizeString (ContactInfo.email contactInfo));
     ContactInfo.phone := sanitizeString (ContactInfo.phone contactInfo) |}.

Definition notSpaceAt (c : ascii) : bool := negb (Js.isSpace c || Ascii.eqb c "@").

(** [/^[^\s@]+@[^\s@]+\.[^\s@]+$/] *)
Definition emailRegex : Re.matcher :=
  Re.seq (Re.many1 notSpaceAt)
    (Re.seq (Re.chr "@")
       (Re.seq (Re.many1 notSpaceAt)
          (Re.seq (Re.chr ".") (Re.many1 notSpaceAt)))).

(** [/^[\+]?[1-9][\d]{0,15}$/] *)
Definition phoneRegex : Re.matcher :=
  Re.seq (Re.opt (Re.chr "+"))
    (Re.seq (Re.cls digit19) (Re.upto 15 (Re.cls Js.isDigit))).

(** The class of [/[\s\-\(\)]/g]. *)
Definition phoneSeparator (c : ascii) : bool := Js.isSpace c || oneOf "-()" c.

Definition validateContactInfo (contactInfo : ContactInfo.t) : ValidationResult.t :=
  let sanitizedName := sanitizeString (ContactInfo.name contactInfo) in
  let nameErrors :=
    if String.eqb sanitizedName "" || (String.length sanitizedName <? 2)%nat
    then [Validation.err "name" REQUIRED_FIELD "Name must be at least 2 characters long"]
    else [] in
  let sanitizedEmail := sanitizeString (ContactInfo.email contactInfo) in
  let emailErrors :=
    if String.eqb sanitizedEmail "" || negb (Re.test emailRegex sanitizedEmail)
    then [Validation.err "email" INVALID_EMAIL "Please enter a valid email address"]
    else [] in
  let sanitizedPhone := sanitizeString (ContactInfo.phone contactInfo) in
  let cleanPhone := Js.remove phoneSeparator sanitizedPhone in
  let phoneErrors :=
    if String.eqb sanitizedPhone "" || negb (Re.test phoneRegex cleanPhone)
    then [Validation.err "phone" INVALID_PHONE "Please enter a valid phone number"]
    else [] in
  let errors := (nameErrors ++ emailErrors ++ phoneErrors)%list in
  {| ValidationResult.isValid := (length errors =? 0)%nat;
     ValidationResult.errors := errors |}.

(** [generateBookingId]; [rnd] stands for the outcome of
    [Math.random().toString(36).substr(2, 9)]. *)
Definition generateBookingId (rnd : string) (w : World) : string :=
  ("booking_" ++ Js.Z_toString (now w) ++ "_" ++ rnd)%string.

(** [generateConfirmationId]; [rnd] stands for the outcome of
    [Math.random().toString(36).substr(2, 4)]. *)
Definition generateConfirmationId (rnd : string) (w : World) : string :=
  ("CONF" ++ Js.takeLast 6 (Js.Z_toString (now w)) ++ Js.toUpperCase rnd)%string.

Definition failure (message : string) : CreateBookingResult.t :=
  {| CreateBookingResult.success := false;
     CreateBookingResult.data := None;
     CreateBookingResult.error := Some message |}.

(** [reservation && reservation.userId !== userId] *)
Definition reservedByOther (slotId user : string) (w : World) : bool :=
  match reservations w !! slotId with
  | Some reservation => negb (String.eqb (userId reservation) user)
  | None => false
  end.

(** [createBooking]. The clock does not move during the call; [rnd1] and
    [rnd2] are the two random draws. No step of the body can throw in this
    model, so the [catch] branch is not reached. *)
Definition createBooking (contactInfo : ContactInfo.t) (timeSlot : TimeSlot.t)
    (userId : string) (rnd1 rnd2 : string) (w : World) : CreateBookingResult.t * World :=
  let validationResult := validateContactInfo contactInfo in
  if negb (ValidationResult.isValid validationResult) then
    (failure ("Validation failed: " ++
              Js.join ", " (map ValidationError.message (ValidationResult.errors validationResult))), w)
  else if negb (CalendarService.isSlotAvailable (TimeSlot.id timeSlot) w) then
    (failure "Selected time slot is no longer available", w)
  else if reservedByOther (TimeSlot.id timeSlot) userId w then
    (failure "Time slot is reserved by another user", w)
  else
    let '(bookingSuccess, w1) := CalendarService.bookSlot (TimeSlot.id timeSlot) userId w in
    if negb bookingSuccess then
      (failure "Failed to book time slot - conflict detected", w1)
    else
      let booking :=
        {| Booking.id := generateBookingId rnd1 w1;
           Booking.contactInfo := sanitizeContactInfo contactInfo;
           Booking.timeSlot :=
             {| TimeSlot.id := TimeSlot.id timeSlot;
                TimeSlot.date := TimeSlot.date timeSlot;
                TimeSlot.startTime := TimeSlot.startTime timeSlot;
                TimeSlot.endTime := TimeSlot.endTime timeSlot;
                TimeSlot.isAvailable := false;
                TimeSlot.bookedBy := Some userId |};
           Booking.status := CONFIRMED;
           Booking.createdAt := now w1;
           Booking.confirmationId := generateConfirmationId rnd2 w1 |} in
      let w2 := with_bookings (<[ Booking.id booking := booking ]> (bookings w1)) w1 in
      let w3 := with_reservations (delete (TimeSlot.id timeSlot) (reservations w2)) w2 in
      let w4 := saveToStorage w3 in
      let confirmation :=
        {| BookingConfirmation.name := ContactInfo.name (Booking.contactInfo booking);
           BookingConfirmation.phone := ContactInfo.phone (Booking.contactInfo booking);
           BookingConfirmation.email := ContactInfo.email (Booking.contactInfo booking);
           BookingConfirmation.selectedSlot := Booking.timeSlot booking;
           BookingConfirmation.confirmationId := Booking.confirmationId booking |} in
      ({| CreateBookingResult.success := true;
          CreateBookingResult.data := Some confirmation;
          CreateBookingResult.error := None |}, w4).

(** [existingReservation && existingReservation.userId !== userId &&
    Date.now() < existingReservation.expiresAt] *)
Definition heldByOther (slotId user : string) (w : World) : bool :=
  match reservations w !! slotId with
  | Some existingReservation =>
      negb (String.eqb (userId existingReservation) user)
      && (now w <? expiresAt existingReservation)
  | None => false
  end.

Definition reserveSlot (slotId user : string) (w : World) : bool * World :=
  if negb (CalendarService.isSlotAvailable slotId w) then (false, w)
  else if heldByOther slotId user w then (false, w)
  else
    let '(calendarReserved, w1) := CalendarService.reserveSlot slotId RESERVATION_TIMEOUT w in
    if negb calendarReserved then (false, w1)
    else
      let w2 :=
        with_reservations
          (<[ slotId := {| userId := user; expiresAt := now w1 + RESERVATION_TIMEOUT |} ]>
             (reservations w1)) w1 in
      (true, saveToStorage w2).

Definition releaseReservation (slotId user : string) (w : World) : bool * World :=
  match reservations w !! slotId with
  | Some reservation =>
      if negb (String.eqb (userId reservation) user) then (false, w)
      else (true, saveToStorage (with_reservations (delete slotId (reservations w)) w))
  | None => (false, w)
  end.

Definition cancelled (booking : Booking.t) : Booking.t :=
  {| Booking.id := Booking.id booking;
     Booking.contactInfo := Booking.contactInfo booking;
     Booking.timeSlot := Booking.timeSlot booking;
     Booking.status := CANCELLED;
     Booking.createdAt := Booking.createdAt booking;
     Booking.confirmationId := Booking.confirmationId booking |}.

(** [cancelBooking]: the record found under [bookingId] is updated in place;
    the outcome of [calendarService.cancelBooking] is discarded. *)
Definition cancelBooking (bookingId user : string) (w : World) : bool * World :=
  match bookings w !! bookingId with
  | None => (false, w)
  | Some booking =>
      if decide (TimeSlot.bookedBy (Booking.timeSlot booking) = Some user) then
        let w1 := with_bookings (<[ bookingId := cancelled booking ]> (bookings w)) w in
        let '(_, w2) :=
          CalendarService.cancelBooking (TimeSlot.id (Booking.timeSlot booking)) user w1 in
        (true, saveToStorage w2)
      else (false, w)
  end.

Definition getBooking (bookingId : string) (w : World) : option Booking.t :=
  bookings w !! bookingId.

Definition hasBookingConflict (timeSlot : TimeSlot.t) (excludeUserId : option string)
    (w : World) : bool :=
  if negb (CalendarService.isSlotAvailable (TimeSlot.id timeSlot) w) then true
  else
    match reservations w !! TimeSlot.id timeSlot with
    | Some reservation =>
        if decide (Some (userId reservation) = excludeUserId) then false
        else now w <? expiresAt reservation
    | None => false
    end.

(** The [setInterval] callback of [startReservationCleanup]. *)
Definition reservationCleanup (w : World) : World :=
  saveToStorage
    (with_reservations
       (filter (fun kv => ¬ (expiresAt kv.2 <= now w)) (reservations w)) w).

Definition clearAllData (w : World) : World :=
  with_localStorage None
    (CalendarService.clearReservations
       (CalendarService.clearBookings
          (with_reservations ∅ (with_bookings ∅ w)))).

(** [loadFromStorage]: the stored bookings replace the table; of the stored
    reservations those not yet expired are kept. Reading the entry and
    parsing it are taken to succeed. *)
Definition loadFromStorage (w : World) : World :=
  match localStorage w with
  | Some data =>
      with_reservations
        (filter (fun kv => now w < expiresAt kv.2) (saved_reservations data))
        (with_bookings (saved_bookings data) w)
  | None => w
  end.

(** [bookings.filter(b => b.status === status).length] *)
Definition countStatus (status : BookingStatus) (w : World) : nat :=
  size (filter (fun kv => Booking.status kv.2 = status) (bookings w)).

Definition getBookingStats (fuel : nat) (tz : JsDate.Zone) (w : World)
    : option BookingStats.t :=
  match CalendarService.getBookingStats fuel tz w with
  | Some stats =>
      Some {| BookingStats.total := size (bookings w);
              BookingStats.confirmed := countStatus CONFIRMED w;
              BookingStats.cancelled := countStatus CANCELLED w;
              BookingStats.pending := countStatus PENDING w;
              BookingStats.activeReservations := size (reservations w);
              BookingStats.calendarStats := stats |}
  | None => None
  end.

End BookingService.

(* ===================================================================== *)
(** * IntentDetectionService                                              *)
(* ===================================================================== *)

Inductive IntentConfidence := LOW | MEDIUM | HIGH.

Module IntentDetectionResult.
Record t := mk {
  isBookingIntent : bool;
  confidence : IntentConfidence;
  matchedPhrases : list string
}.
End IntentDetectionResult.

Module IntentDetectionService.

Definition high : list string :=
  [ "book an appointment"; "schedule an appointment"; "book a call"; "schedule a call";
    "make an appointment"; "set up an appointment"; "arrange an appointment";
    "reserve an appointment" ].

Definition medium : list string :=
  [ "talk to an agent"; "speak to an agent"; "speak with an agent"; "talk with an agent";
    "contact an agent"; "reach an agent"; "get in touch with an agent";
    "connect me to an agent"; "transfer me to an agent"; "human agent"; "live agent";
    "real person"; "human support"; "live support" ].

Definition low : list string :=
  [ "appointment"; "booking"; "schedule"; "call"; "agent"; "support"; "help";
    "assistance"; "talk"; "speak"; "contact"; "human" ].

Definition questionPatterns : list string :=
  [ "can i book"; "how do i book"; "how to book"; "when can i"; "is it possible to";
    "could i schedule"; "can i schedule"; "how do i schedule"; "when is available";
    "what times are"; "do you have availability" ].

(** The loop over a phrase list, left at the first phrase the message
    includes. *)
Definition firstMatch (phrases : list string) (normalizedMessage : string) : option string :=
  List.find (fun phrase => Js.includes (Js.toLowerCase phrase) normalizedMessage) phrases.

Definition hasBookingQuestionPattern (normalizedMessage : string) : bool :=
  existsb (fun pattern => Js.includes pattern normalizedMessage) questionPatterns.

Definition countRelevantTerms (normalizedMessage : string) : nat :=
  length (List.filter (fun phrase => Js.includes (Js.toLowerCase phrase) normalizedMessage)
            (high ++ medium ++ low)%list).

Definition analyzeIntent (message : string) : IntentDetectionResult.t :=
  if String.eqb (Js.trim message) "" then
    {| IntentDetectionResult.isBookingIntent := false;
       IntentDetectionResult.confidence := LOW;
       IntentDetectionResult.matchedPhrases := [] |}
  else
    let normalizedMessage := Js.trim (Js.toLowerCase message) in
    match firstMatch high normalizedMessage with
    | Some phrase =>
        {| IntentDetectionResult.isBookingIntent := true;
           IntentDetectionResult.confidence := HIGH;
           IntentDetectionResult.matchedPhrases := [phrase] |}
    | None =>
        let found :=
          match firstMatch medium normalizedMessage with
          | Some phrase => Some (phrase, MEDIUM)
          | None =>
              match firstMatch low normalizedMessage with
              | Some phrase => Some (phrase, LOW)
              | None => None
              end
          end in
        match found with
        | Some (phrase, highestConfidence) =>
            let afterQuestion :=
              if hasBookingQuestionPattern normalizedMessage then
                match highestConfidence with LOW => MEDIUM | c => c end
              else highestConfidence in
            let relevantTermCount := countRelevantTerms normalizedMessage in
            let boosted :=
              match afterQuestion with
              | LOW => if (3 <=? relevantTermCount)%nat then MEDIUM else LOW
              | c => c
              end in
            {| IntentDetectionResult.isBookingIntent := true;
               IntentDetectionResult.confidence := boosted;
               IntentDetectionResult.matchedPhrases := [phrase] |}
        | None =>
            {| IntentDetectionResult.isBookingIntent := false;
               IntentDetectionResult.confidence := LOW;
               IntentDetectionResult.matchedPhrases := [] |}
        end
    end.

Definition detectBookingIntent (message : string) : bool :=
  IntentDetectionResult.isBookingIntent (analyzeIntent message).

End IntentDetectionService.

(* ===================================================================== *)
(** * How the world evolves                                               *)
(* ===================================================================== *)

(** [setTimeout] guarantees only that a callback does not run before the
    delay it honours has elapsed; it may run any time after. The clock that
    [Date.now()] reads is taken to advance in step with the timers (the
    system clock is not set back or forth while the page runs). *)
Definition fireTimer (i : nat) (w : World) : option World :=
  match timers w !! i with
  | Some t =>
      if due t <=? now w
      then Some (CalendarService.releaseCallback (target t) (with_timers (delete i (timers w)) w))
      else None
  | None => None
  end.

(** A reload of the page at clock reading [t]: both singletons are built
    anew, so the calendar starts empty and no timer is pending; local storage
    survives and the constructor of the booking service loads from it. *)
Definition reload (t : Z) (w : World) : World :=
  BookingService.loadFromStorage (mkWorld t [] (localStorage w) (setItemFails w) ∅ ∅ ∅ ∅).

(** What happens between two calls of the services: time passes, a due timer
    callback runs, the periodic cleanup runs, the storage fills up or is
    freed. *)
Inductive env_step : World -> World -> Prop :=
| env_tick w dt : 0 <= dt -> env_step w (with_now (now w + dt) w)
| env_timer w i w' : fireTimer i w = Some w' -> env_step w w'
| env_cleanup w : env_step w (BookingService.reservationCleanup w)
| env_storage w b : env_step w (with_setItemFails b w).

(** One call of the public interface of [CalendarService] that changes state. *)
Inductive calendar_step : World -> World -> Prop :=
| cal_reserveSlot w slotId ms :
    calendar_step w (CalendarService.reserveSlot slotId ms w).2
| cal_bookSlot w slotId user :
    calendar_step w (CalendarService.bookSlot slotId user w).2
| cal_cancelBooking w slotId user :
    calendar_step w (CalendarService.cancelBooking slotId user w).2
| cal_clearReservations w :
    calendar_step w (CalendarService.clearReservations w)
| cal_clearBookings w :
    calendar_step w (CalendarService.clearBookings w).

(** One call of the public interface of [BookingService] that changes state. *)
Inductive booking_step : World -> World -> Prop :=
| bk_createBooking w contactInfo timeSlot user rnd1 rnd2 :
    booking_step w (BookingService.createBooking contactInfo timeSlot user rnd1 rnd2 w).2
| bk_reserveSlot w slotId user :
    booking_step w (BookingService.reserveSlot slotId user w).2
| bk_releaseReservation w slotId user :
    booking_step w (BookingService.releaseReservation slotId user w).2
| bk_cancelBooking w bookingId user :
    booking_step w (BookingService.cancelBooking bookingId user w).2
| bk_clearAllData w :
    booking_step w (BookingService.clearAllData w).

Inductive step (w w' : World) : Prop :=
| step_env : env_step w w' -> step w w'
| step_calendar : calendar_step w w' -> step w w'
| step_booking : booking_step w w' -> step w w'.

(** The states the program can be in, starting from fresh singletons. *)
Inductive reachable : World -> Prop :=
| reachable_initial t0 : reachable (initial t0)
| reachable_step w w' : reachable w -> step w w' -> reachable w'.

(* ===================================================================== *)
(** * Vocabulary of the properties                                        *)
(* ===================================================================== *)

(** No slot is held and booked at once. *)
Definition exclusive (w : World) : Prop :=
  ∀ slotId, ¬ (slotId ∈ reservedSlots w ∧ is_Some (bookedSlots w !! slotId)).

(** The example data of the scenarios. *)
Definition validContact : ContactInfo.t :=
  {| ContactInfo.name := "John Doe";
     ContactInfo.phone := "1234567890";
     ContactInfo.email := "john@example.com" |}.

Definition badContact : ContactInfo.t :=
  {| ContactInfo.name := "J"; ContactInfo.phone := "1"; ContactInfo.email := "bad" |}.

Definition slot0900 : TimeSlot.t :=
  {| TimeSlot.id := "2024-01-16_09:00";
     TimeSlot.date := "2024-01-16";
     TimeSlot.startTime := "09:00";
     TimeSlot.endTime := "09:30";
     TimeSlot.isAvailable := true;
     TimeSlot.bookedBy := None |}.

(** A world in which owner A holds one confirmed booking of [slot0900]. *)
Definition bookedWorld : World :=
  (BookingService.createBooking validContact slot0900 "A" "k3j9x0q2m" "7fza" (initial 1000)).2.

Definition bookedId : string := "booking_1000_k3j9x0q2m".

(** The record [createBooking] stored for it. *)
Definition bookedRecord : Booking.t :=
  {| Booking.id := bookedId;
     Booking.contactInfo := validContact;
     Booking.timeSlot :=
       {| TimeSlot.id := "2024-01-16_09:00"; TimeSlot.date := "2024-01-16";
          TimeSlot.startTime := "09:00"; TimeSlot.endTime := "09:30";
          TimeSlot.isAvailable := false; TimeSlot.bookedBy := Some "A" |};
     Booking.status := CONFIRMED;
     Booking.createdAt := 1000;
     Booking.confirmationId := "CONF10007FZA" |}.

(** Owner A reserves [slot0900] at clock 1000; five minutes later the timer
    of the hold runs; the cleanup has not run yet. *)
Definition heldWorld : World :=
  (BookingService.reserveSlot "2024-01-16_09:00" "A" (initial 1000)).2.

Definition timerRanWorld : World :=
  CalendarService.releaseCallback "2024-01-16_09:00"
    (with_timers [] (with_now 301000 heldWorld)).

(** A generated slot carries the calendar's present view of its id. *)
Definition flagsCurrent (w : World) (slot : TimeSlot.t) : Prop :=
  TimeSlot.isAvailable slot = CalendarService.isSlotAvailable (TimeSlot.id slot) w
  ∧ TimeSlot.bookedBy slot = bookedSlots w !! TimeSlot.id slot.

(** A hold is placed with delay [d1], the slot is booked and the booking
    cancelled, and after [e] milliseconds a second hold is placed with delay
    [d2]. *)
Definition holdBookCancelHold (slot user : string) (d1 e d2 : Z) (w : World) : World :=
  let w1 := (CalendarService.reserveSlot slot d1 w).2 in
  let w2 := (CalendarService.bookSlot slot user w1).2 in
  let w3 := (CalendarService.cancelBooking slot user w2).2 in
  (CalendarService.reserveSlot slot d2 (with_now (now w + e) w3)).2.

(** The slot is what [generateDailySlots] builds for some day and some
    start minute before [e], with interval [i]. *)
Definition generatedSlot (w : World) (i e : Z) (slot : TimeSlot.t) : Prop :=
  ∃ day m, 0 <= m < e ∧ slot = CalendarService.dailySlot w (JsDate.toISODate day) m i.

(** The text reads as a minute of the day. *)
Definition timeInDay (time : string) : bool :=
  match CalendarService.timeToMinutes time with
  | Some (Js.Num m) => (0 <=? m) && (m <? 1440)
  | _ => false
  end.

(** Printing the minutes the text reads as gives the text back. *)
Definition printsBack (time : string) : bool :=
  match CalendarService.timeToMinutes time with
  | Some minutes => String.eqb (CalendarService.minutesToTimeString minutes) time
  | None => false
  end.

Definition chars (text : string) : list ascii := list_ascii_of_string text.

(** The text does not contain the character. *)
Definition noChar (sep : ascii) (s : string) : bool :=
  Js.allChars (fun c => negb (Ascii.eqb c sep)) s.

(** How many times the loop of [generateDailySlots] runs its body when the
    interval is positive: the number of [k >= 0] with
    [startMinutes + k * intervalMinutes < endMinutes]. *)
Definition slotCount (startMinutes endMinutes intervalMinutes : Z) : nat :=
  Z.to_nat ((endMinutes - startMinutes + intervalMinutes - 1) / intervalMinutes).

Fixpoint startsFrom (n : nat) (minutes intervalMinutes : Z) : list Z :=
  match n with
  | O => []
  | S k => minutes :: startsFrom k (minutes + intervalMinutes) intervalMinutes
  end.

(** The start minutes [s, s + i, s + 2i, ...] that lie before [e]. *)
Definition slotStarts (s e i : Z) : list Z := startsFrom (slotCount s e i) s i.

(** The number of days [start, start + 1 day, ...] not after [end_]. *)
Definition dayCount (start end_ : Z) : nat :=
  Z.to_nat ((end_ - start) / JsDate.msPerDay + 1).

Fixpoint daysFrom (n : nat) (day : Z) : list Z :=
  match n with
  | O => []
  | S k => day :: daysFrom k (day + JsDate.msPerDay)
  end.

(** The slots of one day: one per start minute, each [i] minutes wide. *)
Definition slotsOfDay (w : World) (day : Z) (s e i : Z) : list TimeSlot.t :=
  map (fun m => CalendarService.dailySlot w (JsDate.toISODate day) m i) (slotStarts s e i).

(** The slots of a run of days, leaving out those whose day of the week,
    as [dayOfWeek] tells it, is Saturday or Sunday. *)
Definition slotsOfDays (dayOfWeek : Z → Z) (w : World) (days : list Z) (s e i : Z)
    : list TimeSlot.t :=
  flat_map (fun day =>
              if CalendarService.isWeekend (dayOfWeek day) then []
              else slotsOfDay w day s e i) days.

(** Central European time around the change to summer time on 31 March
    2024 at 01:00 UTC: one hour ahead of UTC before it, two hours after; the
    local times from 02:00 to 03:00 of that day are skipped. *)
Definition centralEurope2024 : JsDate.Zone :=
  {| JsDate.offsetAt := fun t => if t <? 1711846800000 then 3600000 else 7200000;
     JsDate.offsetFor := fun tl => if tl <? 1711854000000 then 3600000 else 7200000 |}.

(** The characters [sanitizeString] removes: less-than, greater-than,
    double quote, apostrophe, ampersand. *)
Definition dangerousChars : list ascii :=
  ["<"; ">"; ascii_of_nat 34; "'"; "&"]%char.

(** The two slots of scenario 1. *)
Definition slot0930 : TimeSlot.t :=
  {| TimeSlot.id := "2024-01-16_09:30";
     TimeSlot.date := "2024-01-16";
     TimeSlot.startTime := "09:30";
     TimeSlot.endTime := "10:00";
     TimeSlot.isAvailable := true;
     TimeSlot.bookedBy := None |}.

(** The two messages [createBooking] reports for [badContact]. *)
Definition nameError : ValidationError.t :=
  Validation.err "name" REQUIRED_FIELD "Name must be at least 2 characters long".

Definition emailError : ValidationError.t :=
  Validation.err "email" INVALID_EMAIL "Please enter a valid email address".

(** Every match of [m] takes a prefix described by [Q] off the text. *)
Definition consumes (m : Re.matcher) (Q : string → Prop) : Prop :=
  ∀ s r, In r (m s) → ∃ p, s = (p ++ r)%string ∧ Q p.

(** The number of decimal digits of a text lies between [lo] and [hi]. *)
Definition digitsBetween (lo hi : nat) (p : string) : Prop :=
  (lo <= String.length (Validation.digitsOnly p) <= hi)%nat.

(** [sub] occurs in [s]. *)
Definition occursIn (sub s : string) : Prop := ∃ a b, s = (a ++ sub ++ b)%string.

Fixpoint lastChar (c : ascii) (s : string) : ascii :=
  match s with
  | EmptyString => c
  | String c' rest => lastChar c' rest
  end.

(** A text that neither starts nor ends with white space (and is not empty). *)
Definition tight (s : string) : bool :=
  match s with
  | EmptyString => false
  | String c rest => negb (Js.isSpace c) && negb (Js.isSpace (lastChar c rest))
  end.

(** All the phrases [countRelevantTerms] goes through. *)
Definition allPhrases : list string :=
  (IntentDetectionService.high ++ IntentDetectionService.medium
     ++ IntentDetectionService.low)%list.

(** The text of a calendar day as [toISOString] prints it. *)
Definition isoDay (y m d : Z) : string :=
  (JsDate.pad 4 y ++ "-" ++ JsDate.pad 2 m ++ "-" ++ JsDate.pad 2 d)%string.

(** Scenario 2 of the specification: A reserves, B tries, A releases, B
    tries again; the four outcomes in order. *)
Definition reserveReleaseScenario (slotId A B : string) (w : World) : bool * bool * bool * bool :=
  let '(r1, w1) := BookingService.reserveSlot slotId A w in
  let '(r2, w2) := BookingService.reserveSlot slotId B w1 in
  let '(r3, w3) := BookingService.releaseReservation slotId A w2 in
  let '(r4, _) := BookingService.reserveSlot slotId B w3 in
  (r1, r2, r3, r4).

(* ===================================================================== *)
(** * Basic facts about the world                                         *)
(* ===================================================================== *)

Ltac unfold_world :=
  unfold BookingService.saveToStorage, CalendarService.clearReservations,
    CalendarService.clearBookings, CalendarService.releaseCallback,
    with_now, with_timers, with_localStorage, with_reservedSlots,
    with_bookedSlots, with_bookings, with_reservations in *;
  simpl in *.

Lemma has_true {V} (m : gmap string V) k : has m k = true ↔ is_Some (m !! k).
Proof.
  unfold has. destruct (m !! k).
  - split; [by eexists | done].
  - split; [done | by intros [? ?]].
Qed.

Lemma has_false {V} (m : gmap string V) k : has m k = false ↔ m !! k = None.
Proof. unfold has. destruct (m !! k); split; intros H; done. Qed.

Lemma member_true s k : member s k = true ↔ k ∈ s.
Proof. unfold member. apply bool_decide_eq_true. Qed.

Lemma member_false s k : member s k = false ↔ k ∉ s.
Proof. unfold member. apply bool_decide_eq_false. Qed.

(* ===================================================================== *)
(** * Properties                                                          *)
(* ===================================================================== *)

(** ** Holds placed through the booking service *)

Lemma booking_reserveSlot_held (w : World) (slotId user : string) :
  slotId ∈ reservedSlots w →
  BookingService.reserveSlot slotId user w = (false, w).
Proof.
  intros Hin. unfold BookingService.reserveSlot, CalendarService.isSlotAvailable.
  apply member_true in Hin. rewrite Hin. by rewrite andb_false_r.
Qed.

Lemma booking_reserveSlot_true (w w1 : World) (slotId user : string) :
  BookingService.reserveSlot slotId user w = (true, w1) →
  slotId ∈ reservedSlots w1
  ∧ reservations w1 !! slotId
      = Some {| userId := user; expiresAt := now w + BookingService.RESERVATION_TIMEOUT |}
  ∧ now w1 = now w
  ∧ bookedSlots w1 = bookedSlots w.
Proof.
  unfold BookingService.reserveSlot.
  destruct (negb (CalendarService.isSlotAvailable slotId w)); [done|].
  destruct (BookingService.heldByOther slotId user w); [done|].
  unfold CalendarService.reserveSlot.
  destruct (has (bookedSlots w) slotId || member (reservedSlots w) slotId); [done|].
  simpl. intros [= <-]. unfold_world. repeat split.
  - set_solver.
  - apply lookup_insert_eq.
Qed.

Lemma createBooking_held (w : World) (contact : ContactInfo.t) (slot : TimeSlot.t)
    (user rnd1 rnd2 : string) :
  ValidationResult.isValid (BookingService.validateContactInfo contact) = true →
  TimeSlot.id slot ∈ reservedSlots w →
  BookingService.createBooking contact slot user rnd1 rnd2 w
  = (BookingService.failure "Selected time slot is no longer available", w).
Proof.
  intros Hv Hin. unfold BookingService.createBooking. rewrite Hv. simpl.
  unfold CalendarService.isSlotAvailable.
  apply member_true in Hin. rewrite Hin. by rewrite andb_false_r.
Qed.

(** C1 (what the code does instead). Once [reserveSlot(slot, O)] has
    succeeded, [createBooking] with a valid contact on that slot is turned
    away at the availability check, for the reserving owner [O] as for any
    other owner: the result is the failure 'Selected time slot is no longer
    available' and nothing changes. The owner's booking does not succeed and
    another owner is not told that the slot is reserved by someone else. *)
Theorem createBooking_on_held_slot_unavailable
    (w w1 : World) (slot : TimeSlot.t) (O user : string) (contact : ContactInfo.t)
    (rnd1 rnd2 : string) :
  BookingService.reserveSlot (TimeSlot.id slot) O w = (true, w1) →
  ValidationResult.isValid (BookingService.validateContactInfo contact) = true →
  BookingService.createBooking contact slot user rnd1 rnd2 w1
  = (BookingService.failure "Selected time slot is no longer available", w1).
Proof.
  intros Hres Hv. apply createBooking_held; [done|].
  by destruct (booking_reserveSlot_true _ _ _ _ Hres).
Qed.

Lemma createBooking_on_held_slot_witness :
  let r := BookingService.reserveSlot "2024-01-16_09:00" "A" (initial 1000) in
  r.1 = true
  ∧ ValidationResult.isValid (BookingService.validateContactInfo validContact) = true
  ∧ (BookingService.createBooking validContact slot0900 "A" "k3j9x0q2m" "7fza" r.2).1
    = BookingService.failure "Selected time slot is no longer available"
  ∧ (BookingService.createBooking validContact slot0900 "B" "k3j9x0q2m" "7fza" r.2).1
    = BookingService.failure "Selected time slot is no longer available".
Proof.
  intros r.
  assert (BookingService.reserveSlot (TimeSlot.id slot0900) "A" (initial 1000) = (true, r.2)) as Hres
    by (vm_compute; reflexivity).
  assert (ValidationResult.isValid (BookingService.validateContactInfo validContact) = true) as Hv
    by (vm_compute; reflexivity).
  split; [vm_compute; reflexivity|]. split; [exact Hv|]. split.
  - rewrite (createBooking_on_held_slot_unavailable _ _ slot0900 "A" "A" validContact
               "k3j9x0q2m" "7fza" Hres Hv). reflexivity.
  - rewrite (createBooking_on_held_slot_unavailable _ _ slot0900 "A" "B" validContact
               "k3j9x0q2m" "7fza" Hres Hv). reflexivity.
Defined.

(** C2 (what the code does instead). From a slot with no hold and no
    booking, the four calls reserve by A, reserve by B, release by A, reserve
    by B return true, false, true and false: the release removes the entry
    of the booking service only, the slot stays in the calendar's reserved
    set, and B is refused again. *)
Theorem release_does_not_free_slot (w : World) (slotId A B : string) :
  slotId ∉ reservedSlots w →
  bookedSlots w !! slotId = None →
  reservations w !! slotId = None →
  reserveReleaseScenario slotId A B w = (true, false, true, false).
Proof.
  intros Hr Hb Hn. unfold reserveReleaseScenario.
  destruct (BookingService.reserveSlot slotId A w) as [r1 w1] eqn:H1.
  assert (r1 = true) as ->.
  { revert H1. unfold BookingService.reserveSlot, CalendarService.isSlotAvailable,
      BookingService.heldByOther, CalendarService.reserveSlot.
    apply has_false in Hb. apply member_false in Hr. rewrite Hb, Hr, Hn. simpl.
    by intros [= <- _]. }
  destruct (booking_reserveSlot_true _ _ _ _ H1) as (Hin & Hres & _ & _).
  rewrite (booking_reserveSlot_held w1 slotId B Hin).
  unfold BookingService.releaseReservation. rewrite Hres. simpl.
  rewrite String.eqb_refl. simpl.
  rewrite booking_reserveSlot_held; [done|]. by unfold_world.
Qed.

Lemma release_does_not_free_slot_witness :
  ("2024-01-16_09:00" ∉ reservedSlots (initial 1000))
  ∧ bookedSlots (initial 1000) !! "2024-01-16_09:00" = None
  ∧ reservations (initial 1000) !! "2024-01-16_09:00" = None
  ∧ reserveReleaseScenario "2024-01-16_09:00" "A" "B" (initial 1000) = (true, false, true, false).
Proof.
  assert ("2024-01-16_09:00" ∉ reservedSlots (initial 1000)) as Hr
    by (simpl; apply not_elem_of_empty).
  assert (bookedSlots (initial 1000) !! "2024-01-16_09:00" = None) as Hb by reflexivity.
  assert (reservations (initial 1000) !! "2024-01-16_09:00" = None) as Hn by reflexivity.
  split; [exact Hr|]. split; [exact Hb|]. split; [exact Hn|].
  exact (release_does_not_free_slot (initial 1000) "2024-01-16_09:00" "A" "B" Hr Hb Hn).
Defined.

(** C3 (what the code does instead). After [reserveSlot(slot, O)] has
    succeeded, a second [reserveSlot(slot, O)] by the same owner, at any
    later clock reading before the hold's timer has run, returns false and
    changes nothing: no second reservation is created, but the call is
    refused and the expiry of the hold is not refreshed. The calendar layer
    refuses the second hold as well. *)
Theorem rereserve_by_same_owner_refused (w w1 : World) (slotId O : string) (dt : Z) :
  BookingService.reserveSlot slotId O w = (true, w1) →
  0 <= dt →
  BookingService.reserveSlot slotId O (with_now (now w1 + dt) w1)
  = (false, with_now (now w1 + dt) w1)
  ∧ reservations (with_now (now w1 + dt) w1) !! slotId
    = Some {| userId := O; expiresAt := now w + BookingService.RESERVATION_TIMEOUT |}
  ∧ CalendarService.reserveSlot slotId BookingService.RESERVATION_TIMEOUT w1 = (false, w1).
Proof.
  intros Hres _.
  destruct (booking_reserveSlot_true _ _ _ _ Hres) as (Hin & Hr & _ & _).
  split; [|split].
  - apply booking_reserveSlot_held. by unfold_world.
  - by unfold_world.
  - unfold CalendarService.reserveSlot.
    apply member_true in Hin. rewrite Hin. by rewrite orb_true_r.
Qed.

Lemma rereserve_by_same_owner_witness :
  let r := BookingService.reserveSlot "2024-01-16_09:00" "A" (initial 1000) in
  r.1 = true
  ∧ 0 <= 60000
  ∧ (BookingService.reserveSlot "2024-01-16_09:00" "A" (with_now (now r.2 + 60000) r.2)).1 = false.
Proof.
  intros r.
  assert (BookingService.reserveSlot "2024-01-16_09:00" "A" (initial 1000) = (true, r.2)) as Hres
    by (vm_compute; reflexivity).
  assert (0 <= 60000) as Hdt by lia.
  destruct (rereserve_by_same_owner_refused _ _ _ _ 60000 Hres Hdt) as (H & _ & _).
  split; [vm_compute; reflexivity|]. split; [exact Hdt|].
  rewrite H. reflexivity.
Defined.

(** ** Contact validation of the booking service *)

Lemma seq_cls_cons (p : ascii → bool) (m : Re.matcher) (c : ascii) (rest : string) :
  p c = true → Re.seq (Re.cls p) m (String c rest) = m rest.
Proof. intros H. unfold Re.seq, Re.cls. rewrite H. simpl. apply app_nil_r. Qed.

Lemma upto_accepts (p : ascii → bool) (n : nat) (s : string) :
  Js.allChars p s = true → (String.length s <= n)%nat →
  In "" (Re.upto n (Re.cls p) s).
Proof.
  revert s. induction n as [|n IH]; intros s Hall Hlen.
  - destruct s; simpl in *; [by left | lia].
  - simpl. unfold Re.opt. apply in_or_app.
    destruct s as [|c rest]; [right; by left|].
    left. simpl in Hall. apply andb_true_iff in Hall as [Hc Hrest].
    rewrite seq_cls_cons by done.
    apply IH; [done | simpl in Hlen; lia].
Qed.

(** The phone pattern of the booking service accepts a nonzero digit
    followed by at most fifteen digits. *)
Lemma phoneRegex_accepts (d : ascii) (ds : string) :
  digit19 d = true → Js.allChars Js.isDigit ds = true → (String.length ds <= 15)%nat →
  Re.test BookingService.phoneRegex (String d ds) = true.
Proof.
  intros Hd Hds Hlen. unfold Re.test. apply existsb_exists.
  exists "". split; [|reflexivity].
  unfold BookingService.phoneRegex. unfold Re.seq at 1.
  apply in_flat_map. exists (String d ds). split.
  - unfold Re.opt. apply in_or_app. right. by left.
  - rewrite seq_cls_cons by done. by apply upto_accepts.
Qed.

Lemma phoneRegex_accepts_plus (d : ascii) (ds : string) :
  digit19 d = true → Js.allChars Js.isDigit ds = true → (String.length ds <= 15)%nat →
  Re.test BookingService.phoneRegex (String "+" (String d ds)) = true.
Proof.
  intros Hd Hds Hlen. unfold Re.test. apply existsb_exists.
  exists "". split; [|reflexivity].
  unfold BookingService.phoneRegex. unfold Re.seq at 1.
  apply in_flat_map. exists (String d ds). split.
  - unfold Re.opt. apply in_or_app. left. by left.
  - rewrite seq_cls_cons by done. by apply upto_accepts.
Qed.

Lemma remove_nonempty (cls : ascii → bool) (s : string) (c : ascii) (rest : string) :
  Js.remove cls s = String c rest → s ≠ "".
Proof. intros H ->. discriminate. Qed.

Lemma validateContactInfo_bad :
  BookingService.validateContactInfo badContact
  = {| ValidationResult.isValid := false;
       ValidationResult.errors := [nameError; emailError] |}.
Proof. vm_compute. reflexivity. Qed.

(** C4 (as amended). [createBooking] with contact name J, email bad, phone 1
    returns a validation failure that carries exactly two errors, name too
    short and invalid email, and changes nothing. The phone passes: the
    booking service reports no phone error for any phone whose
    separator-stripped form is an optional plus sign, a nonzero digit and at
    most fifteen further digits, so a form with fewer than ten digits is not
    rejected there. It is the form validator [validatePhone] of
    utils/validation.ts that rejects every phone with fewer than ten digits,
    the phone 1 among them. *)
Theorem badContact_reports_two_errors :
  (∀ slot user rnd1 rnd2 w,
     BookingService.createBooking badContact slot user rnd1 rnd2 w
     = (BookingService.failure
          "Validation failed: Name must be at least 2 characters long, Please enter a valid email address",
        w))
  ∧ ValidationResult.errors (BookingService.validateContactInfo badContact)
    = [nameError; emailError]
  ∧ (∀ contact d ds,
       (let clean := Js.remove BookingService.phoneSeparator
                       (BookingService.sanitizeString (ContactInfo.phone contact)) in
        clean = String d ds ∨ clean = String "+" (String d ds)) →
       digit19 d = true → Js.allChars Js.isDigit ds = true →
       (String.length ds <= 15)%nat →
       ∀ e, In e (ValidationResult.errors (BookingService.validateContactInfo contact)) →
            ValidationError.field e ≠ "phone")
  ∧ (∀ phone,
       (String.length (Js.remove (fun c => negb (Js.isDigit c)) (Js.trim phone)) < 10)%nat →
       is_Some (Validation.validatePhone phone))
  ∧ option_map ValidationError.type (Validation.validatePhone "1") = Some INVALID_PHONE.
Proof.
  split; [|split; [|split; [|split]]].
  - intros slot user rnd1 rnd2 w. unfold BookingService.createBooking.
    rewrite validateContactInfo_bad. reflexivity.
  - by rewrite validateContactInfo_bad.
  - intros contact d ds Hclean Hd Hds Hlen e He.
    unfold BookingService.validateContactInfo in He. cbv zeta in He.
    cbv zeta in Hclean.
    destruct Hclean as [Hclean | Hclean]; rewrite Hclean in He;
      [rewrite (phoneRegex_accepts d ds Hd Hds Hlen) in He
      |rewrite (phoneRegex_accepts_plus d ds Hd Hds Hlen) in He];
      apply remove_nonempty in Hclean; apply String.eqb_neq in Hclean;
      rewrite Hclean in He; simpl in He; rewrite app_nil_r in He.
    all: apply in_app_or in He as [He|He].
    all: destruct (_ || _) in He; [|done].
    all: destruct He as [<-|[]]; discriminate.
  - intros phone Hshort. unfold Validation.validatePhone.
    destruct (String.eqb _ _); [by eexists|].
    destruct (negb _); [by eexists|].
    apply Nat.ltb_lt in Hshort. rewrite Hshort. by eexists.
  - vm_compute. reflexivity.
Qed.

Lemma badContact_phone_passes_witness :
  Js.remove BookingService.phoneSeparator
    (BookingService.sanitizeString (ContactInfo.phone badContact)) = String "1" ""
  ∧ digit19 "1" = true ∧ Js.allChars Js.isDigit "" = true ∧ (String.length "" <= 15)%nat
  ∧ In nameError (ValidationResult.errors (BookingService.validateContactInfo badContact))
  ∧ ValidationError.field nameError ≠ "phone".
Proof.
  destruct badContact_reports_two_errors as (_ & Herrs & Hphone & _ & _).
  assert (Js.remove BookingService.phoneSeparator
            (BookingService.sanitizeString (ContactInfo.phone badContact)) = String "1" "") as H1
    by (vm_compute; reflexivity).
  assert (digit19 "1" = true) as H2 by reflexivity.
  assert (Js.allChars Js.isDigit "" = true) as H3 by reflexivity.
  assert (String.length "" <= 15)%nat as H4 by (simpl; lia).
  assert (In nameError (ValidationResult.errors (BookingService.validateContactInfo badContact))) as H5
    by (rewrite Herrs; left; reflexivity).
  split; [exact H1|]. split; [exact H2|]. split; [exact H3|]. split; [exact H4|].
  split; [exact H5|].
  exact (Hphone badContact "1"%char "" (or_introl H1) H2 H3 H4 nameError H5).
Defined.

(** C4, the claim as stated fails: for the contact of the scenario the
    validation result does not carry three errors, and none of its errors is
    about the phone. *)
Lemma badContact_not_three_errors :
  length (ValidationResult.errors (BookingService.validateContactInfo badContact)) ≠ 3%nat
  ∧ ¬ (∃ e, In e (ValidationResult.errors (BookingService.validateContactInfo badContact))
            ∧ ValidationError.type e = INVALID_PHONE).
Proof.
  rewrite validateContactInfo_bad. simpl. split; [lia|].
  intros (e & [<-|[<-|[]]] & Ht); discriminate.
Qed.

(** ** Each operation keeps holds and bookings apart *)

Lemma exclusive_initial t0 : exclusive (initial t0).
Proof. intros k [Hr _]. simpl in Hr. set_solver. Qed.

Lemma exclusive_same_calendar w w' :
  reservedSlots w' = reservedSlots w → bookedSlots w' = bookedSlots w →
  exclusive w → exclusive w'.
Proof. intros Hr Hb H k. rewrite Hr, Hb. apply H. Qed.

Lemma exclusive_reserveSlot slotId ms w :
  exclusive w → exclusive (CalendarService.reserveSlot slotId ms w).2.
Proof.
  intros H. unfold CalendarService.reserveSlot.
  destruct (has (bookedSlots w) slotId) eqn:Hb; simpl; [done|].
  destruct (member (reservedSlots w) slotId) eqn:Hm; simpl; [done|].
  intros k [Hr Hk]. unfold_world.
  apply elem_of_union in Hr as [Hr|Hr].
  - apply elem_of_singleton in Hr as ->.
    apply has_false in Hb. rewrite Hb in Hk. by destruct Hk.
  - by apply (H k).
Qed.

Lemma exclusive_bookSlot slotId user w :
  exclusive w → exclusive (CalendarService.bookSlot slotId user w).2.
Proof.
  intros H. unfold CalendarService.bookSlot.
  destruct (has (bookedSlots w) slotId) eqn:Hb; simpl; [done|].
  intros k [Hr Hk]. unfold_world.
  apply elem_of_difference in Hr as [Hr Hne].
  rewrite not_elem_of_singleton in Hne.
  rewrite lookup_insert_ne in Hk by done.
  by apply (H k).
Qed.

Lemma exclusive_cancelBooking slotId user w :
  exclusive w → exclusive (CalendarService.cancelBooking slotId user w).2.
Proof.
  intros H. unfold CalendarService.cancelBooking.
  case_decide; simpl; [|done].
  intros k [Hr Hk]. unfold_world.
  destruct (decide (slotId = k)) as [->|Hne].
  - rewrite lookup_delete_eq in Hk. by destruct Hk.
  - rewrite lookup_delete_ne in Hk by done. by apply (H k).
Qed.

Lemma exclusive_clearReservations w :
  exclusive w → exclusive (CalendarService.clearReservations w).
Proof. intros _ k [Hr _]. unfold_world. set_solver. Qed.

Lemma exclusive_clearBookings w :
  exclusive w → exclusive (CalendarService.clearBookings w).
Proof. intros _ k [_ Hk]. unfold_world. rewrite lookup_empty in Hk. by destruct Hk. Qed.

Lemma exclusive_releaseCallback slotId w :
  exclusive w → exclusive (CalendarService.releaseCallback slotId w).
Proof.
  intros H k [Hr Hk]. unfold_world.
  apply elem_of_difference in Hr as [Hr _]. by apply (H k).
Qed.

Lemma exclusive_env w w' : env_step w w' → exclusive w → exclusive w'.
Proof.
  destruct 1 as [w dt _ | w i w' Hf | w | w b]; intros H.
  - by apply (exclusive_same_calendar w).
  - unfold fireTimer in Hf.
    destruct (timers w !! i) as [t|]; [|done].
    destruct (due t <=? now w); [|done].
    injection Hf as <-. apply exclusive_releaseCallback.
    by apply (exclusive_same_calendar w).
  - by apply (exclusive_same_calendar w).
  - by apply (exclusive_same_calendar w).
Qed.

Lemma exclusive_calendar w w' : calendar_step w w' → exclusive w → exclusive w'.
Proof.
  destruct 1; intros H.
  - by apply exclusive_reserveSlot.
  - by apply exclusive_bookSlot.
  - by apply exclusive_cancelBooking.
  - by apply exclusive_clearReservations.
  - by apply exclusive_clearBookings.
Qed.

Lemma exclusive_createBooking contactInfo timeSlot user rnd1 rnd2 w :
  exclusive w →
  exclusive (BookingService.createBooking contactInfo timeSlot user rnd1 rnd2 w).2.
Proof.
  intros H. unfold BookingService.createBooking.
  destruct (negb (ValidationResult.isValid _)); [done|].
  destruct (negb (CalendarService.isSlotAvailable _ _)); [done|].
  destruct (BookingService.reservedByOther _ _ _); [done|].
  pose proof (exclusive_bookSlot (TimeSlot.id timeSlot) user w H) as Hb.
  destruct (CalendarService.bookSlot (TimeSlot.id timeSlot) user w) as [ok w1].
  simpl in Hb. destruct ok; simpl; [|done].
  by apply (exclusive_same_calendar w1).
Qed.

Lemma exclusive_booking w w' : booking_step w w' → exclusive w → exclusive w'.
Proof.
  destruct 1 as [w c ts u r1 r2 | w k u | w k u | w k u | w]; intros H.
  - by apply exclusive_createBooking.
  - unfold BookingService.reserveSlot.
    destruct (negb (CalendarService.isSlotAvailable _ _)); [done|].
    destruct (BookingService.heldByOther _ _ _); [done|].
    pose proof (exclusive_reserveSlot k BookingService.RESERVATION_TIMEOUT w H) as Hr.
    destruct (CalendarService.reserveSlot k _ w) as [ok w1].
    simpl in Hr. destruct ok; simpl; [|done].
    by apply (exclusive_same_calendar w1).
  - unfold BookingService.releaseReservation.
    destruct (reservations w !! k) as [r|]; [|done].
    destruct (negb _); [done|].
    by apply (exclusive_same_calendar w).
  - unfold BookingService.cancelBooking.
    destruct (bookings w !! k) as [b|]; [|done].
    case_decide; [|done].
    set (w1 := with_bookings _ w).
    assert (exclusive w1) as H1 by by apply (exclusive_same_calendar w).
    pose proof (exclusive_cancelBooking (TimeSlot.id (Booking.timeSlot b)) u w1 H1) as Hc.
    destruct (CalendarService.cancelBooking _ u w1) as [ok w2].
    simpl in *. by apply (exclusive_same_calendar w2).
  - intros s [Hr _]. unfold BookingService.clearAllData in Hr. unfold_world. set_solver.
Qed.

(** C5. Mutual exclusion: in every state reachable from fresh services by
    any sequence of [reserveSlot], [bookSlot], [cancelBooking],
    [clearReservations] and [clearBookings] of the calendar (interleaved, if
    one likes, with calls of the booking service, timer callbacks, the
    periodic cleanup and the passing of time), no slot id is in the reserved
    set and in the booked map at once. *)
Theorem mutual_exclusion (w : World) (slotId : string) :
  reachable w →
  ¬ (slotId ∈ reservedSlots w ∧ is_Some (bookedSlots w !! slotId)).
Proof.
  intros Hreach. revert slotId. change (exclusive w).
  induction Hreach as [t0 | w w' _ IH Hstep].
  - apply exclusive_initial.
  - destruct Hstep as [He | Hc | Hb].
    + by apply (exclusive_env w).
    + by apply (exclusive_calendar w).
    + by apply (exclusive_booking w).
Qed.

Lemma mutual_exclusion_witness :
  let w := (CalendarService.bookSlot "2024-01-16_09:00" "A"
              (CalendarService.reserveSlot "2024-01-16_09:00" 300000 (initial 0)).2).2 in
  reachable w ∧
  ¬ ("2024-01-16_09:00" ∈ reservedSlots w ∧ is_Some (bookedSlots w !! "2024-01-16_09:00")).
Proof.
  intros w.
  assert (reachable w) as Hw.
  { eapply reachable_step.
    - eapply reachable_step; [apply (reachable_initial 0)|].
      apply step_calendar. apply (cal_reserveSlot _ "2024-01-16_09:00" 300000).
    - apply step_calendar. apply (cal_bookSlot _ "2024-01-16_09:00" "A"). }
  split; [exact Hw | exact (mutual_exclusion w "2024-01-16_09:00" Hw)].
Defined.

(** ** Cancelling someone else's booking *)

(** C6. Ownership-gated cancellation is atomic on failure: when the booking
    stored under [bookingId] is owned by [O] and the caller is someone else,
    [BookingService.cancelBooking] returns false and the whole world (the
    booking and its status, the booked map, the reserved set, storage, timers)
    is the one before the call; likewise [CalendarService.cancelBooking] on a
    slot booked by [O]. *)
Theorem cancel_by_other_owner_changes_nothing
    (w : World) (bookingId : string) (booking : Booking.t) (O caller : string) :
  caller ≠ O →
  (bookings w !! bookingId = Some booking →
   TimeSlot.bookedBy (Booking.timeSlot booking) = Some O →
   BookingService.cancelBooking bookingId caller w = (false, w))
  ∧ (∀ slotId, bookedSlots w !! slotId = Some O →
     CalendarService.cancelBooking slotId caller w = (false, w)).
Proof.
  intros Hne. split.
  - intros Hb Ho. unfold BookingService.cancelBooking. rewrite Hb.
    case_decide as Heq; [|done]. rewrite Ho in Heq. congruence.
  - intros slotId Hs. unfold CalendarService.cancelBooking.
    case_decide as Heq; [|done]. rewrite Hs in Heq. congruence.
Qed.

Lemma cancel_by_other_owner_witness :
  "B" ≠ "A"
  ∧ bookings bookedWorld !! bookedId = Some bookedRecord
  ∧ bookedSlots bookedWorld !! "2024-01-16_09:00" = Some "A"
  ∧ BookingService.cancelBooking bookedId "B" bookedWorld = (false, bookedWorld)
  ∧ CalendarService.cancelBooking "2024-01-16_09:00" "B" bookedWorld = (false, bookedWorld).
Proof.
  assert ("B" ≠ "A") as Hne by discriminate.
  pose proof (cancel_by_other_owner_changes_nothing bookedWorld bookedId
                bookedRecord "A" "B" Hne) as [Hbk Hcal].
  split; [exact Hne|].
  split; [vm_compute; reflexivity|].
  split; [vm_compute; reflexivity|].
  split.
  - apply Hbk; vm_compute; reflexivity.
  - apply Hcal. vm_compute; reflexivity.
Defined.

(** ** Cancelling twice *)

Lemma cancelBooking_owner (w : World) (bookingId : string) (booking : Booking.t) (O : string) :
  bookings w !! bookingId = Some booking →
  TimeSlot.bookedBy (Booking.timeSlot booking) = Some O →
  (BookingService.cancelBooking bookingId O w).1 = true
  ∧ bookings (BookingService.cancelBooking bookingId O w).2 !! bookingId
      = Some (BookingService.cancelled booking).
Proof.
  intros Hb Ho. unfold BookingService.cancelBooking. rewrite Hb.
  case_decide as Heq; [|congruence].
  set (w1 := with_bookings _ w).
  assert (bookings w1 !! bookingId = Some (BookingService.cancelled booking)) as H1.
  { subst w1. unfold_world. apply lookup_insert_eq. }
  unfold CalendarService.cancelBooking.
  case_decide; simpl; (split; [done|]); unfold_world; exact H1.
Qed.

(** C7 (as amended). Cancellation lifecycle: after [cancelBooking(id, O)] by
    the booking's owner [O] the call has returned true and [getBooking(id)]
    still returns the record, now with status Cancelled; a second
    [cancelBooking(id, O)] on the cancelled booking returns true again and
    the record stays stored with status Cancelled. *)
Theorem cancelBooking_keeps_record_and_repeats
    (w : World) (bookingId : string) (booking : Booking.t) (O : string) :
  bookings w !! bookingId = Some booking →
  TimeSlot.bookedBy (Booking.timeSlot booking) = Some O →
  let first := BookingService.cancelBooking bookingId O w in
  let second := BookingService.cancelBooking bookingId O first.2 in
  first.1 = true
  ∧ BookingService.getBooking bookingId first.2 = Some (BookingService.cancelled booking)
  ∧ Booking.status (BookingService.cancelled booking) = CANCELLED
  ∧ second.1 = true
  ∧ BookingService.getBooking bookingId second.2 = Some (BookingService.cancelled booking).
Proof.
  intros Hb Ho first second.
  destruct (cancelBooking_owner w bookingId booking O Hb Ho) as [Hr1 Hg1].
  fold first in Hr1, Hg1.
  destruct (cancelBooking_owner first.2 bookingId (BookingService.cancelled booking) O Hg1 Ho)
    as [Hr2 Hg2].
  fold second in Hr2, Hg2.
  unfold BookingService.getBooking. repeat split; done.
Qed.

Lemma cancelBooking_keeps_record_witness :
  bookings bookedWorld !! bookedId = Some bookedRecord
  ∧ TimeSlot.bookedBy (Booking.timeSlot bookedRecord) = Some "A"
  ∧ (BookingService.cancelBooking bookedId "A" bookedWorld).1 = true
  ∧ (BookingService.cancelBooking bookedId "A"
       (BookingService.cancelBooking bookedId "A" bookedWorld).2).1 = true.
Proof.
  assert (bookings bookedWorld !! bookedId = Some bookedRecord) as Hb
    by (vm_compute; reflexivity).
  assert (TimeSlot.bookedBy (Booking.timeSlot bookedRecord) = Some "A") as Ho
    by reflexivity.
  pose proof (cancelBooking_keeps_record_and_repeats bookedWorld bookedId bookedRecord "A" Hb Ho)
    as (H1 & _ & _ & H2 & _).
  split; [exact Hb|]. split; [exact Ho|]. split; [exact H1 | exact H2].
Defined.

(** C7, the claim as stated fails: on the booking of owner A, the first
    [cancelBooking] succeeds and the second one, on the already cancelled
    booking, does not return false. *)
Lemma second_cancel_not_refused :
  let first := BookingService.cancelBooking bookedId "A" bookedWorld in
  let second := BookingService.cancelBooking bookedId "A" first.2 in
  first.1 = true
  ∧ option_map Booking.status (BookingService.getBooking bookedId first.2) = Some CANCELLED
  ∧ second.1 ≠ false.
Proof.
  split; [vm_compute; reflexivity|].
  split; [vm_compute; reflexivity|].
  vm_compute. discriminate.
Qed.

(** A repeated cancel is not harmless: it calls the calendar again with the
    same slot and owner. When owner A has booked the slot anew in between,
    cancelling the old booking a second time returns true and removes the new
    booking's slot from the booked map, while the new booking stays
    confirmed. *)
Lemma repeated_cancel_releases_new_booking :
  let w1 := (BookingService.cancelBooking bookedId "A" bookedWorld).2 in
  let w2 := (BookingService.createBooking validContact slot0900 "A" "p5v1c8d4t" "m2qk" w1).2 in
  let again := BookingService.cancelBooking bookedId "A" w2 in
  bookedSlots w2 !! "2024-01-16_09:00" = Some "A"
  ∧ again.1 = true
  ∧ bookedSlots again.2 !! "2024-01-16_09:00" = None
  ∧ option_map Booking.status (bookings again.2 !! "booking_1000_p5v1c8d4t") = Some CONFIRMED.
Proof. repeat split; vm_compute; reflexivity. Qed.

(** ** Printing and reading back times *)

Lemma allChars_app (p : ascii → bool) (a b : string) :
  Js.allChars p (a ++ b)%string = Js.allChars p a && Js.allChars p b.
Proof. induction a as [|c a IH]; simpl; [done|]. by rewrite IH, andb_assoc. Qed.

Lemma allChars_impl (p q : ascii → bool) (s : string) :
  (∀ c, p c = true → q c = true) → Js.allChars p s = true → Js.allChars q s = true.
Proof.
  intros Hpq. induction s as [|c s IH]; simpl; [done|].
  intros [Hc Hs]%andb_true_iff. rewrite (Hpq c Hc). by apply IH.
Qed.

Lemma digits_string_of_uint (d : Decimal.uint) :
  Js.allChars Js.isDigit (NilEmpty.string_of_uint d) = true.
Proof. induction d; simpl; try done; by rewrite IHd. Qed.

Lemma digits_repeat_zero (k : nat) : Js.allChars Js.isDigit (Js.repeatChar "0" k) = true.
Proof. induction k; simpl; done. Qed.

Lemma digits_pad (width : nat) (z : Z) :
  0 <= z → Js.allChars Js.isDigit (Js.padStart width "0" (Js.Z_toString z)) = true.
Proof.
  intros Hz. unfold Js.padStart. rewrite allChars_app, digits_repeat_zero. simpl.
  destruct z as [|p|p]; [done | apply digits_string_of_uint | lia].
Qed.

Lemma exact_safe (z : Z) : Js.isSafeInteger z = true → Js.exact z = Some (Js.Num z).
Proof. unfold Js.exact. by intros ->. Qed.

Lemma isSafeInteger_range (z : Z) :
  Js.isSafeInteger z = true ↔ - Js.MAX_SAFE_INTEGER <= z <= Js.MAX_SAFE_INTEGER.
Proof. unfold Js.isSafeInteger. rewrite andb_true_iff, !Z.leb_le. done. Qed.

Lemma isSafeInteger_between (a z b : Z) :
  Js.isSafeInteger a = true → Js.isSafeInteger b = true → a <= z <= b →
  Js.isSafeInteger z = true.
Proof. rewrite !isSafeInteger_range. lia. Qed.

Lemma Number_Z_toString (z : Z) :
  0 <= z → Js.isSafeInteger z = true → Js.Number (Js.Z_toString z) = Some (Js.Num z).
Proof.
  intros Hz Hsafe. destruct z as [|p|p]; [done | | lia].
  unfold Js.Number, Js.Z_toString. rewrite NilEmpty.usu.
  unfold N.of_uint. rewrite DecimalPos.Unsigned.of_to. by apply exact_safe.
Qed.

Lemma Number_leading_zeros (k : nat) (s : string) :
  Js.Number (Js.repeatChar "0" k ++ s)%string = Js.Number s.
Proof.
  induction k as [|k IH]; [done|].
  revert IH. unfold Js.Number. simpl.
  destruct (NilEmpty.uint_of_string (Js.repeatChar "0" k ++ s)) as [d|];
    destruct (NilEmpty.uint_of_string s) as [d'|]; simpl; done.
Qed.

Lemma Number_pad (width : nat) (z : Z) :
  0 <= z → Js.isSafeInteger z = true →
  Js.Number (Js.padStart width "0" (Js.Z_toString z)) = Some (Js.Num z).
Proof.
  intros Hz Hsafe. unfold Js.padStart. rewrite Number_leading_zeros.
  by apply Number_Z_toString.
Qed.

Lemma Number_nonneg (text : string) (z : Z) : Js.Number text = Some (Js.Num z) → 0 <= z.
Proof.
  unfold Js.Number, Js.exact. destruct (NilEmpty.uint_of_string text).
  - destruct (Js.isSafeInteger _); [|done]. intros [= <-]. lia.
  - by destruct (Js.allChars _ _).
Qed.

Lemma piece_nonneg (pieces : list string) (k : nat) (z : Z) :
  CalendarService.piece pieces k = Some (Js.Num z) → 0 <= z.
Proof.
  unfold CalendarService.piece. destruct (nth_error pieces k); [apply Number_nonneg | done].
Qed.

(** A time text that reads as a number reads as hours and minutes that are
    not negative. *)
Lemma timeToMinutes_parts (time : string) (s : Z) :
  CalendarService.timeToMinutes time = Some (Js.Num s) →
  ∃ h m, CalendarService.piece (Js.split ":" time) 0 = Some (Js.Num h)
         ∧ CalendarService.piece (Js.split ":" time) 1 = Some (Js.Num m)
         ∧ 0 <= h ∧ 0 <= m ∧ s = h * 60 + m.
Proof.
  unfold CalendarService.timeToMinutes. cbv zeta.
  destruct (CalendarService.piece (Js.split ":" time) 0) as [[h|]|] eqn:Hh; try done.
  - destruct (CalendarService.piece (Js.split ":" time) 1) as [[m|]|] eqn:Hm; try done.
    + simpl. unfold Js.exact at 1. destruct (Js.isSafeInteger (h * 60)); [|done].
      simpl. unfold Js.exact. destruct (Js.isSafeInteger (h * 60 + m)); [|done].
      intros [= <-]. exists h, m. apply piece_nonneg in Hh, Hm. done.
    + simpl. unfold Js.exact. by destruct (Js.isSafeInteger (h * 60)).
  - by destruct (CalendarService.piece (Js.split ":" time) 1) as [[m|]|].
Qed.

Lemma timeToMinutes_nonneg (time : string) (s : Z) :
  CalendarService.timeToMinutes time = Some (Js.Num s) → 0 <= s.
Proof. intros (h & m & _ & _ & Hh & Hm & ->)%timeToMinutes_parts. lia. Qed.

Lemma timeToMinutes_safe (time : string) (s : Z) :
  CalendarService.timeToMinutes time = Some (Js.Num s) → Js.isSafeInteger s = true.
Proof.
  unfold CalendarService.timeToMinutes. cbv zeta.
  destruct (CalendarService.piece (Js.split ":" time) 0) as [[h|]|]; try done.
  - destruct (CalendarService.piece (Js.split ":" time) 1) as [[m|]|]; try done.
    + simpl. unfold Js.exact at 1. destruct (Js.isSafeInteger (h * 60)); [|done].
      simpl. unfold Js.exact. destruct (Js.isSafeInteger (h * 60 + m)) eqn:Hs; [|done].
      by intros [= <-].
    + simpl. unfold Js.exact. by destruct (Js.isSafeInteger (h * 60)).
  - by destruct (CalendarService.piece (Js.split ":" time) 1) as [[m|]|].
Qed.

Lemma split_noChar (sep : ascii) (s : string) :
  noChar sep s = true → Js.split sep s = [s].
Proof.
  unfold noChar. induction s as [|c s IH]; simpl; [done|].
  intros [Hc Hs]%andb_true_iff. apply negb_true_iff in Hc. rewrite Hc.
  by rewrite (IH Hs).
Qed.

Lemma split_app (sep : ascii) (a b : string) :
  noChar sep a = true →
  Js.split sep (a ++ String sep b)%string = a :: Js.split sep b.
Proof.
  unfold noChar. induction a as [|c a IH]; simpl.
  - intros _. by rewrite Ascii.eqb_refl.
  - intros [Hc Ha]%andb_true_iff. apply negb_true_iff in Hc. rewrite Hc.
    by rewrite (IH Ha).
Qed.

Lemma digit_not_colon (c : ascii) : Js.isDigit c = true → negb (Ascii.eqb c ":") = true.
Proof. destruct c as [[] [] [] [] [] [] [] []]; done. Qed.

Lemma digit_or_colon_not_underscore (c : ascii) :
  Js.isDigit c || Ascii.eqb c ":" = true → negb (Ascii.eqb c "_") = true.
Proof. destruct c as [[] [] [] [] [] [] [] []]; done. Qed.

(** The printed time is [hh:mm] with both parts made of digits. *)
Lemma minutesToTimeString_shape (m : Z) :
  0 <= m →
  ∃ hh mm,
    CalendarService.minutesToTimeString (Js.Num m) = (hh ++ String ":" mm)%string
    ∧ Js.allChars Js.isDigit hh = true ∧ Js.allChars Js.isDigit mm = true
    ∧ (Js.isSafeInteger m = true →
       Js.Number hh = Some (Js.Num (m / 60)) ∧ Js.Number mm = Some (Js.Num (Z.rem m 60))).
Proof.
  intros Hm.
  assert (0 <= m / 60 <= m) as Hh
    by (split; [apply Z.div_pos; lia | apply Z.div_le_upper_bound; lia]).
  assert (0 <= Z.rem m 60 <= m) as Hr.
  { rewrite Z.rem_mod_nonneg by lia. pose proof (Z.mod_pos_bound m 60).
    pose proof (Z.mod_le m 60). lia. }
  exists (Js.padStart 2 "0" (Js.Z_toString (m / 60))),
         (Js.padStart 2 "0" (Js.Z_toString (Z.rem m 60))).
  split; [reflexivity|].
  split; [apply digits_pad; lia|]. split; [apply digits_pad; lia|].
  intros Hsafe. apply isSafeInteger_range in Hsafe.
  split; apply Number_pad; try lia; apply isSafeInteger_range; lia.
Qed.

(** Reading a printed time back gives the minutes it was printed from. *)
Lemma timeToMinutes_minutesToTimeString (m : Z) :
  0 <= m → Js.isSafeInteger m = true →
  CalendarService.timeToMinutes (CalendarService.minutesToTimeString (Js.Num m))
  = Some (Js.Num m).
Proof.
  intros Hm Hsafe.
  destruct (minutesToTimeString_shape m Hm) as (hh & mm & -> & Hhh & Hmm & HN).
  destruct (HN Hsafe) as [Nh Nm].
  unfold CalendarService.timeToMinutes.
  rewrite split_app by (apply (allChars_impl Js.isDigit); [apply digit_not_colon | done]).
  rewrite split_noChar by (apply (allChars_impl Js.isDigit); [apply digit_not_colon | done]).
  unfold CalendarService.piece. simpl. rewrite Nh, Nm. simpl.
  assert (0 <= m / 60 * 60 <= m) as Hq.
  { pose proof (Z.div_mod m 60). pose proof (Z.mod_pos_bound m 60).
    assert (0 <= m / 60) by (apply Z.div_pos; lia). lia. }
  apply isSafeInteger_range in Hsafe as Hrange.
  rewrite exact_safe by (apply isSafeInteger_range; lia). simpl.
  replace (m / 60 * 60 + Z.rem m 60) with m.
  - by apply exact_safe.
  - rewrite Z.rem_mod_nonneg by lia. pose proof (Z.div_mod m 60). lia.
Qed.

Lemma minutesToTimeString_no_underscore (m : Z) :
  0 <= m → noChar "_" (CalendarService.minutesToTimeString (Js.Num m)) = true.
Proof.
  intros Hm. destruct (minutesToTimeString_shape m Hm) as (hh & mm & -> & Hhh & Hmm & _).
  unfold noChar. rewrite allChars_app. simpl.
  apply andb_true_iff. split.
  - apply (allChars_impl Js.isDigit); [|done].
    intros c Hc. apply digit_or_colon_not_underscore. by rewrite Hc.
  - apply (allChars_impl Js.isDigit); [|done].
    intros c Hc. apply digit_or_colon_not_underscore. by rewrite Hc.
Qed.

Lemma minutesToTimeString_nonempty (m : Z) :
  0 <= m → CalendarService.minutesToTimeString (Js.Num m) ≠ "".
Proof.
  intros Hm. destruct (minutesToTimeString_shape m Hm) as (hh & mm & -> & _).
  by destruct hh.
Qed.

(** ** Slot generation *)

Section PositiveInterval.

(** The window ends at minute [e]; the interval [i] is positive and the sums
    the loop forms stay safe integers. *)
Variables e i : Z.
Hypothesis interval_positive : 0 < i.

Lemma slotCount_done (s : Z) : e <= s → slotCount s e i = O.
Proof.
  intros Hle. unfold slotCount.
  assert ((e - s + i - 1) / i <= 0) as H.
  { apply Z.lt_succ_r. apply Z.div_lt_upper_bound; lia. }
  lia.
Qed.

Lemma slotCount_more (s : Z) : s < e → slotCount s e i = S (slotCount (s + i) e i).
Proof.
  intros Hlt. unfold slotCount.
  replace (e - s + i - 1) with ((e - (s + i) + i - 1) + 1 * i) by lia.
  rewrite Z.div_add by lia.
  assert (0 <= (e - (s + i) + i - 1) / i) as H by (apply Z.div_pos; lia).
  rewrite Z2Nat.inj_add by lia. simpl. lia.
Qed.

Lemma slotCount_spec (s k : Z) :
  0 <= k → (k < Z.of_nat (slotCount s e i) ↔ s + k * i < e).
Proof.
  intros Hk. unfold slotCount.
  destruct (Z_lt_le_dec (e - s + i - 1) 0) as [Hneg | Hpos].
  - assert ((e - s + i - 1) / i < 0) by (apply Z.div_lt_upper_bound; lia).
    split; [lia | nia].
  - rewrite Z2Nat.id by (apply Z.div_pos; lia).
    split.
    + intros Hlt. assert (k + 1 <= (e - s + i - 1) / i) as H by lia.
      assert (i * (k + 1) <= e - s + i - 1); [|lia].
      etransitivity; [apply Z.mul_le_mono_nonneg_l; [lia | exact H]|].
      apply Z.mul_div_le. lia.
    + intros Hlt.
      assert (k + 1 <= (e - s + i - 1) / i) as H by (apply Z.div_le_lower_bound; lia).
      lia.
Qed.

Hypothesis sums_safe : Js.isSafeInteger (e + i) = true.

(** Given fuel, the loop ends and emits one slot per start minute. *)
Lemma dailyLoop_runs (w : World) (date : string) :
  ∀ fuel s, 0 <= s → (slotCount s e i < fuel)%nat →
    CalendarService.dailyLoop fuel w date s e i
    = Some (map (fun m => CalendarService.dailySlot w date m i) (slotStarts s e i)).
Proof.
  apply isSafeInteger_range in sums_safe.
  induction fuel as [|fuel IH]; intros s Hs Hfuel; [lia|].
  simpl. unfold slotStarts. destruct (s <? e) eqn:Hlt.
  - apply Z.ltb_lt in Hlt. rewrite (slotCount_more s Hlt) in *.
    replace (Js.isSafeInteger (s + i)) with true
      by (symmetry; apply isSafeInteger_range; unfold Js.MAX_SAFE_INTEGER in *; lia).
    rewrite IH by lia. reflexivity.
  - apply Z.ltb_ge in Hlt. by rewrite (slotCount_done s Hlt).
Qed.

End PositiveInterval.

(** With an interval that is not positive and a window that is not empty the
    loop never ends. *)
Lemma dailyLoop_diverges (w : World) (date : string) (e i : Z) :
  i <= 0 → ∀ fuel s, s < e → CalendarService.dailyLoop fuel w date s e i = None.
Proof.
  intros Hi. induction fuel as [|fuel IH]; intros s Hlt; [done|].
  simpl. apply Z.ltb_lt in Hlt as Hb. rewrite Hb.
  destruct (Js.isSafeInteger (s + i)); [|done].
  by rewrite IH by lia.
Qed.

Lemma generateDailySlots_runs (w : World) (date startTime endTime : string) (s e i : Z) :
  CalendarService.timeToMinutes startTime = Some (Js.Num s) →
  CalendarService.timeToMinutes endTime = Some (Js.Num e) →
  0 < i → Js.isSafeInteger (e + i) = true →
  ∀ fuel, (slotCount s e i < fuel)%nat →
    CalendarService.generateDailySlots fuel date startTime endTime i w
    = Some (map (fun m => CalendarService.dailySlot w date m i) (slotStarts s e i)).
Proof.
  intros Hs He Hi Hsafe fuel Hfuel. unfold CalendarService.generateDailySlots.
  apply timeToMinutes_nonneg in Hs as Hs0. apply timeToMinutes_nonneg in He as He0.
  replace (Js.isSafeInteger i) with true.
  - simpl. rewrite Hs, He. by apply dailyLoop_runs.
  - symmetry. apply isSafeInteger_range. apply isSafeInteger_range in Hsafe.
    unfold Js.MAX_SAFE_INTEGER in *. lia.
Qed.

(** In a zone that keeps one offset the next local day is 24 hours on. *)
Lemma nextDay_fixedZone (tz t : Z) : JsDate.nextDay (JsDate.fixedZone tz) t = t + JsDate.msPerDay.
Proof. unfold JsDate.nextDay, JsDate.addDays, JsDate.toUTC, JsDate.localTime. simpl. lia. Qed.

Lemma addDays_fixedZone (tz n t : Z) :
  JsDate.addDays (JsDate.fixedZone tz) n t = t + n * JsDate.msPerDay.
Proof. unfold JsDate.addDays, JsDate.toUTC, JsDate.localTime. simpl. lia. Qed.

Lemma dayCount_done (date end_ : Z) : end_ < date → dayCount date end_ = O.
Proof.
  intros Hlt. unfold dayCount, JsDate.msPerDay.
  assert ((end_ - date) / 86400000 < 0) as H by (apply Z.div_lt_upper_bound; lia).
  lia.
Qed.

Lemma dayCount_more (date end_ : Z) :
  date <= end_ → dayCount date end_ = S (dayCount (date + JsDate.msPerDay) end_).
Proof.
  intros Hle. unfold dayCount, JsDate.msPerDay.
  replace (end_ - date) with ((end_ - (date + 86400000)) + 1 * 86400000) by lia.
  rewrite Z.div_add by lia.
  assert (-1 <= (end_ - (date + 86400000)) / 86400000) as H
    by (apply Z.div_le_lower_bound; lia).
  lia.
Qed.

Lemma dateLoop_runs (tz : Z) (w : World) (end_ : Z) (startTime endTime : string) (s e i : Z) :
  CalendarService.timeToMinutes startTime = Some (Js.Num s) →
  CalendarService.timeToMinutes endTime = Some (Js.Num e) →
  0 < i → Js.isSafeInteger (e + i) = true →
  ∀ fuel date, (dayCount date end_ + slotCount s e i < fuel)%nat →
    CalendarService.dateLoop fuel (JsDate.fixedZone tz) w date end_ startTime endTime i
    = Some (slotsOfDays (JsDate.getDay (JsDate.fixedZone tz)) w
              (daysFrom (dayCount date end_) date) s e i).
Proof.
  intros Hs He Hi Hsafe. induction fuel as [|fuel IH]; intros date Hfuel; [lia|].
  simpl. destruct (date <=? end_) eqn:Hle.
  - apply Z.leb_le in Hle. rewrite (dayCount_more date end_ Hle) in *.
    rewrite nextDay_fixedZone.
    simpl. destruct (CalendarService.isWeekend (JsDate.getDay (JsDate.fixedZone tz) date)).
    + apply IH. lia.
    + rewrite (generateDailySlots_runs w _ startTime endTime s e i Hs He Hi Hsafe) by lia.
      rewrite IH by lia. reflexivity.
  - apply Z.leb_gt in Hle. by rewrite (dayCount_done date end_ Hle).
Qed.

Lemma parse_midnight (text : string) (t : Z) :
  JsDate.parse text = Some t → ∃ day, t = day * JsDate.msPerDay.
Proof.
  unfold JsDate.parse.
  destruct (Js.split "-" text) as [|ys [|ms [|ds [|? ?]]]]; try done.
  destruct (_ && _); [|done].
  destruct (Js.Number ys) as [[y|]|]; try done.
  destruct (Js.Number ms) as [[m|]|]; try done.
  destruct (Js.Number ds) as [[d|]|]; try done.
  destruct (_ && _); [|done].
  intros [= <-]. by eexists.
Qed.

(** At midnight UTC, in a zone that keeps an offset at or east of UTC, the
    local day of the week is the one of the UTC calendar day. *)
Lemma getDay_utcDay (tz day : Z) :
  0 <= tz < 1440 →
  JsDate.getDay (JsDate.fixedZone tz) (day * JsDate.msPerDay)
  = JsDate.utcDay (day * JsDate.msPerDay).
Proof.
  intros Htz. unfold JsDate.getDay, JsDate.utcDay, JsDate.localTime, JsDate.msPerDay. simpl.
  rewrite Z.div_add_l by lia. rewrite Z.div_mul by lia.
  rewrite (Z.div_small (tz * 60000)) by lia. f_equal. lia.
Qed.

Lemma daysFrom_midnight (n : nat) (day : Z) :
  Forall (fun t => ∃ d, t = d * JsDate.msPerDay) (daysFrom n (day * JsDate.msPerDay)).
Proof.
  revert day. induction n as [|n IH]; intros day; simpl; constructor.
  - by eexists.
  - replace (day * JsDate.msPerDay + JsDate.msPerDay) with ((day + 1) * JsDate.msPerDay) by lia.
    apply IH.
Qed.

Lemma slotsOfDays_ext (f g : Z → Z) (w : World) (days : list Z) (s e i : Z) :
  Forall (fun t => f t = g t) days →
  slotsOfDays f w days s e i = slotsOfDays g w days s e i.
Proof.
  induction 1 as [|t days Ht _ IH]; [done|].
  unfold slotsOfDays in *. simpl. by rewrite Ht, IH.
Qed.

Lemma in_startsFrom (n : nat) (s i m : Z) :
  In m (startsFrom n s i) ↔ ∃ k, 0 <= k < Z.of_nat n ∧ m = s + k * i.
Proof.
  revert s. induction n as [|n IH]; intros s; simpl.
  - split; [done | intros (k & Hk & _); lia].
  - rewrite IH. split.
    + intros [<- | (k & Hk & ->)].
      * exists 0. lia.
      * exists (k + 1). lia.
    + intros (k & Hk & ->). destruct (decide (k = 0)) as [-> | Hne].
      * left. lia.
      * right. exists (k - 1). lia.
Qed.

Lemma in_daysFrom (n : nat) (day t : Z) :
  In t (daysFrom n day) ↔ ∃ k, 0 <= k < Z.of_nat n ∧ t = day + k * JsDate.msPerDay.
Proof.
  revert day. induction n as [|n IH]; intros day; simpl.
  - split; [done | intros (k & Hk & _); lia].
  - rewrite IH. split.
    + intros [<- | (k & Hk & ->)].
      * exists 0. lia.
      * exists (k + 1). lia.
    + intros (k & Hk & ->). destruct (decide (k = 0)) as [-> | Hne].
      * left. lia.
      * right. exists (k - 1). lia.
Qed.

Lemma dayCount_spec (start end_ k : Z) :
  0 <= k → (k < Z.of_nat (dayCount start end_) ↔ start + k * JsDate.msPerDay <= end_).
Proof.
  intros Hk. unfold dayCount, JsDate.msPerDay.
  destruct (Z_lt_le_dec (end_ - start) 0) as [Hneg | Hpos].
  - assert ((end_ - start) / 86400000 < 0) by (apply Z.div_lt_upper_bound; lia).
    split; lia.
  - assert (0 <= (end_ - start) / 86400000) as Hq by (apply Z.div_pos; lia).
    rewrite Z2Nat.id by lia. split.
    + intros Hlt. assert (k <= (end_ - start) / 86400000) as H by lia.
      assert (86400000 * k <= end_ - start); [|lia].
      etransitivity; [apply Z.mul_le_mono_nonneg_l; [lia | exact H]|].
      apply Z.mul_div_le. lia.
    + intros Hle. assert (k <= (end_ - start) / 86400000); [|lia].
      apply Z.div_le_lower_bound; lia.
Qed.

Lemma slotsOfDays_empty_window (f : Z → Z) (w : World) (days : list Z) (s e i : Z) :
  0 < i → e <= s → slotsOfDays f w days s e i = [].
Proof.
  intros Hi Hle. unfold slotsOfDays, slotsOfDay, slotStarts.
  rewrite (slotCount_done e i Hi s Hle). simpl.
  induction days as [|t days IH]; simpl; [done|].
  rewrite IH. by destruct (CalendarService.isWeekend (f t)).
Qed.

(** 16 January 2024 is a Tuesday; in any zone that keeps an offset of less
    than a day from UTC its midnight UTC falls on a Monday or a Tuesday. *)
Lemma tuesday_not_weekend (tz : Z) :
  -1440 < tz < 1440 →
  CalendarService.isWeekend (JsDate.getDay (JsDate.fixedZone tz) 1705363200000) = false.
Proof.
  intros Htz.
  unfold CalendarService.isWeekend, JsDate.getDay, JsDate.localTime, JsDate.msPerDay. simpl.
  apply orb_false_iff. split; apply Z.eqb_neq; Z.div_mod_to_equations; lia.
Qed.

(** West of UTC the weekday test looks at the previous calendar day: five
    hours behind UTC, the range from Saturday 13 to Tuesday 16 January 2024
    yields slots dated 2024-01-13 and 2024-01-16 (what the test 'skips
    weekends correctly' of the calendar service expects), where at UTC it
    yields them for Monday 15 and Tuesday 16. *)
Lemma weekday_test_follows_local_zone :
  option_map (map TimeSlot.date)
    (CalendarService.generateTimeSlots 20 (JsDate.fixedZone (-300))
       "2024-01-13" "2024-01-16" "09:00" "10:00" 60 (initial 0))
  = Some ["2024-01-13"; "2024-01-16"]
  ∧ option_map (map TimeSlot.date)
      (CalendarService.generateTimeSlots 20 (JsDate.fixedZone 0)
         "2024-01-13" "2024-01-16" "09:00" "10:00" 60 (initial 0))
    = Some ["2024-01-15"; "2024-01-16"].
Proof. split; vm_compute; reflexivity. Qed.

(** East of UTC a change of the clocks shifts the days as well: the loop
    steps by local days, which are 23 hours long when summer time begins. In
    central Europe the range from Friday 29 March to Tuesday 2 April 2024
    yields slots dated 2024-03-29, 2024-03-31 (a Sunday; the instant is
    Monday 1 April 01:00 local time) and 2024-04-01, and none dated
    2024-04-02. *)
Lemma clock_change_shifts_days :
  option_map (map TimeSlot.date)
    (CalendarService.generateTimeSlots 20 centralEurope2024
       "2024-03-29" "2024-04-02" "09:00" "10:00" 60 (initial 0))
  = Some ["2024-03-29"; "2024-03-31"; "2024-04-01"].
Proof. vm_compute. reflexivity. Qed.

(** C8 (as amended). [generateTimeSlots], for dates written YYYY-MM-DD, time
    texts that read as numbers of minutes, an interval that is a positive
    whole number of minutes (small enough for the sums to be safe integers),
    run in a zone that keeps one offset at or east of UTC, returns (given
    fuel for its loops) the slots of every calendar day of the inclusive
    range [start, start + 1 day, ..., <= end] except the Saturdays and
    Sundays; on each remaining day there is one slot, [intervalMinutes] wide,
    starting at [startTime + k * intervalMinutes] for every [k >= 0] that
    keeps this start before [endTime]: none when [startTime >= endTime], and
    slots that all end by [endTime] when the interval divides the window.
    For 2024-01-16 to 2024-01-16, 09:00 to 10:00, interval 30, on fresh
    services (and in any zone that keeps an offset of less than a day from
    UTC) the result is exactly the two available slots 09:00-09:30 and
    09:30-10:00. *)
Theorem generateTimeSlots_weekday_slots :
  (∀ (w : World) (tz : Z) (startDate endDate startTime endTime : string)
     (i start end_ s e : Z),
     JsDate.parse startDate = Some start →
     JsDate.parse endDate = Some end_ →
     CalendarService.timeToMinutes startTime = Some (Js.Num s) →
     CalendarService.timeToMinutes endTime = Some (Js.Num e) →
     0 < i → Js.isSafeInteger (e + i) = true → 0 <= tz < 1440 →
     let days := daysFrom (dayCount start end_) start in
     (∀ fuel, (dayCount start end_ + slotCount s e i < fuel)%nat →
        CalendarService.generateTimeSlots fuel (JsDate.fixedZone tz)
          startDate endDate startTime endTime i w
        = Some (slotsOfDays JsDate.utcDay w days s e i))
     ∧ (∀ t, In t days ↔ ∃ k, 0 <= k ∧ t = start + k * JsDate.msPerDay ∧ t <= end_)
     ∧ (∀ m, In m (slotStarts s e i) ↔ ∃ k, 0 <= k ∧ m = s + k * i ∧ m < e)
     ∧ (e <= s → slotsOfDays JsDate.utcDay w days s e i = [])
     ∧ ((i | e - s) → ∀ m, In m (slotStarts s e i) → m + i <= e))
  ∧ (∀ (tz : Z) (fuel : nat) (t0 : Z),
       -1440 < tz < 1440 → (4 <= fuel)%nat →
       CalendarService.generateTimeSlots fuel (JsDate.fixedZone tz)
         "2024-01-16" "2024-01-16" "09:00" "10:00" 30 (initial t0)
       = Some [slot0900; slot0930]).
Proof.
  split.
  - intros w tz startDate endDate startTime endTime i start end_ s e
      Hstart Hend Hs He Hi Hsafe Htz days.
    split; [|split; [|split; [|split]]].
    + intros fuel Hfuel. unfold CalendarService.generateTimeSlots.
      rewrite Hstart, Hend.
      rewrite (dateLoop_runs tz w end_ startTime endTime s e i Hs He Hi Hsafe) by done.
      f_equal. apply slotsOfDays_ext.
      destruct (parse_midnight _ _ Hstart) as [d ->].
      eapply Forall_impl; [apply daysFrom_midnight|].
      intros t [d' ->]. by apply getDay_utcDay.
    + intros t. subst days. rewrite in_daysFrom. split.
      * intros (k & Hk & ->). exists k. split; [lia|]. split; [done|].
        apply dayCount_spec; lia.
      * intros (k & Hk & -> & Hle). exists k. split; [|done].
        split; [done|]. by apply dayCount_spec.
    + intros m. unfold slotStarts. rewrite in_startsFrom. split.
      * intros (k & Hk & ->). exists k. split; [lia|]. split; [done|].
        apply slotCount_spec; lia.
      * intros (k & Hk & -> & Hlt). exists k. split; [|done].
        split; [done|]. by apply slotCount_spec.
    + intros Hle. by apply slotsOfDays_empty_window.
    + intros [q Hq] m Hm. unfold slotStarts in Hm. apply in_startsFrom in Hm as (k & Hk & ->).
      assert (s + k * i < e) as Hlt by (apply slotCount_spec; lia).
      assert (k < q) by nia. nia.
  - intros tz fuel t0 Htz Hfuel. unfold CalendarService.generateTimeSlots.
    assert (JsDate.parse "2024-01-16" = Some 1705363200000) as -> by (vm_compute; reflexivity).
    rewrite (dateLoop_runs tz (initial t0) _ "09:00" "10:00" 540 600 30);
      [| reflexivity | reflexivity | lia | reflexivity | ].
    + assert (dayCount 1705363200000 1705363200000 = 1%nat) as -> by (vm_compute; reflexivity).
      unfold slotsOfDays. simpl. rewrite (tuesday_not_weekend tz Htz).
      reflexivity.
    + assert (dayCount 1705363200000 1705363200000 = 1%nat) as -> by (vm_compute; reflexivity).
      assert (slotCount 540 600 30 = 2%nat) as -> by (vm_compute; reflexivity).
      lia.
Qed.

Lemma generateTimeSlots_witness :
  JsDate.parse "2024-01-19" = Some 1705622400000
  ∧ JsDate.parse "2024-01-22" = Some 1705881600000
  ∧ CalendarService.timeToMinutes "09:00" = Some (Js.Num 540)
  ∧ CalendarService.timeToMinutes "10:00" = Some (Js.Num 600)
  ∧ 0 < 30 ∧ Js.isSafeInteger (600 + 30) = true ∧ 0 <= 60 < 1440
  ∧ (dayCount 1705622400000 1705881600000 + slotCount 540 600 30 < 10)%nat
  ∧ option_map (map TimeSlot.id)
      (CalendarService.generateTimeSlots 10 (JsDate.fixedZone 60)
         "2024-01-19" "2024-01-22" "09:00" "10:00" 30 (initial 1000))
    = Some ["2024-01-19_09:00"; "2024-01-19_09:30"; "2024-01-22_09:00"; "2024-01-22_09:30"].
Proof.
  assert (JsDate.parse "2024-01-19" = Some 1705622400000) as H1 by (vm_compute; reflexivity).
  assert (JsDate.parse "2024-01-22" = Some 1705881600000) as H2 by (vm_compute; reflexivity).
  assert (CalendarService.timeToMinutes "09:00" = Some (Js.Num 540)) as H3 by reflexivity.
  assert (CalendarService.timeToMinutes "10:00" = Some (Js.Num 600)) as H4 by reflexivity.
  assert (0 < 30) as H5 by lia.
  assert (Js.isSafeInteger (600 + 30) = true) as Hsafe by reflexivity.
  assert (0 <= 60 < 1440) as H6 by lia.
  assert (dayCount 1705622400000 1705881600000 + slotCount 540 600 30 < 10)%nat as H7
    by (vm_compute; lia).
  destruct generateTimeSlots_weekday_slots as [Hgen _].
  destruct (Hgen (initial 1000) 60 "2024-01-19" "2024-01-22" "09:00" "10:00" 30
              1705622400000 1705881600000 540 600 H1 H2 H3 H4 H5 Hsafe H6) as [Hrun _].
  split; [exact H1|]. split; [exact H2|]. split; [exact H3|]. split; [exact H4|].
  split; [exact H5|]. split; [exact Hsafe|]. split; [exact H6|]. split; [exact H7|].
  rewrite (Hrun 10%nat H7). vm_compute. reflexivity.
Defined.

(** C8, the claim as stated fails: with an interval of 45 minutes the slots
    generated for the window 09:00 to 10:00 are 09:00-09:45 and 09:45-10:30;
    the second one ends after [endTime], so the slots do not partition the
    window. *)
Lemma slots_overrun_window :
  option_map (map (fun slot => (TimeSlot.startTime slot, TimeSlot.endTime slot)))
    (CalendarService.generateTimeSlots 10 (JsDate.fixedZone 0)
       "2024-01-16" "2024-01-16" "09:00" "10:00" 45 (initial 1000))
  = Some [("09:00", "09:45"); ("09:45", "10:30")]
  ∧ CalendarService.timeToMinutes "10:30" = Some (Js.Num 630)
  ∧ CalendarService.timeToMinutes "10:00" = Some (Js.Num 600)
  ∧ ¬ (630 <= 600).
Proof.
  split; [vm_compute; reflexivity|].
  split; [reflexivity|]. split; [reflexivity|]. lia.
Qed.

(** ** Expiry of a hold *)

Lemma timerDelay_honoured (d : Z) : 1 <= d <= 2147483647 → Js.timerDelay d = d.
Proof.
  intros Hd. unfold Js.timerDelay.
  replace (1 <=? d) with true by (symmetry; apply Z.leb_le; lia).
  replace (d <=? 2147483647) with true by (symmetry; apply Z.leb_le; lia).
  done.
Qed.

Lemma timerDelay_range (d : Z) : 0 <= Js.timerDelay d <= 2147483647.
Proof.
  unfold Js.timerDelay.
  destruct (1 <=? d) eqn:H1; simpl; [|lia].
  destruct (d <=? 2147483647) eqn:H2; [|lia].
  apply Z.leb_le in H1, H2. lia.
Qed.

(** C9 (as amended). A hold placed by [reserveSlot] at time [t0] with delay
    [d] keeps blocking availability queries whatever the clock reads, as long
    as only time passes; the call leaves a timer pending that is due at [t0]
    plus the delay [setTimeout] honours, which is [d] itself for a whole
    number of milliseconds from 1 to 2147483647 and nothing otherwise; a
    timer for the slot can only run once the clock has reached its due time;
    and right after one has run the slot is available unless it is booked. *)
Theorem hold_lasts_until_timer_runs
    (w w1 : World) (slotId : string) (d : Z) :
  CalendarService.reserveSlot slotId d w = (true, w1) →
  (∀ t, CalendarService.isSlotAvailable slotId (with_now t w1) = false)
  ∧ (∃ i, timers w1 !! i = Some {| due := now w + Js.timerDelay d; target := slotId |})
  ∧ (1 <= d <= 2147483647 → Js.timerDelay d = d)
  ∧ (¬ (1 <= d <= 2147483647) → Js.timerDelay d = 0)
  ∧ (∀ w2 i tm w3,
       timers w2 !! i = Some tm → target tm = slotId → fireTimer i w2 = Some w3 →
       due tm <= now w2
       ∧ CalendarService.isSlotAvailable slotId w3 = negb (has (bookedSlots w2) slotId)).
Proof.
  intros Hres. unfold CalendarService.reserveSlot in Hres.
  destruct (has (bookedSlots w) slotId || member (reservedSlots w) slotId); [done|].
  injection Hres as <-. split; [|split; [|split; [|split]]].
  - intros t. unfold CalendarService.isSlotAvailable. unfold_world.
    apply andb_false_iff. right. apply negb_false_iff, member_true. set_solver.
  - exists (length (timers w)). unfold_world.
    rewrite lookup_app_r by lia. by rewrite Nat.sub_diag.
  - apply timerDelay_honoured.
  - intros Hout. unfold Js.timerDelay.
    destruct (1 <=? d) eqn:H1; simpl; [|done].
    destruct (d <=? 2147483647) eqn:H2; [|done].
    apply Z.leb_le in H1, H2. lia.
  - intros w2 i tm w3 Ht Htarget Hfire. unfold fireTimer in Hfire. rewrite Ht in Hfire.
    destruct (due tm <=? now w2) eqn:Hdue; [|done].
    injection Hfire as <-. split; [lia|].
    unfold CalendarService.isSlotAvailable. unfold_world. rewrite Htarget.
    replace (member (reservedSlots w2 ∖ {[slotId]}) slotId) with false.
    + by rewrite andb_true_r.
    + symmetry. apply member_false.
      intros [_ Hn]%elem_of_difference. by apply Hn, elem_of_singleton.
Qed.

Lemma hold_lasts_until_timer_runs_witness :
  let r := CalendarService.reserveSlot "2024-01-16_09:00" 300000 (initial 0) in
  r.1 = true
  ∧ CalendarService.isSlotAvailable "2024-01-16_09:00" (with_now 900000 r.2) = false
  ∧ timers r.2 !! 0%nat = Some {| due := 300000; target := "2024-01-16_09:00" |}.
Proof.
  intros r. split; [reflexivity|].
  assert (CalendarService.reserveSlot "2024-01-16_09:00" 300000 (initial 0) = (true, r.2)) as H
    by reflexivity.
  destruct (hold_lasts_until_timer_runs (initial 0) r.2 "2024-01-16_09:00" 300000 H) as [Hb _].
  split; [exact (Hb 900000) | reflexivity].
Defined.

(** C9, the claim as stated fails: a hold placed at time 0 with a delay of
    five minutes still blocks [isSlotAvailable] at minute fifteen when the
    timer callback has not run yet; only the clock has advanced. *)
Lemma overdue_hold_still_blocks :
  let w1 := (CalendarService.reserveSlot "2024-01-16_09:00" 300000 (initial 0)).2 in
  let later := with_now (now w1 + 900000) w1 in
  env_step w1 later
  ∧ 0 + 300000 < now later
  ∧ has (bookedSlots later) "2024-01-16_09:00" = false
  ∧ CalendarService.isSlotAvailable "2024-01-16_09:00" later = false.
Proof.
  intros w1 later. split; [|split; [|split]].
  - apply env_tick. lia.
  - vm_compute. reflexivity.
  - vm_compute. reflexivity.
  - vm_compute. reflexivity.
Qed.

(** ** Slot lookup by id *)

Lemma getSlotById_parts (w : World) (slotId date startTime : string) (rest : list string)
    (finish : Js.num) :
  Js.split "_" slotId = date :: startTime :: rest →
  date ≠ "" → startTime ≠ "" →
  CalendarService.endMinutes startTime = Some finish →
  CalendarService.getSlotById slotId w
  = Some (Some {| TimeSlot.id := slotId;
                  TimeSlot.date := date;
                  TimeSlot.startTime := startTime;
                  TimeSlot.endTime := CalendarService.minutesToTimeString finish;
                  TimeSlot.isAvailable := CalendarService.isSlotAvailable slotId w;
                  TimeSlot.bookedBy := bookedSlots w !! slotId |}).
Proof.
  intros Hs Hd Ht Hf. unfold CalendarService.getSlotById. rewrite Hs. simpl.
  apply String.eqb_neq in Hd, Ht. by rewrite Hd, Ht, Hf.
Qed.

Lemma endMinutes_number (startTime : string) (mins : Z) :
  CalendarService.timeToMinutes startTime = Some (Js.Num mins) →
  Js.isSafeInteger (mins + 30) = true →
  CalendarService.endMinutes startTime = Some (Js.Num (mins + 30)).
Proof.
  intros Hm Hsafe. unfold CalendarService.endMinutes. rewrite Hm. simpl.
  by apply exact_safe.
Qed.

Lemma dailySlot_id_split (w : World) (date : string) (minutes intervalMinutes : Z) :
  noChar "_" date = true → 0 <= minutes →
  Js.split "_" (TimeSlot.id (CalendarService.dailySlot w date minutes intervalMinutes))
  = [date; CalendarService.minutesToTimeString (Js.Num minutes)].
Proof.
  intros Hu Hm. unfold CalendarService.dailySlot. cbv zeta.
  change (TimeSlot.id _) with
    (date ++ String "_" (CalendarService.minutesToTimeString (Js.Num minutes)))%string.
  rewrite split_app by done.
  by rewrite split_noChar by by apply minutesToTimeString_no_underscore.
Qed.




(* ===================================================================== *)
(** * Further properties of the services                                  *)
(* ===================================================================== *)

Lemma not_elem_of_removed (s : gset string) (k : string) : k ∉ s ∖ {[ k ]}.
Proof. intros [_ Hn]%elem_of_difference. by apply Hn, elem_of_singleton. Qed.

(** ** createBooking: outcome, atomicity, effects *)

Lemma bookSlot_available (slotId user : string) (w : World) :
  CalendarService.isSlotAvailable slotId w = true →
  CalendarService.bookSlot slotId user w
  = (true,
     with_bookedSlots (<[ slotId := user ]> (bookedSlots w))
       (with_reservedSlots (reservedSlots w ∖ {[ slotId ]}) w)).
Proof.
  unfold CalendarService.isSlotAvailable, CalendarService.bookSlot.
  intros [Hb _]%andb_true_iff. apply negb_true_iff in Hb. by rewrite Hb.
Qed.

(** X1. [createBooking] succeeds exactly when the contact passes
    [validateContactInfo], the calendar reports the slot available and no
    other user's reservation entry is stored for it; when it does not
    succeed, the world after the call is the world before it: no booking, no
    slot state and no storage write is left behind. *)
Theorem createBooking_all_or_nothing
    (contact : ContactInfo.t) (slot : TimeSlot.t) (user rnd1 rnd2 : string) (w : World) :
  let r := BookingService.createBooking contact slot user rnd1 rnd2 w in
  CreateBookingResult.success r.1
  = ValidationResult.isValid (BookingService.validateContactInfo contact)
    && CalendarService.isSlotAvailable (TimeSlot.id slot) w
    && negb (BookingService.reservedByOther (TimeSlot.id slot) user w)
  ∧ (CreateBookingResult.success r.1 = false →
     r.2 = w ∧ CreateBookingResult.data r.1 = None ∧ is_Some (CreateBookingResult.error r.1)).
Proof.
  unfold BookingService.createBooking. cbv zeta.
  destruct (ValidationResult.isValid _); simpl; [|by eauto].
  destruct (CalendarService.isSlotAvailable _ w) eqn:Ha; simpl; [|by eauto].
  destruct (BookingService.reservedByOther _ _ w); simpl; [by eauto|].
  rewrite (bookSlot_available _ user w Ha). simpl. done.
Qed.

Lemma createBooking_all_or_nothing_witness :
  let r := BookingService.createBooking badContact slot0900 "A" "k3j9x0q2m" "7fza" (initial 1000) in
  CreateBookingResult.success r.1 = false ∧ r.2 = initial 1000.
Proof.
  intros r.
  assert (CreateBookingResult.success r.1 = false) as H by (vm_compute; reflexivity).
  split; [exact H|].
  exact (proj1 (proj2 (createBooking_all_or_nothing badContact slot0900 "A" "k3j9x0q2m" "7fza"
                         (initial 1000)) H)).
Defined.

Lemma createBooking_success_world
    (contact : ContactInfo.t) (slot : TimeSlot.t) (user rnd1 rnd2 : string) (w : World) :
  CreateBookingResult.success
    (BookingService.createBooking contact slot user rnd1 rnd2 w).1 = true →
  let id := BookingService.generateBookingId rnd1 w in
  let booking :=
    {| Booking.id := id;
       Booking.contactInfo := BookingService.sanitizeContactInfo contact;
       Booking.timeSlot :=
         {| TimeSlot.id := TimeSlot.id slot; TimeSlot.date := TimeSlot.date slot;
            TimeSlot.startTime := TimeSlot.startTime slot;
            TimeSlot.endTime := TimeSlot.endTime slot;
            TimeSlot.isAvailable := false; TimeSlot.bookedBy := Some user |};
       Booking.status := CONFIRMED;
       Booking.createdAt := now w;
       Booking.confirmationId := BookingService.generateConfirmationId rnd2 w |} in
  let w' := (BookingService.createBooking contact slot user rnd1 rnd2 w).2 in
  CalendarService.isSlotAvailable (TimeSlot.id slot) w = true
  ∧ bookedSlots w' = <[ TimeSlot.id slot := user ]> (bookedSlots w)
  ∧ reservedSlots w' = reservedSlots w ∖ {[ TimeSlot.id slot ]}
  ∧ bookings w' = <[ id := booking ]> (bookings w)
  ∧ reservations w' = delete (TimeSlot.id slot) (reservations w)
  ∧ timers w' = timers w ∧ now w' = now w
  ∧ localStorage w'
    = (if setItemFails w then localStorage w
       else Some {| saved_bookings := bookings w'; saved_reservations := reservations w';
                    saved_timestamp := now w |})
  ∧ setItemFails w' = setItemFails w.
Proof.
  intros Hs.
  destruct (createBooking_all_or_nothing contact slot user rnd1 rnd2 w) as [Hout _].
  cbv zeta in Hout. rewrite Hs in Hout. symmetry in Hout.
  apply andb_true_iff in Hout as [[Hv Ha]%andb_true_iff Hr].
  apply negb_true_iff in Hr.
  unfold BookingService.createBooking. cbv zeta. rewrite Hv, Ha, Hr. simpl.
  rewrite (bookSlot_available _ user w Ha). simpl. done.
Qed.

(** X2. After a successful [createBooking] the slot is booked by the caller
    in the calendar and no longer held or reserved, the booking is kept in
    the table as confirmed under its generated id with the caller as the
    slot's owner, and the calendar turns away every further [createBooking]
    for that slot, whoever asks. The storage entry holds the new booking
    table when [setItem] works; when it throws, the booking succeeds all the
    same and the storage entry stays as it was. *)
Theorem createBooking_commits
    (contact : ContactInfo.t) (slot : TimeSlot.t) (user rnd1 rnd2 : string) (w : World) :
  CreateBookingResult.success
    (BookingService.createBooking contact slot user rnd1 rnd2 w).1 = true →
  let w' := (BookingService.createBooking contact slot user rnd1 rnd2 w).2 in
  bookedSlots w' !! TimeSlot.id slot = Some user
  ∧ (TimeSlot.id slot ∉ reservedSlots w')
  ∧ reservations w' !! TimeSlot.id slot = None
  ∧ (∃ booking,
       BookingService.getBooking (BookingService.generateBookingId rnd1 w) w' = Some booking
       ∧ Booking.status booking = CONFIRMED
       ∧ TimeSlot.bookedBy (Booking.timeSlot booking) = Some user
       ∧ TimeSlot.id (Booking.timeSlot booking) = TimeSlot.id slot)
  ∧ (setItemFails w = false → option_map saved_bookings (localStorage w') = Some (bookings w'))
  ∧ (setItemFails w = true → localStorage w' = localStorage w)
  ∧ (∀ contact' slot' user' rnd1' rnd2',
       TimeSlot.id slot' = TimeSlot.id slot →
       let again := BookingService.createBooking contact' slot' user' rnd1' rnd2' w' in
       CreateBookingResult.success again.1 = false ∧ again.2 = w').
Proof.
  intros Hs w'.
  destruct (createBooking_success_world contact slot user rnd1 rnd2 w Hs)
    as (Ha & Hb & Hr & Hk & Hres & _ & _ & Hst & _).
  fold w' in Hb, Hr, Hk, Hres, Hst.
  assert (bookedSlots w' !! TimeSlot.id slot = Some user) as Hbooked
    by (rewrite Hb; apply lookup_insert_eq).
  split; [exact Hbooked|].
  split; [rewrite Hr; apply not_elem_of_removed|].
  split; [rewrite Hres; apply lookup_delete_eq|].
  split.
  { eexists. unfold BookingService.getBooking. rewrite Hk.
    split; [apply lookup_insert_eq|]. done. }
  split; [intros Hok; by rewrite Hst, Hok|].
  split; [intros Hfail; by rewrite Hst, Hfail|].
  intros contact' slot' user' rnd1' rnd2' Hid again.
  destruct (createBooking_all_or_nothing contact' slot' user' rnd1' rnd2' w') as [Hout Hfail].
  fold again in Hout, Hfail.
  assert (CreateBookingResult.success again.1 = false) as Hno.
  { rewrite Hout. unfold CalendarService.isSlotAvailable, has.
    rewrite Hid, Hbooked. simpl. by rewrite andb_false_r. }
  split; [exact Hno | by apply Hfail].
Qed.

Lemma createBooking_commits_witness :
  let r := BookingService.createBooking validContact slot0900 "A" "k3j9x0q2m" "7fza" (initial 1000) in
  CreateBookingResult.success r.1 = true
  ∧ bookedSlots r.2 !! "2024-01-16_09:00" = Some "A"
  ∧ CreateBookingResult.success
      (BookingService.createBooking validContact slot0900 "B" "p5v1c8d4t" "m2qk" r.2).1 = false.
Proof.
  intros r.
  assert (CreateBookingResult.success r.1 = true) as H by (vm_compute; reflexivity).
  pose proof (createBooking_commits validContact slot0900 "A" "k3j9x0q2m" "7fza" (initial 1000) H)
    as (Hb & _ & _ & _ & _ & _ & Hagain).
  split; [exact H|]. split; [exact Hb|].
  exact (proj1 (Hagain validContact slot0900 "B" "p5v1c8d4t" "m2qk" eq_refl)).
Defined.

(** X3. Booking and then cancelling is a round trip for the calendar: after
    a successful [createBooking], [cancelBooking] of the generated id by the
    same user returns true, the booked map is the one from before the
    booking, the slot is available again, and the booking record is kept
    with status Cancelled. *)
Theorem createBooking_then_cancel
    (contact : ContactInfo.t) (slot : TimeSlot.t) (user rnd1 rnd2 : string) (w : World) :
  CreateBookingResult.success
    (BookingService.createBooking contact slot user rnd1 rnd2 w).1 = true →
  let w' := (BookingService.createBooking contact slot user rnd1 rnd2 w).2 in
  let id := BookingService.generateBookingId rnd1 w in
  let c := BookingService.cancelBooking id user w' in
  c.1 = true
  ∧ bookedSlots c.2 = bookedSlots w
  ∧ CalendarService.isSlotAvailable (TimeSlot.id slot) c.2 = true
  ∧ option_map Booking.status (BookingService.getBooking id c.2) = Some CANCELLED.
Proof.
  intros Hs w' id c.
  destruct (createBooking_success_world contact slot user rnd1 rnd2 w Hs)
    as (Ha & Hb & Hr & Hk & _).
  fold w' id in Hb, Hr, Hk.
  apply andb_true_iff in Ha as [Hnb _]. apply negb_true_iff, has_false in Hnb.
  subst c. unfold BookingService.cancelBooking.
  rewrite Hk, lookup_insert_eq. simpl.
  case_decide as Hd; [|done]. clear Hd.
  unfold CalendarService.cancelBooking. unfold_world.
  rewrite Hb, lookup_insert_eq. case_decide as Hd; [|done]. clear Hd.
  simpl.
  assert (delete (TimeSlot.id slot) (<[TimeSlot.id slot:=user]> (bookedSlots w)) = bookedSlots w)
    as Hdel by (rewrite delete_insert_eq; by apply delete_id).
  split; [done|]. split; [exact Hdel|]. split.
  - unfold CalendarService.isSlotAvailable. simpl. rewrite Hdel, Hr.
    apply andb_true_iff. split.
    + apply negb_true_iff, has_false. exact Hnb.
    + apply negb_true_iff, member_false. apply not_elem_of_removed.
  - unfold BookingService.getBooking. simpl. by rewrite lookup_insert_eq.
Qed.

Lemma createBooking_then_cancel_witness :
  let r := BookingService.createBooking validContact slot0900 "A" "k3j9x0q2m" "7fza" (initial 1000) in
  CreateBookingResult.success r.1 = true
  ∧ (BookingService.cancelBooking bookedId "A" r.2).1 = true
  ∧ CalendarService.isSlotAvailable "2024-01-16_09:00"
      (BookingService.cancelBooking bookedId "A" r.2).2 = true.
Proof.
  intros r.
  assert (CreateBookingResult.success r.1 = true) as H by (vm_compute; reflexivity).
  pose proof (createBooking_then_cancel validContact slot0900 "A" "k3j9x0q2m" "7fza" (initial 1000) H)
    as (H1 & _ & H2 & _).
  split; [exact H|]. split; [exact H1 | exact H2].
Defined.

(** ** What is stored of a contact *)

Lemma allChars_remove (cls : ascii → bool) (s : string) :
  Js.allChars (fun c => negb (cls c)) (Js.remove cls s) = true.
Proof.
  induction s as [|c s IH]; simpl; [done|].
  destruct (cls c) eqn:Hc; simpl; [done|]. by rewrite Hc.
Qed.

Lemma allChars_take (p : ascii → bool) (n : nat) (s : string) :
  Js.allChars p s = true → Js.allChars p (Js.take n s) = true.
Proof.
  unfold Js.take. revert s. induction n as [|n IH]; intros [|c s]; simpl; try done.
  intros [Hc Hs]%andb_true_iff. rewrite Hc. by apply IH.
Qed.

Lemma length_take (n : nat) (s : string) : (String.length (Js.take n s) <= n)%nat.
Proof.
  unfold Js.take. revert s. induction n as [|n IH]; intros [|c s]; simpl; try lia.
  specialize (IH s). lia.
Qed.

Lemma allChars_mapChars (p : ascii → bool) (f : ascii → ascii) (s : string) :
  (∀ c, p c = true → p (f c) = true) →
  Js.allChars p s = true → Js.allChars p (Js.mapChars f s) = true.
Proof.
  intros Hf. induction s as [|c s IH]; simpl; [done|].
  intros [Hc Hs]%andb_true_iff. rewrite (Hf c Hc). by apply IH.
Qed.

Lemma length_mapChars (f : ascii → ascii) (s : string) :
  String.length (Js.mapChars f s) = String.length s.
Proof. induction s as [|c s IH]; simpl; [done|]. by rewrite IH. Qed.

Lemma lowerChar_not_upper (s : string) :
  Js.allChars (fun c => negb (Js.isUpper c)) (Js.toLowerCase s) = true.
Proof.
  unfold Js.toLowerCase.
  induction s as [|c s IH]; simpl; [done|]. rewrite IH, andb_true_r.
  by destruct c as [[] [] [] [] [] [] [] []].
Qed.

Lemma lowerChar_safe (c : ascii) :
  negb (BookingService.dangerous c) = true →
  negb (BookingService.dangerous (Js.lowerChar c)) = true.
Proof. by destruct c as [[] [] [] [] [] [] [] []]. Qed.

Lemma sanitizeString_safe (input : string) :
  Js.allChars (fun c => negb (BookingService.dangerous c)) (BookingService.sanitizeString input)
  = true
  ∧ (String.length (BookingService.sanitizeString input) <= 255)%nat.
Proof.
  unfold BookingService.sanitizeString. destruct (String.eqb input ""); simpl.
  - split; [done | lia].
  - split; [apply allChars_take, allChars_remove | apply length_take].
Qed.

Lemma not_dangerous (c : ascii) :
  negb (BookingService.dangerous c) = true →
  Forall (fun bad => negb (Ascii.eqb c bad) = true) dangerousChars.
Proof.
  destruct c as [[] [] [] [] [] [] [] []]; intros H; try discriminate H;
    repeat constructor.
Qed.

Lemma noChar_dangerous (field : string) :
  Js.allChars (fun c => negb (BookingService.dangerous c)) field = true →
  Forall (fun bad => noChar bad field = true) dangerousChars.
Proof.
  intros Hall. apply List.Forall_forall. intros bad Hbad. unfold noChar.
  apply (allChars_impl (fun c => negb (BookingService.dangerous c))); [|done].
  intros c Hc. pose proof (not_dangerous c Hc) as Hf.
  rewrite List.Forall_forall in Hf. by apply Hf.
Qed.

(** X4. Whatever the contact, each field [sanitizeContactInfo] produces (and
    [createBooking] stores and returns) contains none of the characters
    less-than, greater-than, double quote, apostrophe and ampersand; the name
    and the phone are at most 255 characters long; the e-mail has no capital
    letter A to Z; and for a contact that passed [validateContactInfo] the
    stored name has at least two characters. *)
Theorem stored_contact_is_sanitized (contact : ContactInfo.t) :
  let stored := BookingService.sanitizeContactInfo contact in
  Forall (fun field => Forall (fun bad => noChar bad field = true) dangerousChars)
    [ContactInfo.name stored; ContactInfo.email stored; ContactInfo.phone stored]
  ∧ (String.length (ContactInfo.name stored) <= 255)%nat
  ∧ (String.length (ContactInfo.phone stored) <= 255)%nat
  ∧ Js.allChars (fun c => negb (Js.isUpper c)) (ContactInfo.email stored) = true
  ∧ (ValidationResult.isValid (BookingService.validateContactInfo contact) = true →
     (2 <= String.length (ContactInfo.name stored))%nat).
Proof.
  simpl. split; [|split; [|split; [|split]]].
  - constructor; [apply noChar_dangerous, sanitizeString_safe|].
    constructor; [|constructor; [apply noChar_dangerous, sanitizeString_safe | constructor]].
    apply noChar_dangerous.
    apply allChars_mapChars; [apply lowerChar_safe | apply sanitizeString_safe].
  - apply sanitizeString_safe.
  - apply sanitizeString_safe.
  - apply lowerChar_not_upper.
  - unfold BookingService.validateContactInfo. cbv zeta. simpl.
    destruct (String.eqb _ "" || (String.length _ <? 2)%nat) eqn:Hn; [done|].
    intros _. apply orb_false_iff in Hn as [_ Hn]. apply Nat.ltb_ge in Hn. exact Hn.
Qed.

Lemma stored_contact_is_sanitized_witness :
  ValidationResult.isValid (BookingService.validateContactInfo validContact) = true
  ∧ (2 <= String.length (ContactInfo.name (BookingService.sanitizeContactInfo validContact)))%nat.
Proof.
  assert (ValidationResult.isValid (BookingService.validateContactInfo validContact) = true) as H
    by (vm_compute; reflexivity).
  split; [exact H|].
  exact (proj2 (proj2 (proj2 (proj2 (stored_contact_is_sanitized validContact)))) H).
Defined.

(** ** Releasing, conflicts and the periodic cleanup *)

(** X5. [releaseReservation] returns true exactly when a reservation entry
    of that user is stored for the slot, and then removes that entry only;
    otherwise it changes nothing. In no case does it touch the calendar: the
    reserved set, the booked map and the pending timers stay as they were. *)
Theorem releaseReservation_only_drops_entry (slotId user : string) (w : World) :
  let r := BookingService.releaseReservation slotId user w in
  (r.1 = true ↔ ∃ res, reservations w !! slotId = Some res ∧ userId res = user)
  ∧ (r.1 = true → reservations r.2 = delete slotId (reservations w))
  ∧ (r.1 = false → r.2 = w)
  ∧ reservedSlots r.2 = reservedSlots w
  ∧ bookedSlots r.2 = bookedSlots w
  ∧ timers r.2 = timers w
  ∧ bookings r.2 = bookings w.
Proof.
  unfold BookingService.releaseReservation. cbv zeta.
  destruct (reservations w !! slotId) as [res|] eqn:Hres; simpl.
  - destruct (String.eqb (userId res) user) eqn:He; simpl.
    + apply String.eqb_eq in He. repeat split; try done. intros _. by exists res.
    + apply String.eqb_neq in He. repeat split; try done.
      intros (res' & [= <-] & Hu). done.
  - repeat split; try done. intros (res' & [=] & _).
Qed.

Lemma releaseReservation_witness :
  let w := (BookingService.reserveSlot "2024-01-16_09:00" "A" (initial 1000)).2 in
  (BookingService.releaseReservation "2024-01-16_09:00" "B" w).1 = false
  ∧ (BookingService.releaseReservation "2024-01-16_09:00" "B" w).2 = w
  ∧ (BookingService.releaseReservation "2024-01-16_09:00" "A" w).1 = true
  ∧ reservations (BookingService.releaseReservation "2024-01-16_09:00" "A" w).2
    = delete "2024-01-16_09:00" (reservations w).
Proof.
  intros w.
  assert ((BookingService.releaseReservation "2024-01-16_09:00" "B" w).1 = false) as HB
    by (vm_compute; reflexivity).
  assert ((BookingService.releaseReservation "2024-01-16_09:00" "A" w).1 = true) as HA
    by (vm_compute; reflexivity).
  pose proof (releaseReservation_only_drops_entry "2024-01-16_09:00" "B" w) as (_ & _ & H1 & _).
  pose proof (releaseReservation_only_drops_entry "2024-01-16_09:00" "A" w) as (_ & H2 & _).
  split; [exact HB|]. split; [exact (H1 HB)|]. split; [exact HA | exact (H2 HA)].
Defined.

(** X6. [hasBookingConflict] reports a conflict whenever the calendar has
    the slot booked or held, whoever is excluded; so right after a user's own
    successful [reserveSlot] it reports a conflict for that very user. When
    the calendar reports the slot free, there is a conflict exactly when a
    reservation entry of someone other than the excluded user is stored and
    has not expired yet. *)
Theorem hasBookingConflict_cases (slot : TimeSlot.t) (exclude : option string) (w : World) :
  (CalendarService.isSlotAvailable (TimeSlot.id slot) w = false →
   BookingService.hasBookingConflict slot exclude w = true)
  ∧ (CalendarService.isSlotAvailable (TimeSlot.id slot) w = true →
     (BookingService.hasBookingConflict slot exclude w = true
      ↔ ∃ res, reservations w !! TimeSlot.id slot = Some res
               ∧ Some (userId res) ≠ exclude ∧ now w < expiresAt res))
  ∧ (∀ w0 owner,
       BookingService.reserveSlot (TimeSlot.id slot) owner w0 = (true, w) →
       BookingService.hasBookingConflict slot (Some owner) w = true).
Proof.
  unfold BookingService.hasBookingConflict. split; [|split].
  - by intros ->.
  - intros ->. simpl. destruct (reservations w !! TimeSlot.id slot) as [res|]; simpl.
    + case_decide as Hd.
      * split; [done|]. intros (res' & [= <-] & Hne & _). done.
      * rewrite Z.ltb_lt. split.
        -- intros Hlt. by exists res.
        -- by intros (res' & [= <-] & _ & Hlt).
    + split; [done|]. intros (res' & [=] & _).
  - intros w0 owner Hres.
    destruct (booking_reserveSlot_true _ _ _ _ Hres) as (Hin & _).
    unfold CalendarService.isSlotAvailable.
    apply member_true in Hin. rewrite Hin. by rewrite andb_false_r.
Qed.

Lemma hasBookingConflict_witness :
  let r := BookingService.reserveSlot "2024-01-16_09:00" "A" (initial 1000) in
  r.1 = true
  ∧ CalendarService.isSlotAvailable "2024-01-16_09:00" r.2 = false
  ∧ BookingService.hasBookingConflict slot0900 (Some "A") r.2 = true.
Proof.
  intros r.
  assert (BookingService.reserveSlot (TimeSlot.id slot0900) "A" (initial 1000) = (true, r.2)) as Hres
    by (vm_compute; reflexivity).
  assert (CalendarService.isSlotAvailable (TimeSlot.id slot0900) r.2 = false) as Hun
    by (vm_compute; reflexivity).
  pose proof (hasBookingConflict_cases slot0900 (Some "A") r.2) as (H1 & _ & H3).
  split; [vm_compute; reflexivity|]. split; [exact Hun|].
  exact (H3 (initial 1000) "A" Hres).
Defined.

(** X7. The periodic cleanup keeps exactly the reservation entries that have
    not expired (an entry with [expiresAt <= now] is dropped, every other one
    is kept as it is); it never touches the calendar, so a slot held in the
    reserved set stays held, and the bookings are unchanged. It then saves:
    the storage entry holds the swept reservation table when [setItem]
    works, and stays as it was when [setItem] throws. *)
Theorem reservationCleanup_sweeps_expired (w : World) :
  let w' := BookingService.reservationCleanup w in
  (∀ slotId res,
     reservations w' !! slotId = Some res
     ↔ reservations w !! slotId = Some res ∧ now w < expiresAt res)
  ∧ reservedSlots w' = reservedSlots w
  ∧ bookedSlots w' = bookedSlots w
  ∧ timers w' = timers w
  ∧ bookings w' = bookings w
  ∧ (setItemFails w = false →
     option_map saved_reservations (localStorage w') = Some (reservations w'))
  ∧ (setItemFails w = true → localStorage w' = localStorage w).
Proof.
  unfold BookingService.reservationCleanup. unfold_world.
  split; [|repeat split; try done; by intros ->].
  intros slotId res. rewrite map_lookup_filter_Some. simpl. split.
  - intros [H1 H2]. split; [done | lia].
  - intros [H1 H2]. split; [done | lia].
Qed.

(** ** Reloading the page *)

(** X8. A reload restores the booking table exactly as last saved and, of
    the saved reservation entries, those not yet expired at the time of the
    reload; the calendar's reserved set and booked map start empty and no
    timer is pending, so every slot is reported available. *)
Theorem reload_restores_tables_only (w : World) (t : Z) (data : StorageBlob) :
  localStorage w = Some data →
  let w' := reload t w in
  bookings w' = saved_bookings data
  ∧ (∀ slotId res,
       reservations w' !! slotId = Some res
       ↔ saved_reservations data !! slotId = Some res ∧ t < expiresAt res)
  ∧ reservedSlots w' = ∅ ∧ bookedSlots w' = ∅ ∧ timers w' = []
  ∧ (∀ slotId, CalendarService.isSlotAvailable slotId w' = true).
Proof.
  intros Hst. unfold reload, BookingService.loadFromStorage. simpl. rewrite Hst.
  unfold_world. split; [done|]. split.
  - intros slotId res. by rewrite map_lookup_filter_Some.
  - repeat split; try done.
Qed.

Lemma reload_restores_tables_only_witness :
  localStorage bookedWorld
  = Some {| saved_bookings := bookings bookedWorld;
            saved_reservations := reservations bookedWorld;
            saved_timestamp := 1000 |}
  ∧ bookings (reload 5000 bookedWorld) = bookings bookedWorld
  ∧ CalendarService.isSlotAvailable "2024-01-16_09:00" (reload 5000 bookedWorld) = true.
Proof.
  assert (localStorage bookedWorld
          = Some {| saved_bookings := bookings bookedWorld;
                    saved_reservations := reservations bookedWorld;
                    saved_timestamp := 1000 |}) as H by reflexivity.
  pose proof (reload_restores_tables_only bookedWorld 5000 _ H) as (H1 & _ & _ & _ & _ & H2).
  split; [exact H|]. split; [exact H1 | exact (H2 "2024-01-16_09:00")].
Defined.

(** X9. A confirmed booking survives a reload, but its slot does not stay
    taken: after a successful [createBooking] whose save went through
    ([setItem] did not throw) and a reload at any time, the booking is still
    stored as confirmed while the calendar reports its slot available, and
    [createBooking] for the same slot succeeds again for any user with a
    valid contact. *)
Theorem slot_reopens_after_reload
    (contact : ContactInfo.t) (slot : TimeSlot.t) (user rnd1 rnd2 : string) (w : World) (t : Z) :
  CreateBookingResult.success
    (BookingService.createBooking contact slot user rnd1 rnd2 w).1 = true →
  setItemFails w = false →
  let w' := reload t (BookingService.createBooking contact slot user rnd1 rnd2 w).2 in
  option_map Booking.status
    (BookingService.getBooking (BookingService.generateBookingId rnd1 w) w') = Some CONFIRMED
  ∧ CalendarService.isSlotAvailable (TimeSlot.id slot) w' = true
  ∧ (∀ contact' user' rnd1' rnd2',
       ValidationResult.isValid (BookingService.validateContactInfo contact') = true →
       CreateBookingResult.success
         (BookingService.createBooking contact' slot user' rnd1' rnd2' w').1 = true).
Proof.
  intros Hs Hok w'.
  destruct (createBooking_success_world contact slot user rnd1 rnd2 w Hs)
    as (_ & _ & _ & Hk & Hres & _ & _ & Hst & _).
  rewrite Hok in Hst.
  destruct (reload_restores_tables_only _ t _ Hst) as (Hb & Hr & _ & _ & _ & Hav).
  fold w' in Hb, Hr, Hav.
  split; [|split].
  - unfold BookingService.getBooking. rewrite Hb. simpl. rewrite Hk.
    by rewrite lookup_insert_eq.
  - apply Hav.
  - intros contact' user' rnd1' rnd2' Hv.
    destruct (createBooking_all_or_nothing contact' slot user' rnd1' rnd2' w') as [-> _].
    rewrite Hv, Hav. simpl. unfold BookingService.reservedByOther.
    destruct (reservations w' !! TimeSlot.id slot) as [res|] eqn:Hl; [|done].
    apply Hr in Hl as [Hl _]. simpl in Hl. rewrite Hres in Hl.
    by rewrite lookup_delete_eq in Hl.
Qed.

Lemma slot_reopens_after_reload_witness :
  let r := BookingService.createBooking validContact slot0900 "A" "k3j9x0q2m" "7fza" (initial 1000) in
  CreateBookingResult.success r.1 = true
  ∧ setItemFails (initial 1000) = false
  ∧ ValidationResult.isValid (BookingService.validateContactInfo validContact) = true
  ∧ CreateBookingResult.success
      (BookingService.createBooking validContact slot0900 "B" "p5v1c8d4t" "m2qk"
         (reload 5000 r.2)).1 = true.
Proof.
  intros r.
  assert (CreateBookingResult.success r.1 = true) as H by (vm_compute; reflexivity).
  assert (ValidationResult.isValid (BookingService.validateContactInfo validContact) = true) as Hv
    by (vm_compute; reflexivity).
  assert (setItemFails (initial 1000) = false) as Hok by reflexivity.
  pose proof (slot_reopens_after_reload validContact slot0900 "A" "k3j9x0q2m" "7fza"
                (initial 1000) 5000 H Hok) as (_ & _ & Hagain).
  split; [exact H|]. split; [exact Hok|]. split; [exact Hv|].
  exact (Hagain validContact "B" "p5v1c8d4t" "m2qk" Hv).
Defined.

(** ** An expired reservation that has not been swept yet *)

(** X10. The two checks of another user's reservation disagree about
    expiry. When the calendar reports the slot free and the stored
    reservation entry belongs to someone else and has expired (the timer has
    run, the cleanup has not), [createBooking] still answers that the slot is
    reserved by another user and changes nothing, while [reserveSlot] by the
    same caller succeeds and takes the entry over. *)
Theorem expired_entry_blocks_booking_not_reserving
    (w : World) (slot : TimeSlot.t) (res : Reservation) (caller : string)
    (contact : ContactInfo.t) (rnd1 rnd2 : string) :
  CalendarService.isSlotAvailable (TimeSlot.id slot) w = true →
  reservations w !! TimeSlot.id slot = Some res →
  userId res ≠ caller →
  expiresAt res <= now w →
  ValidationResult.isValid (BookingService.validateContactInfo contact) = true →
  BookingService.createBooking contact slot caller rnd1 rnd2 w
  = (BookingService.failure "Time slot is reserved by another user", w)
  ∧ (BookingService.reserveSlot (TimeSlot.id slot) caller w).1 = true
  ∧ reservations (BookingService.reserveSlot (TimeSlot.id slot) caller w).2 !! TimeSlot.id slot
    = Some {| userId := caller; expiresAt := now w + BookingService.RESERVATION_TIMEOUT |}.
Proof.
  intros Ha Hres Hne Hexp Hv.
  apply String.eqb_neq in Hne.
  split; [|split].
  - unfold BookingService.createBooking. rewrite Hv, Ha. simpl.
    unfold BookingService.reservedByOther. by rewrite Hres, Hne.
  - unfold BookingService.reserveSlot, BookingService.heldByOther. rewrite Ha, Hres, Hne. simpl.
    replace (now w <? expiresAt res) with false by (symmetry; apply Z.ltb_ge; lia).
    simpl. unfold CalendarService.reserveSlot.
    unfold CalendarService.isSlotAvailable in Ha.
    apply andb_true_iff in Ha as [Hb Hm]. apply negb_true_iff in Hb, Hm. by rewrite Hb, Hm.
  - unfold BookingService.reserveSlot, BookingService.heldByOther. rewrite Ha, Hres, Hne. simpl.
    replace (now w <? expiresAt res) with false by (symmetry; apply Z.ltb_ge; lia).
    simpl. unfold CalendarService.reserveSlot.
    unfold CalendarService.isSlotAvailable in Ha.
    apply andb_true_iff in Ha as [Hb Hm]. apply negb_true_iff in Hb, Hm. rewrite Hb, Hm.
    simpl. unfold_world. apply lookup_insert_eq.
Qed.

Lemma expired_entry_witness :
  fireTimer 0 (with_now 301000 heldWorld) = Some timerRanWorld
  ∧ CalendarService.isSlotAvailable (TimeSlot.id slot0900) timerRanWorld = true
  ∧ reservations timerRanWorld !! TimeSlot.id slot0900
    = Some {| userId := "A"; expiresAt := 301000 |}
  ∧ "A" ≠ "B"
  ∧ 301000 <= now timerRanWorld
  ∧ ValidationResult.isValid (BookingService.validateContactInfo validContact) = true
  ∧ BookingService.createBooking validContact slot0900 "B" "p5v1c8d4t" "m2qk" timerRanWorld
    = (BookingService.failure "Time slot is reserved by another user", timerRanWorld)
  ∧ (BookingService.reserveSlot (TimeSlot.id slot0900) "B" timerRanWorld).1 = true.
Proof.
  assert (CalendarService.isSlotAvailable (TimeSlot.id slot0900) timerRanWorld = true) as Ha
    by (vm_compute; reflexivity).
  assert (reservations timerRanWorld !! TimeSlot.id slot0900
          = Some {| userId := "A"; expiresAt := 301000 |}) as Hres by (vm_compute; reflexivity).
  assert ("A" ≠ "B") as Hne by discriminate.
  assert (301000 <= now timerRanWorld) as Hexp by (vm_compute; discriminate).
  assert (ValidationResult.isValid (BookingService.validateContactInfo validContact) = true) as Hv
    by (vm_compute; reflexivity).
  pose proof (expired_entry_blocks_booking_not_reserving timerRanWorld slot0900 _ "B" validContact
                "p5v1c8d4t" "m2qk" Ha Hres Hne Hexp Hv) as (H1 & H2 & _).
  split; [vm_compute; reflexivity|].
  split; [exact Ha|]. split; [exact Hres|]. split; [exact Hne|]. split; [exact Hexp|].
  split; [exact Hv|]. split; [exact H1 | exact H2].
Defined.

(** ** Statistics and the slots on offer *)

(** What the loop returns is one slot per start minute, in order, and every
    sum it formed is a safe integer. *)
Lemma dailyLoop_shape (w : World) (date : string) (e i : Z) :
  ∀ fuel s slots,
    CalendarService.dailyLoop fuel w date s e i = Some slots →
    slots = map (fun m => CalendarService.dailySlot w date m i) (startsFrom (length slots) s i)
    ∧ (slots = [] ∨ 0 < i)
    ∧ Forall (fun m => m < e ∧ Js.isSafeInteger (m + i) = true) (startsFrom (length slots) s i).
Proof.
  induction fuel as [|fuel IH]; intros s slots; simpl; [done|].
  destruct (s <? e) eqn:Hlt; [|by intros [= <-]; split; [|split; [left|]]].
  destruct (Js.isSafeInteger (s + i)) eqn:Hsafe; [|done].
  destruct (CalendarService.dailyLoop fuel w date (s + i) e i) as [rest|] eqn:Hrest; [|done].
  intros [= <-]. destruct (IH _ _ Hrest) as (Hshape & _ & Hall). split; [|split].
  - simpl. by rewrite <- Hshape.
  - right. destruct (Z_lt_le_dec 0 i) as [Hi|Hi]; [done|].
    apply Z.ltb_lt in Hlt.
    assert (CalendarService.dailyLoop (S fuel) w date s e i = None) as Hnone
      by by apply dailyLoop_diverges.
    simpl in Hnone. apply Z.ltb_lt in Hlt. by rewrite Hlt, Hsafe, Hrest in Hnone.
  - simpl. constructor; [|done]. split; [by apply Z.ltb_lt | done].
Qed.

(** The answers of [generateDailySlots]: no slot at all, or the slots of the
    loop run from a start and an end that read as numbers. *)
Lemma generateDailySlots_inv (fuel : nat) (date startTime endTime : string) (i : Z)
    (w : World) (slots : list TimeSlot.t) :
  CalendarService.generateDailySlots fuel date startTime endTime i w = Some slots →
  slots = []
  ∨ ∃ s e, CalendarService.timeToMinutes startTime = Some (Js.Num s)
           ∧ CalendarService.timeToMinutes endTime = Some (Js.Num e)
           ∧ CalendarService.dailyLoop fuel w date s e i = Some slots.
Proof.
  unfold CalendarService.generateDailySlots.
  destruct (negb (Js.isSafeInteger i)); [done|].
  destruct (CalendarService.timeToMinutes startTime) as [[s|]|]; [| |done].
  - destruct (CalendarService.timeToMinutes endTime) as [[e|]|]; [| |done].
    + intros H. right. by exists s, e.
    + intros [= <-]. by left.
  - destruct (CalendarService.timeToMinutes endTime) as [[e|]|]; [| |done];
      intros [= <-]; by left.
Qed.

Lemma generateDailySlots_flags (fuel : nat) (date startTime endTime : string) (i : Z)
    (w : World) (slots : list TimeSlot.t) :
  CalendarService.generateDailySlots fuel date startTime endTime i w = Some slots →
  Forall (flagsCurrent w) slots.
Proof.
  intros [-> | (s & e & _ & _ & Hloop)]%generateDailySlots_inv; [constructor|].
  destruct (dailyLoop_shape w date e i fuel s slots Hloop) as (-> & _ & _).
  apply List.Forall_forall. intros slot (m & <- & _)%in_map_iff. split; reflexivity.
Qed.

Lemma dateLoop_flags (tz : JsDate.Zone) (w : World) (end_ : Z) (startTime endTime : string)
    (i : Z) :
  ∀ fuel date slots,
    CalendarService.dateLoop fuel tz w date end_ startTime endTime i = Some slots →
    Forall (flagsCurrent w) slots.
Proof.
  induction fuel as [|fuel IH]; intros date slots; simpl; [done|].
  destruct (date <=? end_); [|by intros [= <-]].
  destruct (CalendarService.isWeekend _); [exact (IH _ slots)|].
  destruct (CalendarService.generateDailySlots fuel _ startTime endTime i w) as [daily|] eqn:Hd;
    [|done].
  destruct (CalendarService.dateLoop fuel tz w _ end_ startTime endTime i) as [rest|] eqn:Hr;
    [|done].
  intros [= <-]. apply Forall_app. split.
  - by apply generateDailySlots_flags in Hd.
  - exact (IH _ _ Hr).
Qed.

Lemma dateLoop_ends (tz : Z) (w : World) (end_ : Z) (startTime endTime : string) (i : Z)
    (bound : nat) :
  (∀ date fuel, (bound < fuel)%nat →
     is_Some (CalendarService.generateDailySlots fuel date startTime endTime i w)) →
  ∀ fuel date, (dayCount date end_ + bound < fuel)%nat →
    is_Some (CalendarService.dateLoop fuel (JsDate.fixedZone tz) w date end_ startTime endTime i).
Proof.
  intros Hdaily. induction fuel as [|fuel IH]; intros date Hfuel; [lia|].
  simpl. destruct (date <=? end_) eqn:Hle; [|by eexists].
  apply Z.leb_le in Hle. rewrite (dayCount_more date end_ Hle) in Hfuel.
  rewrite nextDay_fixedZone.
  destruct (CalendarService.isWeekend _); [apply IH; lia|].
  destruct (Hdaily (JsDate.toISODate date) fuel) as [daily ->]; [lia|].
  destruct (IH (date + JsDate.msPerDay)) as [rest ->]; [lia|]. by eexists.
Qed.

Lemma generateTimeSlots_ends (tz : Z) (startDate endDate startTime endTime : string)
    (s e i : Z) (w : World) :
  CalendarService.timeToMinutes startTime = Some (Js.Num s) →
  CalendarService.timeToMinutes endTime = Some (Js.Num e) →
  0 < i → Js.isSafeInteger (e + i) = true →
  ∃ bound, ∀ fuel, (bound < fuel)%nat →
    is_Some (CalendarService.generateTimeSlots fuel (JsDate.fixedZone tz)
               startDate endDate startTime endTime i w).
Proof.
  intros Hs He Hi Hsafe. unfold CalendarService.generateTimeSlots.
  destruct (JsDate.parse startDate) as [start|]; [|by exists O; eauto].
  destruct (JsDate.parse endDate) as [end_|]; [|by exists O; eauto].
  exists (dayCount start end_ + slotCount s e i)%nat. intros fuel Hfuel.
  apply (dateLoop_ends tz w end_ startTime endTime i (slotCount s e i)); [|done].
  intros date fuel' Hfuel'.
  rewrite (generateDailySlots_runs w date startTime endTime s e i Hs He Hi Hsafe) by done.
  by eexists.
Qed.

(** X11. What [getAvailableSlots] offers, for a clock reading and an end day
    in the years 0 to 9999 (whose dates the model parses), in any time zone:
    every slot on offer is one the calendar reports available at the time of
    the call (it is in neither the booked map nor the reserved set and
    carries no [bookedBy]), and no free slot of the days the loop visits from
    today to the end day is left out. In a zone that keeps one offset, with
    time texts that read as numbers and a positive whole-number interval,
    the call returns. *)
Theorem getAvailableSlots_offers_free_slots
    (zone : JsDate.Zone) (days : Z) (startTime endTime : string) (i : Z) (w : World) :
  (∀ fuel slots start end_,
     JsDate.parse (JsDate.toISODate (now w)) = Some start →
     JsDate.parse (JsDate.toISODate (JsDate.addDays zone days (now w))) = Some end_ →
     CalendarService.getAvailableSlots fuel zone days startTime endTime i w = Some slots →
     Forall (fun slot =>
               bookedSlots w !! TimeSlot.id slot = None
               ∧ (TimeSlot.id slot ∉ reservedSlots w)
               ∧ TimeSlot.bookedBy slot = None
               ∧ TimeSlot.isAvailable slot = true) slots
     ∧ ∃ generated,
         CalendarService.dateLoop fuel zone w start end_ startTime endTime i = Some generated
         ∧ slots = List.filter
                     (fun slot => CalendarService.isSlotAvailable (TimeSlot.id slot) w)
                     generated)
  ∧ (∀ tz s e,
       CalendarService.timeToMinutes startTime = Some (Js.Num s) →
       CalendarService.timeToMinutes endTime = Some (Js.Num e) →
       0 < i → Js.isSafeInteger (e + i) = true →
       ∃ bound, ∀ fuel, (bound < fuel)%nat →
         is_Some (CalendarService.getAvailableSlots fuel (JsDate.fixedZone tz) days
                    startTime endTime i w)).
Proof.
  split.
  - intros fuel slots start end_ Hstart Hend.
    unfold CalendarService.getAvailableSlots, CalendarService.generateTimeSlots. cbv zeta.
    rewrite Hstart, Hend.
    destruct (CalendarService.dateLoop _ _ _ _ _ _ _ _) as [generated|] eqn:Hg; [|done].
    intros [= <-]. apply dateLoop_flags in Hg.
    split.
    + clear -Hg. induction Hg as [|slot rest [Hflag Hby] _ IH]; simpl; [constructor|].
      destruct (TimeSlot.isAvailable slot) eqn:Hav; [|exact IH].
      constructor; [|exact IH].
      symmetry in Hflag. unfold CalendarService.isSlotAvailable in Hflag.
      apply andb_true_iff in Hflag as [Hb Hm].
      apply negb_true_iff in Hb, Hm. apply has_false in Hb. apply member_false in Hm.
      split; [exact Hb|]. split; [exact Hm|]. split; [by rewrite Hby | done].
    + exists generated. split; [done|].
      clear -Hg. induction Hg as [|slot rest [Hflag _] _ IH]; simpl; [done|].
      rewrite <- Hflag. destruct (TimeSlot.isAvailable slot); by rewrite IH.
  - intros tz s e Hs He Hi Hsafe.
    destruct (generateTimeSlots_ends tz (JsDate.toISODate (now w))
                (JsDate.toISODate (JsDate.addDays (JsDate.fixedZone tz) days (now w)))
                startTime endTime s e i w Hs He Hi Hsafe) as [bound Hbound].
    exists bound. intros fuel Hfuel. unfold CalendarService.getAvailableSlots. cbv zeta.
    destruct (Hbound fuel Hfuel) as [generated ->]. by eexists.
Qed.

Lemma getAvailableSlots_witness :
  let w := with_now 1711703700000 bookedWorld in
  JsDate.parse (JsDate.toISODate (now w)) = Some 1711670400000
  ∧ JsDate.parse (JsDate.toISODate (JsDate.addDays centralEurope2024 4 (now w)))
    = Some 1712016000000
  ∧ option_map (map TimeSlot.id)
      (CalendarService.getAvailableSlots 40 centralEurope2024 4 "09:00" "10:00" 60 w)
    = Some ["2024-03-29_09:00"; "2024-03-31_09:00"; "2024-04-01_09:00"]
  ∧ Forall (fun id => bookedSlots w !! id = None)
      ["2024-03-29_09:00"; "2024-03-31_09:00"; "2024-04-01_09:00"].
Proof.
  intros w.
  assert (JsDate.parse (JsDate.toISODate (now w)) = Some 1711670400000) as Hstart
    by (vm_compute; reflexivity).
  assert (JsDate.parse (JsDate.toISODate (JsDate.addDays centralEurope2024 4 (now w)))
          = Some 1712016000000) as Hend by (vm_compute; reflexivity).
  assert (option_map (map TimeSlot.id)
            (CalendarService.getAvailableSlots 40 centralEurope2024 4 "09:00" "10:00" 60 w)
          = Some ["2024-03-29_09:00"; "2024-03-31_09:00"; "2024-04-01_09:00"]) as Hids
    by (vm_compute; reflexivity).
  split; [exact Hstart|]. split; [exact Hend|]. split; [exact Hids|].
  destruct (CalendarService.getAvailableSlots 40 centralEurope2024 4 "09:00" "10:00" 60 w)
    as [slots|] eqn:Hs; [|discriminate Hids].
  destruct (proj1 (getAvailableSlots_offers_free_slots centralEurope2024 4 "09:00" "10:00" 60 w)
              40%nat slots _ _ Hstart Hend Hs) as [Hfree _].
  injection Hids as Hids.
  rewrite <- Hids. apply Forall_map. eapply Forall_impl; [exact Hfree|].
  intros slot (Hb & _). exact Hb.
Defined.

Lemma size_by_status (m : gmap string Booking.t) :
  size m
  = (size (filter (fun kv => Booking.status kv.2 = CONFIRMED) m)
     + size (filter (fun kv => Booking.status kv.2 = CANCELLED) m)
     + size (filter (fun kv => Booking.status kv.2 = PENDING) m))%nat.
Proof.
  induction m as [|k b m Hk _ IH] using map_first_key_ind.
  - by rewrite !map_filter_empty, map_size_empty.
  - rewrite map_size_insert_None by done. rewrite IH.
    rewrite !map_filter_insert. simpl. rewrite !(delete_id m k) by done.
    destruct (Booking.status b); repeat case_decide; try congruence;
      rewrite map_size_insert_None by (rewrite map_lookup_filter_None; by left); lia.
Qed.

(** X12. [getBookingStats] of the booking service returns (given fuel for
    the slot generation it triggers), and in its result the total is the sum
    of the confirmed, cancelled and pending counts; the total counts the
    stored bookings, cancelled ones included, and the number of active
    reservations counts the stored entries, expired or not. *)
Theorem getBookingStats_adds_up (tz : Z) (w : World) :
  (∃ bound, ∀ fuel, (bound < fuel)%nat →
     is_Some (BookingService.getBookingStats fuel (JsDate.fixedZone tz) w))
  ∧ (∀ fuel stats,
       BookingService.getBookingStats fuel (JsDate.fixedZone tz) w = Some stats →
       BookingStats.total stats
       = (BookingStats.confirmed stats + BookingStats.cancelled stats
          + BookingStats.pending stats)%nat
       ∧ BookingStats.total stats = size (bookings w)
       ∧ BookingStats.activeReservations stats = size (reservations w)
       ∧ CalendarService.totalBooked (BookingStats.calendarStats stats) = size (bookedSlots w)
       ∧ CalendarService.totalReserved (BookingStats.calendarStats stats)
         = size (reservedSlots w)).
Proof.
  split.
  - destruct (generateTimeSlots_ends tz (JsDate.toISODate (now w))
                (JsDate.toISODate (JsDate.addDays (JsDate.fixedZone tz) 14 (now w)))
                "09:00" "17:00" 540 1020 30 w) as [bound Hb]; [done | done | lia | done |].
    exists bound. intros fuel Hfuel.
    unfold BookingService.getBookingStats, CalendarService.getBookingStats,
      CalendarService.getAvailableSlots. cbv zeta.
    destruct (Hb fuel Hfuel) as [slots ->]. by eexists.
  - intros fuel stats.
    unfold BookingService.getBookingStats, CalendarService.getBookingStats.
    destruct (CalendarService.getAvailableSlots _ _ _ _ _ _ _) as [slots|]; [|done].
    intros [= <-]. simpl. split; [|done].
    unfold BookingService.countStatus. apply size_by_status.
Qed.

Lemma getBookingStats_witness :
  option_map BookingStats.total
    (BookingService.getBookingStats 60 (JsDate.fixedZone 0) bookedWorld) = Some 1%nat
  ∧ option_map BookingStats.confirmed
      (BookingService.getBookingStats 60 (JsDate.fixedZone 0) bookedWorld) = Some 1%nat.
Proof.
  destruct (BookingService.getBookingStats 60 (JsDate.fixedZone 0) bookedWorld)
    as [stats|] eqn:Hs.
  - pose proof (proj2 (getBookingStats_adds_up 0 bookedWorld) 60%nat stats Hs) as (_ & Ht & _).
    revert Hs. vm_compute. intros [= <-]. split; reflexivity.
  - revert Hs. vm_compute. discriminate.
Defined.

(** ** The calendar: booking, stale timers, generated ids *)

(** X13. In the calendar the first booking wins and a booking consumes the
    hold: [bookSlot] succeeds exactly when the slot is not booked, whether it
    is held or not; on failure nothing changes; on success the slot is booked
    by the caller, is no longer in the reserved set, and every further
    [bookSlot] fails until [cancelBooking] by that user, which restores the
    booked map from before and leaves the slot available. *)
Theorem bookSlot_first_wins (slotId user : string) (w : World) :
  let r := CalendarService.bookSlot slotId user w in
  (r.1 = true ↔ bookedSlots w !! slotId = None)
  ∧ (r.1 = false → r.2 = w)
  ∧ (r.1 = true →
     bookedSlots r.2 !! slotId = Some user
     ∧ (slotId ∉ reservedSlots r.2)
     ∧ (∀ other, CalendarService.bookSlot slotId other r.2 = (false, r.2))
     ∧ let c := CalendarService.cancelBooking slotId user r.2 in
       c.1 = true ∧ bookedSlots c.2 = bookedSlots w
       ∧ CalendarService.isSlotAvailable slotId c.2 = true).
Proof.
  unfold CalendarService.bookSlot. cbv zeta.
  destruct (has (bookedSlots w) slotId) eqn:Hb; simpl.
  - apply has_true in Hb as [u Hu]. split; [|split]; try done.
    split; [done|]. rewrite Hu. done.
  - apply has_false in Hb. split; [done|]. split; [done|]. intros _. unfold_world.
    split; [apply lookup_insert_eq|]. split; [apply not_elem_of_removed|]. split.
    + intros other. unfold CalendarService.bookSlot, has. simpl.
      by rewrite lookup_insert_eq.
    + unfold CalendarService.cancelBooking. simpl. rewrite lookup_insert_eq.
      case_decide; [|done]. simpl.
      assert (delete slotId (<[slotId:=user]> (bookedSlots w)) = bookedSlots w) as Hdel
        by (rewrite delete_insert_eq; by apply delete_id).
      split; [done|]. split; [exact Hdel|].
      unfold CalendarService.isSlotAvailable. simpl. rewrite Hdel.
      apply andb_true_iff. split.
      * by apply negb_true_iff, has_false.
      * apply negb_true_iff, member_false, not_elem_of_removed.
Qed.

Lemma bookSlot_first_wins_witness :
  (CalendarService.bookSlot "2024-01-16_09:00" "B" bookedWorld).1 = false
  ∧ (CalendarService.bookSlot "2024-01-16_09:00" "B" bookedWorld).2 = bookedWorld
  ∧ (CalendarService.bookSlot "2024-01-16_09:30" "B" bookedWorld).1 = true
  ∧ bookedSlots (CalendarService.bookSlot "2024-01-16_09:30" "B" bookedWorld).2
      !! "2024-01-16_09:30" = Some "B".
Proof.
  assert ((CalendarService.bookSlot "2024-01-16_09:00" "B" bookedWorld).1 = false) as H1
    by (vm_compute; reflexivity).
  assert ((CalendarService.bookSlot "2024-01-16_09:30" "B" bookedWorld).1 = true) as H2
    by (vm_compute; reflexivity).
  pose proof (bookSlot_first_wins "2024-01-16_09:00" "B" bookedWorld) as (_ & Hfail & _).
  pose proof (bookSlot_first_wins "2024-01-16_09:30" "B" bookedWorld) as (_ & _ & Hok).
  split; [exact H1|]. split; [exact (Hfail H1)|]. split; [exact H2|].
  exact (proj1 (Hok H2)).
Defined.

(** X14. Timers of earlier holds are never cancelled, so a hold can end
    before its own delay has passed. When a slot is held with a delay [d1]
    that [setTimeout] honours (1 to 2147483647 ms), then booked and the
    booking cancelled, and held again [e] milliseconds after the first hold
    with delay [d2], the first hold's timer is still pending; when it runs
    at its due time it releases the second hold, and the slot is available
    although only [d1 - e] milliseconds of the second hold have passed. *)
Theorem stale_timer_releases_later_hold (slot user : string) (d1 e d2 : Z) (w : World) :
  CalendarService.isSlotAvailable slot w = true →
  1 <= d1 <= 2147483647 →
  0 <= e <= d1 →
  let held := holdBookCancelHold slot user d1 e d2 w in
  let atDue := with_now (now w + d1) held in
  CalendarService.isSlotAvailable slot held = false
  ∧ timers held
    = (timers w ++ [ {| due := now w + d1; target := slot |};
                     {| due := now w + e + Js.timerDelay d2; target := slot |} ])%list
  ∧ ∃ released,
      fireTimer (length (timers w)) atDue = Some released
      ∧ now released = now w + d1
      ∧ CalendarService.isSlotAvailable slot released = true.
Proof.
  intros Ha Hd1 He held atDue.
  unfold CalendarService.isSlotAvailable in Ha.
  apply andb_true_iff in Ha as [Hb Hm]. apply negb_true_iff in Hb, Hm.
  assert (bookedSlots w !! slot = None) as Hnone by by apply has_false.
  assert (held = mkWorld (now w + e)
                   (timers w ++ [ {| due := now w + d1; target := slot |};
                                  {| due := now w + e + Js.timerDelay d2; target := slot |} ])
                   (localStorage w) (setItemFails w)
                   ({[slot]} ∪ ({[slot]} ∪ reservedSlots w) ∖ {[slot]})
                   (delete slot (<[slot:=user]> (bookedSlots w)))
                   (bookings w) (reservations w)) as Hheld.
  { subst held. unfold holdBookCancelHold. cbv zeta.
    unfold CalendarService.reserveSlot at 2. rewrite Hb, Hm. simpl.
    rewrite (timerDelay_honoured d1 Hd1).
    unfold CalendarService.bookSlot. unfold_world. rewrite Hb. simpl.
    unfold CalendarService.cancelBooking. simpl. rewrite lookup_insert_eq.
    case_decide; [|done]. simpl.
    unfold CalendarService.reserveSlot. simpl.
    rewrite delete_insert_eq, (delete_id _ _ Hnone).
    replace (has (bookedSlots w) slot) with false.
    replace (member (({[slot]} ∪ reservedSlots w) ∖ {[slot]}) slot) with false
      by (symmetry; apply member_false, not_elem_of_removed).
    simpl. unfold_world. by rewrite <- app_assoc. }
  split; [|split].
  - rewrite Hheld. unfold CalendarService.isSlotAvailable. simpl.
    apply andb_false_iff. right. apply negb_false_iff, member_true.
    apply elem_of_union_l, elem_of_singleton. done.
  - by rewrite Hheld.
  - subst atDue. rewrite Hheld. unfold fireTimer. unfold_world.
    rewrite lookup_app_r by lia. rewrite Nat.sub_diag. simpl.
    replace (now w + d1 <=? now w + d1) with true by (symmetry; apply Z.leb_le; lia).
    eexists. split; [done|]. split; [done|].
    unfold CalendarService.isSlotAvailable. simpl.
    rewrite delete_insert_eq, (delete_id _ _ Hnone), Hb. simpl.
    apply negb_true_iff, member_false, not_elem_of_removed.
Qed.

Lemma stale_timer_witness :
  CalendarService.isSlotAvailable "2024-01-16_09:00" (initial 0) = true
  ∧ 1 <= 300000 <= 2147483647
  ∧ 0 <= 240000 <= 300000
  ∧ ∃ released,
      fireTimer 0 (with_now 300000
                     (holdBookCancelHold "2024-01-16_09:00" "A" 300000 240000 300000 (initial 0)))
      = Some released
      ∧ now released = 300000
      ∧ CalendarService.isSlotAvailable "2024-01-16_09:00" released = true.
Proof.
  assert (CalendarService.isSlotAvailable "2024-01-16_09:00" (initial 0) = true) as Ha
    by (vm_compute; reflexivity).
  assert (1 <= 300000 <= 2147483647) as Hd by lia.
  assert (0 <= 240000 <= 300000) as He by lia.
  split; [exact Ha|]. split; [exact Hd|]. split; [exact He|].
  exact (proj2 (proj2 (stale_timer_releases_later_hold "2024-01-16_09:00" "A" 300000 240000 300000
                         (initial 0) Ha Hd He))).
Defined.

Lemma append_inv_head (a b c : string) : (a ++ b)%string = (a ++ c)%string → b = c.
Proof. induction a as [|x a IH]; simpl; [done|]. intros [= H]. by apply IH. Qed.

Lemma dailySlot_id_inj (w : World) (date : string) (i m m' : Z) :
  0 <= m → Js.isSafeInteger m = true → 0 <= m' → Js.isSafeInteger m' = true →
  TimeSlot.id (CalendarService.dailySlot w date m i)
  = TimeSlot.id (CalendarService.dailySlot w date m' i) →
  m = m'.
Proof.
  intros Hm Hsafe Hm' Hsafe' H.
  change (TimeSlot.id (CalendarService.dailySlot w date m i))
    with (date ++ String "_" (CalendarService.minutesToTimeString (Js.Num m)))%string in H.
  change (TimeSlot.id (CalendarService.dailySlot w date m' i))
    with (date ++ String "_" (CalendarService.minutesToTimeString (Js.Num m')))%string in H.
  apply append_inv_head in H. injection H as H.
  apply (f_equal CalendarService.timeToMinutes) in H.
  rewrite !timeToMinutes_minutesToTimeString in H by done. by injection H.
Qed.

(** The start minutes of a run that began at a minute [s >= 0] with a
    positive interval are safe integers that are not negative. *)
Lemma startsFrom_safe (n : nat) (s e i : Z) :
  0 <= s → 0 < i →
  Forall (fun m => m < e ∧ Js.isSafeInteger (m + i) = true) (startsFrom n s i) →
  Forall (fun m => 0 <= m < e ∧ Js.isSafeInteger m = true) (startsFrom n s i).
Proof.
  intros Hs Hi Hall. apply List.Forall_forall. intros m Hin.
  rewrite List.Forall_forall in Hall. destruct (Hall m Hin) as [Hlt Hsafe].
  apply in_startsFrom in Hin as (k & Hk & ->).
  assert (0 <= k * i) by (apply Z.mul_nonneg_nonneg; lia).
  split; [lia|]. apply isSafeInteger_range. apply isSafeInteger_range in Hsafe.
  unfold Js.MAX_SAFE_INTEGER in *. lia.
Qed.

Lemma startsFrom_ids_NoDup (w : World) (date : string) (i : Z) :
  0 < i →
  ∀ n s, 0 <= s →
    Forall (fun m => Js.isSafeInteger m = true) (startsFrom n s i) →
    List.NoDup (map (fun m => TimeSlot.id (CalendarService.dailySlot w date m i))
                  (startsFrom n s i)).
Proof.
  intros Hi. induction n as [|n IH]; intros s Hs Hsafe; simpl; constructor.
  - simpl in Hsafe. apply Forall_cons in Hsafe as [Hs1 Hrest].
    intros (m & Hid & Hin)%in_map_iff.
    rewrite List.Forall_forall in Hrest. pose proof (Hrest m Hin) as Hm1.
    apply in_startsFrom in Hin as (k & Hk & ->).
    assert (0 <= k * i) as Hki by (apply Z.mul_nonneg_nonneg; lia).
    apply (dailySlot_id_inj w date i) in Hid; try done; lia.
  - simpl in Hsafe. apply Forall_cons in Hsafe as [_ Hrest]. apply IH; [lia | done].
Qed.

(** X15. The slots one call of [generateDailySlots] returns have pairwise
    distinct ids: for every date text, for time texts that the model reads
    (hours and minutes in decimal digits, or texts that read as [NaN], for
    which no slot is returned) and for every whole-number interval. *)
Theorem generateDailySlots_ids_distinct
    (fuel : nat) (date startTime endTime : string) (i : Z) (w : World)
    (slots : list TimeSlot.t) :
  CalendarService.generateDailySlots fuel date startTime endTime i w = Some slots →
  List.NoDup (map TimeSlot.id slots).
Proof.
  intros [-> | (s & e & Hs & _ & Hloop)]%generateDailySlots_inv; [constructor|].
  apply timeToMinutes_nonneg in Hs.
  destruct (dailyLoop_shape w date e i fuel s slots Hloop) as (Hshape & [-> | Hi] & Hall);
    [constructor|].
  rewrite Hshape, map_map. apply startsFrom_ids_NoDup; [done | done |].
  eapply Forall_impl; [exact (startsFrom_safe _ s e i Hs Hi Hall)|].
  by intros m [_ Hm].
Qed.

Lemma generateDailySlots_ids_witness :
  CalendarService.generateDailySlots 10 "2024-01-16" "09:00" "10:00" 30 (initial 0)
  = Some [slot0900; slot0930]
  ∧ List.NoDup (map TimeSlot.id [slot0900; slot0930]).
Proof.
  assert (CalendarService.generateDailySlots 10 "2024-01-16" "09:00" "10:00" 30 (initial 0)
          = Some [slot0900; slot0930]) as H by (vm_compute; reflexivity).
  split; [exact H|].
  exact (generateDailySlots_ids_distinct 10 "2024-01-16" "09:00" "10:00" 30 (initial 0) _ H).
Defined.

Lemma noUnderscore_Z_toString (z : Z) : noChar "_" (Js.Z_toString z) = true.
Proof.
  assert (∀ d, noChar "_" (NilEmpty.string_of_uint d) = true) as Hd.
  { intros d. apply (allChars_impl Js.isDigit); [|apply digits_string_of_uint].
    intros c Hc. apply digit_or_colon_not_underscore. by rewrite Hc. }
  destruct z as [|p|p]; simpl; [done | apply Hd |].
  unfold noChar. simpl. apply Hd.
Qed.

Lemma noUnderscore_pad (width : nat) (z : Z) : noChar "_" (JsDate.pad width z) = true.
Proof.
  unfold JsDate.pad, Js.padStart, noChar. rewrite allChars_app.
  apply andb_true_iff. split; [|apply noUnderscore_Z_toString].
  induction (width - String.length (Js.Z_toString z))%nat as [|k IH]; simpl; done.
Qed.

(** The printed day has no underscore and is not empty. *)
Lemma toISODate_shape (t : Z) :
  noChar "_" (JsDate.toISODate t) = true ∧ JsDate.toISODate t ≠ "".
Proof.
  unfold JsDate.toISODate.
  destruct (JsDate.civilFromDays (t / JsDate.msPerDay)) as [[y m] d].
  set (year := if (0 <=? y) && (y <=? 9999) then JsDate.pad 4 y
               else if y <? 0 then String "-" (JsDate.pad 6 (- y))
               else String "+" (JsDate.pad 6 y)).
  assert (noChar "_" year = true) as Hy.
  { subst year. destruct (_ && _); [apply noUnderscore_pad|].
    destruct (y <? 0); unfold noChar; simpl; apply noUnderscore_pad. }
  split.
  - unfold noChar in *. rewrite !allChars_app. simpl.
    rewrite Hy. simpl.
    pose proof (noUnderscore_pad 2 m) as Hm. pose proof (noUnderscore_pad 2 d) as Hd.
    unfold noChar in Hm, Hd. by rewrite Hm, Hd.
  - by destruct year.
Qed.

Lemma generateDailySlots_generated (fuel : nat) (day : Z) (startTime endTime : string)
    (e i : Z) (w : World) (slots : list TimeSlot.t) :
  CalendarService.timeToMinutes endTime = Some (Js.Num e) →
  CalendarService.generateDailySlots fuel (JsDate.toISODate day) startTime endTime i w
  = Some slots →
  Forall (generatedSlot w i e) slots.
Proof.
  intros He [-> | (s & e' & Hs & He' & Hloop)]%generateDailySlots_inv; [constructor|].
  rewrite He in He'. injection He' as <-.
  apply timeToMinutes_nonneg in Hs.
  destruct (dailyLoop_shape w _ e i fuel s slots Hloop) as (Hshape & [-> | Hi] & Hall);
    [constructor|].
  pose proof (startsFrom_safe _ s e i Hs Hi Hall) as Hsafe.
  rewrite Hshape. apply List.Forall_forall. intros slot (m & <- & Hin)%in_map_iff.
  rewrite List.Forall_forall in Hsafe. destruct (Hsafe m Hin) as [Hm _].
  by exists day, m.
Qed.

Lemma dateLoop_generated (tz : JsDate.Zone) (w : World) (end_ : Z)
    (startTime endTime : string) (e i : Z) :
  CalendarService.timeToMinutes endTime = Some (Js.Num e) →
  ∀ fuel date slots,
    CalendarService.dateLoop fuel tz w date end_ startTime endTime i = Some slots →
    Forall (generatedSlot w i e) slots.
Proof.
  intros He. induction fuel as [|fuel IH]; intros date slots; simpl; [done|].
  destruct (date <=? end_); [|by intros [= <-]].
  destruct (CalendarService.isWeekend _); [exact (IH _ slots)|].
  destruct (CalendarService.generateDailySlots fuel _ startTime endTime i w) as [daily|] eqn:Hd;
    [|done].
  destruct (CalendarService.dateLoop fuel tz w _ end_ startTime endTime i) as [rest|] eqn:Hr;
    [|done].
  intros [= <-]. apply Forall_app. split.
  - by apply (generateDailySlots_generated _ _ _ _ e) in Hd.
  - exact (IH _ _ Hr).
Qed.

(** X16. Every slot [generateTimeSlots] returns can be looked up by its id,
    for dates written YYYY-MM-DD, in any time zone, for time texts that read
    as numbers and an end time at most 30 minutes short of the largest safe
    integer: [getSlotById] of the id gives a slot with the same id, date,
    start time, availability flag and owner. Its end time is start plus 30
    minutes, so for slots generated with the interval 30 the lookup returns
    the generated slot itself. *)
Theorem getSlotById_finds_generated
    (fuel : nat) (tz : JsDate.Zone) (startDate endDate startTime endTime : string) (i e : Z)
    (w : World) (slots : list TimeSlot.t) :
  is_Some (JsDate.parse startDate) → is_Some (JsDate.parse endDate) →
  CalendarService.timeToMinutes endTime = Some (Js.Num e) →
  Js.isSafeInteger (e + 30) = true →
  CalendarService.generateTimeSlots fuel tz startDate endDate startTime endTime i w = Some slots →
  Forall (fun slot =>
            ∃ found,
              CalendarService.getSlotById (TimeSlot.id slot) w = Some (Some found)
              ∧ TimeSlot.id found = TimeSlot.id slot
              ∧ TimeSlot.date found = TimeSlot.date slot
              ∧ TimeSlot.startTime found = TimeSlot.startTime slot
              ∧ TimeSlot.isAvailable found = TimeSlot.isAvailable slot
              ∧ TimeSlot.bookedBy found = TimeSlot.bookedBy slot
              ∧ (i = 30 → found = slot)) slots.
Proof.
  intros [start Hstart] [end_ Hend] He Hsafe. unfold CalendarService.generateTimeSlots.
  rewrite Hstart, Hend. intros Hgen.
  apply (dateLoop_generated tz w end_ startTime endTime e i He) in Hgen.
  eapply Forall_impl; [exact Hgen|]. clear -Hsafe.
  intros slot (day & m & Hm & ->).
  destruct (toISODate_shape day) as [Hu Hne].
  set (date := JsDate.toISODate day) in *.
  apply isSafeInteger_range in Hsafe as Hrange.
  assert (Js.isSafeInteger m = true) as Hsafe0
    by (apply isSafeInteger_range; unfold Js.MAX_SAFE_INTEGER in *; lia).
  assert (Js.isSafeInteger (m + 30) = true) as Hsafe30
    by (apply isSafeInteger_range; unfold Js.MAX_SAFE_INTEGER in *; lia).
  rewrite (getSlotById_parts w _ _ _ [] _ (dailySlot_id_split w date m i Hu (proj1 Hm)) Hne
             (minutesToTimeString_nonempty m (proj1 Hm))
             (endMinutes_number _ _
                (timeToMinutes_minutesToTimeString m (proj1 Hm) Hsafe0) Hsafe30)).
  eexists. split; [reflexivity|]. simpl. repeat split; try done.
  intros ->. reflexivity.
Qed.

Lemma getSlotById_finds_generated_witness :
  is_Some (JsDate.parse "2024-01-16")
  ∧ CalendarService.timeToMinutes "10:00" = Some (Js.Num 600)
  ∧ Js.isSafeInteger (600 + 30) = true
  ∧ CalendarService.generateTimeSlots 10 (JsDate.fixedZone 0)
      "2024-01-16" "2024-01-16" "09:00" "10:00" 30 (initial 0)
    = Some [slot0900; slot0930]
  ∧ CalendarService.getSlotById (TimeSlot.id slot0930) (initial 0) = Some (Some slot0930).
Proof.
  assert (is_Some (JsDate.parse "2024-01-16")) as Hd by (vm_compute; by eexists).
  assert (CalendarService.timeToMinutes "10:00" = Some (Js.Num 600)) as He by reflexivity.
  assert (Js.isSafeInteger (600 + 30) = true) as Hsafe by reflexivity.
  assert (CalendarService.generateTimeSlots 10 (JsDate.fixedZone 0)
            "2024-01-16" "2024-01-16" "09:00" "10:00" 30 (initial 0)
          = Some [slot0900; slot0930]) as H by (vm_compute; reflexivity).
  split; [exact Hd|]. split; [exact He|]. split; [exact Hsafe|]. split; [exact H|].
  pose proof (getSlotById_finds_generated 10 (JsDate.fixedZone 0)
                "2024-01-16" "2024-01-16" "09:00" "10:00" 30 600
                (initial 0) _ Hd Hd He Hsafe H) as HF.
  apply Forall_cons in HF as [_ HF].
  apply Forall_cons in HF as [(found & Hf & _ & _ & _ & _ & _ & Heq) _].
  rewrite Hf. do 2 f_equal. exact (Heq eq_refl).
Defined.

(** ** Inverting the regular expression matchers *)

Lemma in_Re_seq (m1 m2 : Re.matcher) (s r : string) :
  In r (Re.seq m1 m2 s) ↔ ∃ r', In r' (m1 s) ∧ In r (m2 r').
Proof. unfold Re.seq. apply in_flat_map. Qed.

Lemma in_Re_cls (p : ascii → bool) (s r : string) :
  In r (Re.cls p s) ↔ ∃ c, s = String c r ∧ p c = true.
Proof.
  unfold Re.cls. destruct s as [|c s]; simpl.
  - split; [done | by intros (c & [=] & _)].
  - destruct (p c) eqn:Hc; simpl.
    + split.
      * intros [<- | []]. by exists c.
      * intros (c' & [= <- <-] & _). by left.
    + split; [done|]. intros (c' & [= <- <-] & Hc'). congruence.
Qed.

Lemma in_Re_chr (c : ascii) (s r : string) : In r (Re.chr c s) ↔ s = String c r.
Proof.
  unfold Re.chr. rewrite in_Re_cls. split.
  - intros (c' & -> & ->%Ascii.eqb_eq). done.
  - intros ->. exists c. split; [done | apply Ascii.eqb_refl].
Qed.

Lemma in_Re_opt (m : Re.matcher) (s r : string) : In r (Re.opt m s) ↔ In r (m s) ∨ r = s.
Proof.
  unfold Re.opt. rewrite in_app_iff. simpl. split.
  - intros [H | [<- | []]]; [by left | by right].
  - intros [H | ->]; [by left | right; by left].
Qed.

Lemma in_Re_alt (m1 m2 : Re.matcher) (s r : string) :
  In r (Re.alt m1 m2 s) ↔ In r (m1 s) ∨ In r (m2 s).
Proof. unfold Re.alt. apply in_app_iff. Qed.

Lemma test_true (m : Re.matcher) (s : string) : Re.test m s = true ↔ In "" (m s).
Proof.
  unfold Re.test. rewrite existsb_exists. split.
  - intros (r & Hin & ->%String.eqb_eq). done.
  - intros Hin. exists "". split; [done | reflexivity].
Qed.

Lemma oneOf_chars (text : string) (c : ascii) : oneOf text c = true → In c (chars text).
Proof.
  unfold oneOf. rewrite existsb_exists. intros (c' & Hin & ->%Ascii.eqb_eq). done.
Qed.

Lemma isDigit_chars (c : ascii) : Js.isDigit c = true → In c (chars "0123456789").
Proof.
  destruct c as [[] [] [] [] [] [] [] []]; try discriminate; intros _; simpl; tauto.
Qed.

(** ** Time texts *)

Lemma minutes_of_day_print_valid :
  forallb (fun k => CalendarService.isValidTimeFormat
                      (CalendarService.minutesToTimeString (Js.Num (Z.of_nat k))))
    (seq 0 1440) = true.
Proof. vm_compute. reflexivity. Qed.

Lemma valid_shapes_in_day :
  forallb (fun c1 => forallb (fun c2 => forallb (fun c3 => forallb (fun c4 =>
     timeInDay (String c1 (String c2 (String ":" (String c3 (String c4 "")))))
     && printsBack (String c1 (String c2 (String ":" (String c3 (String c4 ""))))))
     (chars "0123456789")) (chars "012345")) (chars "0123456789")) (chars "01") = true
  ∧ forallb (fun c2 => forallb (fun c3 => forallb (fun c4 =>
     timeInDay (String "2" (String c2 (String ":" (String c3 (String c4 "")))))
     && printsBack (String "2" (String c2 (String ":" (String c3 (String c4 ""))))))
     (chars "0123456789")) (chars "012345")) (chars "0123") = true
  ∧ forallb (fun c2 => forallb (fun c3 => forallb (fun c4 =>
     timeInDay (String c2 (String ":" (String c3 (String c4 "")))))
     (chars "0123456789")) (chars "012345")) (chars "0123456789") = true.
Proof. repeat split; vm_compute; reflexivity. Qed.

Lemma timeInDay_minutes (time : string) :
  timeInDay time = true →
  ∃ m, CalendarService.timeToMinutes time = Some (Js.Num m) ∧ 0 <= m < 1440.
Proof.
  unfold timeInDay. destruct (CalendarService.timeToMinutes time) as [[m|]|]; try done.
  intros [H1 H2]%andb_true_iff. exists m. split; [done | lia].
Qed.

(** The texts the pattern of [isValidTimeFormat] matches. *)
Lemma isValidTimeFormat_inv (time : string) :
  CalendarService.isValidTimeFormat time = true →
  ∃ c3 c4, In c3 (chars "012345") ∧ In c4 (chars "0123456789")
    ∧ ((∃ c1 c2, In c1 (chars "01") ∧ In c2 (chars "0123456789")
          ∧ time = String c1 (String c2 (String ":" (String c3 (String c4 "")))))
       ∨ (∃ c2, In c2 (chars "0123") ∧
            time = String "2" (String c2 (String ":" (String c3 (String c4 "")))))
       ∨ (∃ c2, In c2 (chars "0123456789")
            ∧ time = String c2 (String ":" (String c3 (String c4 ""))))).
Proof.
  unfold CalendarService.isValidTimeFormat, CalendarService.timeRegex.
  rewrite test_true, in_Re_seq. intros (r1 & Hhour & Hrest).
  apply in_Re_seq in Hrest as (r2 & ->%in_Re_chr & Hrest).
  apply in_Re_seq in Hrest as (r3 & (c3 & -> & H3%oneOf_chars)%in_Re_cls & (c4 & -> & H4%isDigit_chars)%in_Re_cls).
  exists c3, c4. split; [done|]. split; [done|].
  apply in_Re_alt in Hhour as [Hhour | Hhour].
  - apply in_Re_seq in Hhour as (r0 & Hopt & (c2 & -> & H2%isDigit_chars)%in_Re_cls).
    apply in_Re_opt in Hopt as [(c1 & -> & H1%oneOf_chars)%in_Re_cls | <-].
    + left. by exists c1, c2.
    + right. right. by exists c2.
  - apply in_Re_seq in Hhour as (r0 & ->%in_Re_chr & (c2 & -> & H2%oneOf_chars)%in_Re_cls).
    right. left. by exists c2.
Qed.

(** X17. [isValidTimeFormat] and the time printing agree within a day: for
    every minute of the day [minutesToTimeString] prints a text that
    [isValidTimeFormat] accepts and that reads back as the same minute; every
    text [isValidTimeFormat] accepts reads as a minute of the day, and when
    its hour has two characters, printing that minute gives the text back.
    The end time 24:00 that slot generation prints for a slot ending at
    midnight is not accepted. *)
Theorem isValidTimeFormat_minutes_of_day :
  (∀ m, 0 <= m < 1440 →
     CalendarService.isValidTimeFormat (CalendarService.minutesToTimeString (Js.Num m)) = true
     ∧ CalendarService.timeToMinutes (CalendarService.minutesToTimeString (Js.Num m))
       = Some (Js.Num m))
  ∧ (∀ time, CalendarService.isValidTimeFormat time = true →
       ∃ m, CalendarService.timeToMinutes time = Some (Js.Num m) ∧ 0 <= m < 1440
            ∧ (String.length time = 5%nat →
               CalendarService.minutesToTimeString (Js.Num m) = time))
  ∧ CalendarService.isValidTimeFormat (CalendarService.minutesToTimeString (Js.Num 1440))
    = false.
Proof.
  split; [|split].
  - intros m Hm. split.
    2:{ apply timeToMinutes_minutesToTimeString; [lia|].
        apply isSafeInteger_range. unfold Js.MAX_SAFE_INTEGER. lia. }
    pose proof minutes_of_day_print_valid as Hall.
    rewrite forallb_forall in Hall.
    specialize (Hall (Z.to_nat m)). rewrite Z2Nat.id in Hall by lia.
    apply Hall. apply List.in_seq. lia.
  - intros time Hvalid.
    destruct valid_shapes_in_day as (Htwo & Htwenty & Hone).
    apply isValidTimeFormat_inv in Hvalid
      as (c3 & c4 & H3 & H4 & [(c1 & c2 & H1 & H2 & ->) | [(c2 & H2 & ->) | (c2 & H2 & ->)]]).
    + rewrite forallb_forall in Htwo. specialize (Htwo c1 H1).
      rewrite forallb_forall in Htwo. specialize (Htwo c2 H2).
      rewrite forallb_forall in Htwo. specialize (Htwo c3 H3).
      rewrite forallb_forall in Htwo. specialize (Htwo c4 H4).
      apply andb_true_iff in Htwo as [Hday Hback].
      destruct (timeInDay_minutes _ Hday) as (m & Hm & Hrange).
      exists m. split; [done|]. split; [done|]. intros _.
      unfold printsBack in Hback. rewrite Hm in Hback. by apply String.eqb_eq in Hback.
    + rewrite forallb_forall in Htwenty. specialize (Htwenty c2 H2).
      rewrite forallb_forall in Htwenty. specialize (Htwenty c3 H3).
      rewrite forallb_forall in Htwenty. specialize (Htwenty c4 H4).
      apply andb_true_iff in Htwenty as [Hday Hback].
      destruct (timeInDay_minutes _ Hday) as (m & Hm & Hrange).
      exists m. split; [done|]. split; [done|]. intros _.
      unfold printsBack in Hback. rewrite Hm in Hback. by apply String.eqb_eq in Hback.
    + rewrite forallb_forall in Hone. specialize (Hone c2 H2).
      rewrite forallb_forall in Hone. specialize (Hone c3 H3).
      rewrite forallb_forall in Hone. specialize (Hone c4 H4).
      destruct (timeInDay_minutes _ Hone) as (m & Hm & Hrange).
      exists m. split; [done|]. split; [done|]. simpl. discriminate.
  - vm_compute. reflexivity.
Qed.

Lemma isValidTimeFormat_witness :
  0 <= 585 < 1440
  ∧ CalendarService.isValidTimeFormat (CalendarService.minutesToTimeString (Js.Num 585)) = true
  ∧ CalendarService.isValidTimeFormat "9:45" = true
  ∧ ∃ m, CalendarService.timeToMinutes "9:45" = Some (Js.Num m) ∧ 0 <= m < 1440.
Proof.
  destruct isValidTimeFormat_minutes_of_day as (Hprint & Hread & _).
  assert (0 <= 585 < 1440) as Hm by lia.
  assert (CalendarService.isValidTimeFormat "9:45" = true) as Hv by (vm_compute; reflexivity).
  split; [exact Hm|]. split; [exact (proj1 (Hprint 585 Hm))|]. split; [exact Hv|].
  destruct (Hread "9:45" Hv) as (m & H1 & H2 & _). by exists m.
Defined.

(** ** The form validators of the phone number *)

(** ** Prefixes taken by a pattern *)

Lemma consumes_weaken (m : Re.matcher) (Q Q' : string → Prop) :
  consumes m Q → (∀ p, Q p → Q' p) → consumes m Q'.
Proof. intros Hm HQ s r Hin. destruct (Hm s r Hin) as (p & -> & Hp). exists p. auto. Qed.

Lemma consumes_eps : consumes Re.eps (λ p, p = "").
Proof. intros s r [<- | []]. by exists "". Qed.

Lemma consumes_cls (cls : ascii → bool) :
  consumes (Re.cls cls) (λ p, ∃ c, p = String c "" ∧ cls c = true).
Proof. intros s r (c & -> & Hc)%in_Re_cls. exists (String c ""). eauto. Qed.

Lemma append_assoc (a b c : string) : ((a ++ b) ++ c)%string = (a ++ (b ++ c))%string.
Proof.
  induction a as [|x a IH]; [done|].
  change (String x ((a ++ b) ++ c) = String x (a ++ b ++ c))%string. by rewrite IH.
Qed.

Lemma consumes_seq (m1 m2 : Re.matcher) (Q1 Q2 : string → Prop) :
  consumes m1 Q1 → consumes m2 Q2 →
  consumes (Re.seq m1 m2) (λ p, ∃ p1 p2, p = (p1 ++ p2)%string ∧ Q1 p1 ∧ Q2 p2).
Proof.
  intros H1 H2 s r (r' & Hr' & Hr)%in_Re_seq.
  destruct (H1 _ _ Hr') as (p1 & -> & Hp1). destruct (H2 _ _ Hr) as (p2 & -> & Hp2).
  exists (p1 ++ p2)%string. split; [by rewrite append_assoc | eauto].
Qed.

Lemma consumes_opt (m : Re.matcher) (Q : string → Prop) :
  consumes m Q → consumes (Re.opt m) (λ p, p = "" ∨ Q p).
Proof.
  intros Hm s r [Hr | ->]%in_Re_opt.
  - destruct (Hm _ _ Hr) as (p & -> & Hp). exists p. auto.
  - exists "". auto.
Qed.

(** ** Digits of a telephone number *)

Lemma digitsOnly_app (a b : string) :
  Validation.digitsOnly (a ++ b) = (Validation.digitsOnly a ++ Validation.digitsOnly b)%string.
Proof.
  unfold Validation.digitsOnly. induction a as [|c a IH]; simpl; [done|].
  destruct (negb (Js.isDigit c)); simpl; by rewrite IH.
Qed.

Lemma length_append (a b : string) :
  String.length (a ++ b) = (String.length a + String.length b)%nat.
Proof. induction a as [|c a IH]; simpl; [done | by rewrite IH]. Qed.

Lemma digitsBetween_seq (m1 m2 : Re.matcher) (a b c d : nat) :
  consumes m1 (digitsBetween a b) → consumes m2 (digitsBetween c d) →
  consumes (Re.seq m1 m2) (digitsBetween (a + c) (b + d)).
Proof.
  intros H1 H2. eapply consumes_weaken; [by apply consumes_seq|].
  intros p (p1 & p2 & -> & Hp1 & Hp2). unfold digitsBetween in *.
  rewrite digitsOnly_app, length_append. lia.
Qed.

Lemma digitsBetween_opt (m : Re.matcher) (a b : nat) :
  consumes m (digitsBetween a b) → consumes (Re.opt m) (digitsBetween 0 b).
Proof.
  intros Hm. eapply consumes_weaken; [by apply consumes_opt|].
  intros p [-> | Hp]; unfold digitsBetween in *; simpl; lia.
Qed.

Lemma digitsBetween_digit (cls : ascii → bool) :
  (∀ c, cls c = true → Js.isDigit c = true) → consumes (Re.cls cls) (digitsBetween 1 1).
Proof.
  intros Hcls. eapply consumes_weaken; [apply consumes_cls|].
  intros p (c & -> & Hc). unfold digitsBetween, Validation.digitsOnly. simpl.
  rewrite (Hcls c Hc). simpl. lia.
Qed.

Lemma digitsBetween_other (cls : ascii → bool) :
  (∀ c, cls c = true → Js.isDigit c = false) → consumes (Re.cls cls) (digitsBetween 0 0).
Proof.
  intros Hcls. eapply consumes_weaken; [apply consumes_cls|].
  intros p (c & -> & Hc). unfold digitsBetween, Validation.digitsOnly. simpl.
  rewrite (Hcls c Hc). simpl. lia.
Qed.

Lemma digitsBetween_eps : consumes Re.eps (digitsBetween 0 0).
Proof.
  eapply consumes_weaken; [apply consumes_eps|]. intros p ->. unfold digitsBetween. simpl. lia.
Qed.

Lemma digitsBetween_times (n : nat) :
  consumes (Re.times n (Re.cls Js.isDigit)) (digitsBetween n n).
Proof.
  induction n as [|n IH]; simpl; [apply digitsBetween_eps|].
  apply (digitsBetween_seq _ _ 1 1 n n); [by apply digitsBetween_digit | done].
Qed.

Lemma digit19_digit (c : ascii) : digit19 c = true → Js.isDigit c = true.
Proof. destruct c as [[] [] [] [] [] [] [] []]; done. Qed.

Lemma sep_not_digit (c : ascii) : Validation.sep c = true → Js.isDigit c = false.
Proof. destruct c as [[] [] [] [] [] [] [] []]; done. Qed.

Lemma chr_not_digit (x : ascii) :
  Js.isDigit x = false → ∀ c, Ascii.eqb x c = true → Js.isDigit c = false.
Proof. by intros Hx c <-%Ascii.eqb_eq. Qed.

Lemma PHONE_REGEX_digits : consumes Validation.PHONE_REGEX (digitsBetween 10 11).
Proof.
  unfold Validation.PHONE_REGEX.
  apply (digitsBetween_seq _ _ 0 0 10 11).
  { apply (digitsBetween_opt _ 0 0), digitsBetween_other, chr_not_digit. done. }
  apply (digitsBetween_seq _ _ 0 1 10 10).
  { apply (digitsBetween_opt _ 1 1), digitsBetween_digit, digit19_digit. }
  apply (digitsBetween_seq _ _ 0 0 10 10).
  { apply (digitsBetween_opt _ 0 0), digitsBetween_other, sep_not_digit. }
  apply (digitsBetween_seq _ _ 0 0 10 10).
  { apply (digitsBetween_opt _ 0 0), digitsBetween_other, chr_not_digit. done. }
  apply (digitsBetween_seq _ _ 3 3 7 7); [apply digitsBetween_times|].
  apply (digitsBetween_seq _ _ 0 0 7 7).
  { apply (digitsBetween_opt _ 0 0), digitsBetween_other, chr_not_digit. done. }
  apply (digitsBetween_seq _ _ 0 0 7 7).
  { apply (digitsBetween_opt _ 0 0), digitsBetween_other, sep_not_digit. }
  apply (digitsBetween_seq _ _ 3 3 4 4); [apply digitsBetween_times|].
  apply (digitsBetween_seq _ _ 0 0 4 4).
  { apply (digitsBetween_opt _ 0 0), digitsBetween_other, sep_not_digit. }
  apply digitsBetween_times.
Qed.

Lemma append_empty_r (s : string) : (s ++ "")%string = s.
Proof.
  induction s as [|c s IH]; [done|].
  change (String c (s ++ "") = String c s)%string. by rewrite IH.
Qed.

Lemma test_consumes (m : Re.matcher) (Q : string → Prop) (s : string) :
  consumes m Q → Re.test m s = true → Q s.
Proof.
  intros Hm Ht%test_true. destruct (Hm _ _ Ht) as (p & -> & Hp). by rewrite append_empty_r.
Qed.

Lemma validatePhone_accepts (phone : string) :
  Js.trim phone ≠ "" → Re.test Validation.PHONE_REGEX (Js.trim phone) = true →
  Validation.validatePhone phone = None.
Proof.
  intros He Ht. unfold Validation.validatePhone.
  apply String.eqb_neq in He. rewrite He, Ht. simpl.
  pose proof (test_consumes _ _ _ PHONE_REGEX_digits Ht) as [Hlo Hhi].
  unfold Validation.digitsOnly in Hlo, Hhi.
  destruct (_ <? 10)%nat eqn:H10; [apply Nat.ltb_lt in H10; lia|].
  destruct (15 <? _)%nat eqn:H15; [apply Nat.ltb_lt in H15; lia|].
  done.
Qed.

(** ** Trimming *)

Lemma rev_app (a b : string) : Js.rev (a ++ b) = (Js.rev b ++ Js.rev a)%string.
Proof.
  induction a as [|c a IH].
  - change ("" ++ b)%string with b. simpl. by rewrite append_empty_r.
  - change (String c a ++ b)%string with (String c (a ++ b)%string). simpl.
    by rewrite IH, append_assoc.
Qed.

Lemma rev_involutive (s : string) : Js.rev (Js.rev s) = s.
Proof. induction s as [|c s IH]; simpl; [done|]. by rewrite rev_app, IH. Qed.

Lemma rev_lastChar (c : ascii) (s : string) :
  ∃ rest, Js.rev (String c s) = String (lastChar c s) rest.
Proof.
  revert c. induction s as [|c' s IH]; intros c.
  - by exists "".
  - destruct (IH c') as (rest & Hrest). exists (rest ++ String c "")%string.
    change (Js.rev (String c (String c' s))) with (Js.rev (String c' s) ++ String c "")%string.
    by rewrite Hrest.
Qed.

(** Trimming leaves a text alone that has no white space at either end. *)
Lemma trim_tight (s : string) : tight s = true → Js.trim s = s.
Proof.
  destruct s as [|c s]; [done|]. simpl.
  intros [Hc Hl]%andb_true_iff. apply negb_true_iff in Hc, Hl.
  unfold Js.trim. simpl Js.trimStart. rewrite Hc. unfold Js.trimEnd.
  destruct (rev_lastChar c s) as (rest & Hrev). rewrite Hrev. simpl Js.trimStart.
  rewrite Hl, <- Hrev. apply rev_involutive.
Qed.

Lemma digit_not_space (c : ascii) : Js.isDigit c = true → Js.isSpace c = false.
Proof. destruct c as [[] [] [] [] [] [] [] []]; done. Qed.

(** ** Display form of a telephone number *)

Lemma digitsOnly_digits (s : string) : Js.allChars Js.isDigit (Validation.digitsOnly s) = true.
Proof.
  unfold Validation.digitsOnly.
  apply (allChars_impl (λ c, negb (negb (Js.isDigit c)))); [|apply allChars_remove].
  intros c. by rewrite negb_involutive.
Qed.

Lemma in_times_cls (p : ascii → bool) (n : nat) (a r : string) :
  Js.allChars p a = true → String.length a = n → In r (Re.times n (Re.cls p) (a ++ r)).
Proof.
  revert a. induction n as [|n IH]; intros a Ha Hlen.
  - destruct a; [|done]. by left.
  - destruct a as [|c a]; [done|]. simpl in Ha, Hlen.
    apply andb_true_iff in Ha as [Hc Ha].
    simpl Re.times. apply in_Re_seq. exists (a ++ r)%string. split.
    + apply in_Re_cls. by exists c.
    + apply IH; [done | lia].
Qed.

Ltac re_skip := apply in_Re_seq; eexists; split; [apply in_Re_opt; right; reflexivity|].
Ltac re_chr := apply in_Re_seq; eexists; split; [apply in_Re_opt; left; apply in_Re_chr; reflexivity|].
Ltac re_cls := apply in_Re_seq; eexists; split;
  [apply in_Re_opt; left; apply in_Re_cls; eexists; split; [reflexivity | done]|].

Lemma PHONE_REGEX_national (a b c : string) :
  Js.allChars Js.isDigit a = true → String.length a = 3%nat →
  Js.allChars Js.isDigit b = true → String.length b = 3%nat →
  Js.allChars Js.isDigit c = true → String.length c = 4%nat →
  Re.test Validation.PHONE_REGEX ("(" ++ a ++ ") " ++ b ++ "-" ++ c) = true.
Proof.
  intros Ha La Hb Lb Hc Lc. apply test_true. unfold Validation.PHONE_REGEX.
  re_skip. re_skip. re_skip. re_chr.
  apply in_Re_seq; eexists; split; [by apply in_times_cls|].
  re_chr. re_cls.
  apply in_Re_seq; eexists; split; [by apply in_times_cls|].
  re_cls.
  rewrite <- (append_empty_r c). by apply in_times_cls.
Qed.

Lemma PHONE_REGEX_with_country (a b c : string) :
  Js.allChars Js.isDigit a = true → String.length a = 3%nat →
  Js.allChars Js.isDigit b = true → String.length b = 3%nat →
  Js.allChars Js.isDigit c = true → String.length c = 4%nat →
  Re.test Validation.PHONE_REGEX ("+1 (" ++ a ++ ") " ++ b ++ "-" ++ c) = true.
Proof.
  intros Ha La Hb Lb Hc Lc. apply test_true. unfold Validation.PHONE_REGEX.
  re_chr. re_cls. re_cls. re_chr.
  apply in_Re_seq; eexists; split; [by apply in_times_cls|].
  re_chr. re_cls.
  apply in_Re_seq; eexists; split; [by apply in_times_cls|].
  re_cls.
  rewrite <- (append_empty_r c). by apply in_times_cls.
Qed.

Lemma allChars_substring (p : ascii → bool) (n m : nat) (s : string) :
  Js.allChars p s = true → Js.allChars p (String.substring n m s) = true.
Proof.
  revert n m. induction s as [|c s IH]; intros n m Hs.
  - by destruct n, m.
  - simpl in Hs. apply andb_true_iff in Hs as [Hc Hs].
    destruct n as [|n]; simpl.
    + destruct m as [|m]; simpl; [done|]. rewrite Hc. by apply IH.
    + by apply IH.
Qed.

Lemma length_substring (n m : nat) (s : string) :
  (n + m <= String.length s)%nat → String.length (String.substring n m s) = m.
Proof.
  revert n m. induction s as [|c s IH]; intros n m Hlen; simpl in Hlen.
  - destruct n, m; simpl; lia.
  - destruct n as [|n]; simpl.
    + destruct m as [|m]; simpl; [done|]. rewrite IH; [done | lia].
    + apply IH. lia.
Qed.

Lemma substring_join (n m k : nat) (s : string) :
  (String.substring n m s ++ String.substring (n + m) k s)%string = String.substring n (m + k) s.
Proof.
  revert n m. induction s as [|c s IH]; intros n m.
  - destruct n, m, k; done.
  - destruct n as [|n].
    + destruct m as [|m]; [done|]. simpl.
      change (String c ?a ++ ?b)%string with (String c (a ++ b)%string).
      by rewrite <- (IH 0%nat m).
    + simpl. apply IH.
Qed.

Lemma substring_all (s : string) : String.substring 0 (String.length s) s = s.
Proof. induction s as [|c s IH]; simpl; [done | by rewrite IH]. Qed.

Lemma digitsOnly_id (s : string) : Js.allChars Js.isDigit s = true → Validation.digitsOnly s = s.
Proof.
  unfold Validation.digitsOnly. induction s as [|c s IH]; simpl; [done|].
  intros [Hc Hs]%andb_true_iff. rewrite Hc. simpl. by rewrite IH.
Qed.

Lemma lastChar_app (x y : ascii) (s t : string) :
  lastChar x (s ++ String y t) = lastChar y t.
Proof.
  revert x. induction s as [|c s IH]; intros x; [done|].
  change (String c s ++ String y t)%string with (String c (s ++ String y t)%string).
  simpl. apply IH.
Qed.

Lemma lastChar_allChars (p : ascii → bool) (x : ascii) (s : string) :
  Js.allChars p (String x s) = true → p (lastChar x s) = true.
Proof.
  revert x. induction s as [|c s IH]; intros x; simpl.
  - by intros [Hx _]%andb_true_iff.
  - intros [_ Hs]%andb_true_iff. by apply IH.
Qed.

(** A text that ends with a group of digits and starts with a character
    that is no white space is left alone by [trim]. *)
Lemma trim_ends_with_digits (x : ascii) (s c : string) :
  Js.isSpace x = false → Js.allChars Js.isDigit c = true → c ≠ "" →
  Js.trim (String x (s ++ c)) = String x (s ++ c)%string.
Proof.
  intros Hx Hc Hne. apply trim_tight. simpl. rewrite Hx. simpl.
  destruct c as [|y t]; [done|]. rewrite lastChar_app.
  by rewrite (digit_not_space _ (lastChar_allChars _ _ _ Hc)).
Qed.

Lemma formatPhoneNumber_national (phone : string) :
  String.length (Validation.digitsOnly phone) = 10%nat →
  ∃ a b c,
    Validation.formatPhoneNumber phone = ("(" ++ a ++ ") " ++ b ++ "-" ++ c)%string
    ∧ Validation.digitsOnly phone = (a ++ b ++ c)%string
    ∧ (Js.allChars Js.isDigit a = true ∧ String.length a = 3%nat)
    ∧ (Js.allChars Js.isDigit b = true ∧ String.length b = 3%nat)
    ∧ (Js.allChars Js.isDigit c = true ∧ String.length c = 4%nat).
Proof.
  intros Hlen. pose proof (digitsOnly_digits phone) as Hd.
  unfold Validation.formatPhoneNumber. rewrite Hlen. simpl Nat.eqb. cbv iota.
  unfold Js.slice, Js.sliceFrom. rewrite Hlen.
  set (d := Validation.digitsOnly phone) in *.
  exists (String.substring 0 3 d), (String.substring 3 3 d), (String.substring 6 4 d).
  split; [done|]. split.
  { pose proof (substring_join 3 3 4 d) as H1. pose proof (substring_join 0 3 7 d) as H2.
    simpl Nat.add in H1, H2. rewrite H1, H2.
    by rewrite <- Hlen, substring_all. }
  repeat split; try (by apply allChars_substring); apply length_substring; lia.
Qed.

Lemma formatPhoneNumber_with_country (phone : string) :
  String.length (Validation.digitsOnly phone) = 11%nat →
  String.prefix "1" (Validation.digitsOnly phone) = true →
  ∃ a b c,
    Validation.formatPhoneNumber phone = ("+1 (" ++ a ++ ") " ++ b ++ "-" ++ c)%string
    ∧ Validation.digitsOnly phone = ("1" ++ a ++ b ++ c)%string
    ∧ (Js.allChars Js.isDigit a = true ∧ String.length a = 3%nat)
    ∧ (Js.allChars Js.isDigit b = true ∧ String.length b = 3%nat)
    ∧ (Js.allChars Js.isDigit c = true ∧ String.length c = 4%nat).
Proof.
  intros Hlen Hpre. pose proof (digitsOnly_digits phone) as Hd.
  unfold Validation.formatPhoneNumber. rewrite Hlen, Hpre. simpl Nat.eqb. cbv iota. simpl andb.
  cbv iota.
  unfold Js.slice, Js.sliceFrom. rewrite Hlen.
  set (d := Validation.digitsOnly phone) in *.
  exists (String.substring 1 3 d), (String.substring 4 3 d), (String.substring 7 4 d).
  split; [done|]. split.
  { pose proof (substring_join 4 3 4 d) as H1. pose proof (substring_join 1 3 7 d) as H2.
    simpl Nat.add in H1, H2. rewrite H1, H2.
    destruct d as [|x d]; [done|].
    apply prefix_correct in Hpre. simpl in Hpre. injection Hpre as -> _.
    simpl in Hlen. injection Hlen as Hlen.
    change (String.substring 1 10 (String "1" d)) with (String.substring 0 10 d).
    by rewrite <- Hlen, substring_all. }
  repeat split; try (by apply allChars_substring); apply length_substring; lia.
Qed.

Lemma digitsOnly_national (a b c : string) :
  Js.allChars Js.isDigit a = true → Js.allChars Js.isDigit b = true →
  Js.allChars Js.isDigit c = true →
  Validation.digitsOnly ("(" ++ a ++ ") " ++ b ++ "-" ++ c) = (a ++ b ++ c)%string.
Proof.
  intros Ha Hb Hc.
  rewrite (digitsOnly_app "("), (digitsOnly_app a), (digitsOnly_app ") "), (digitsOnly_app b),
    (digitsOnly_app "-").
  rewrite (digitsOnly_id a), (digitsOnly_id b), (digitsOnly_id c) by done. reflexivity.
Qed.

Lemma digitsOnly_with_country (a b c : string) :
  Js.allChars Js.isDigit a = true → Js.allChars Js.isDigit b = true →
  Js.allChars Js.isDigit c = true →
  Validation.digitsOnly ("+1 (" ++ a ++ ") " ++ b ++ "-" ++ c) = ("1" ++ a ++ b ++ c)%string.
Proof.
  intros Ha Hb Hc.
  rewrite (digitsOnly_app "+1 ("), (digitsOnly_app a), (digitsOnly_app ") "), (digitsOnly_app b),
    (digitsOnly_app "-").
  rewrite (digitsOnly_id a), (digitsOnly_id b), (digitsOnly_id c) by done. reflexivity.
Qed.

Lemma formatPhoneNumber_cases (phone : string) :
  (String.length (Validation.digitsOnly phone) = 10%nat)
  ∨ (String.length (Validation.digitsOnly phone) = 11%nat
     ∧ String.prefix "1" (Validation.digitsOnly phone) = true)
  ∨ Validation.formatPhoneNumber phone = phone.
Proof.
  unfold Validation.formatPhoneNumber.
  destruct (_ =? 10)%nat eqn:H10; [left; by apply Nat.eqb_eq|].
  destruct (_ =? 11)%nat eqn:H11; [|right; right; done].
  destruct (String.prefix _ _) eqn:Hp; [|right; right; done].
  right. left. split; [by apply Nat.eqb_eq | done].
Qed.

(** Where it rewrites the number, [formatPhoneNumber] looks at the digits only. *)
Lemma formatPhoneNumber_ext (p q : string) :
  Validation.digitsOnly p = Validation.digitsOnly q →
  String.length (Validation.digitsOnly p) = 10%nat
  ∨ (String.length (Validation.digitsOnly p) = 11%nat
     ∧ String.prefix "1" (Validation.digitsOnly p) = true) →
  Validation.formatPhoneNumber p = Validation.formatPhoneNumber q.
Proof.
  intros Heq Hcase. unfold Validation.formatPhoneNumber. rewrite <- Heq.
  destruct Hcase as [-> | [-> ->]]; done.
Qed.


(** X18. What [validatePhone] answers: no error exactly for a text whose
    trimmed form is not empty and matches the phone pattern, and such a text
    has ten or eleven digits; an empty trimmed text gets the 'required'
    error, any other text the 'valid phone number' error. The two checks of
    the number of digits that follow the pattern test (fewer than 10, more
    than 15) therefore never report an error. *)
Theorem validatePhone_counts_ten_or_eleven_digits (phone : string) :
  match Validation.validatePhone phone with
  | None =>
      Js.trim phone ≠ "" ∧ Re.test Validation.PHONE_REGEX (Js.trim phone) = true
      ∧ (10 <= String.length (Validation.digitsOnly (Js.trim phone)) <= 11)%nat
  | Some e =>
      ValidationError.field e = "phone"
      ∧ ((Js.trim phone = "" ∧ ValidationError.type e = REQUIRED_FIELD
          ∧ ValidationError.message e = "Phone number is required")
         ∨ (Js.trim phone ≠ "" ∧ Re.test Validation.PHONE_REGEX (Js.trim phone) = false
            ∧ ValidationError.type e = INVALID_PHONE
            ∧ ValidationError.message e
              = "Please enter a valid phone number (e.g., (123) 456-7890)"))
  end.
Proof.
  unfold Validation.validatePhone.
  destruct (String.eqb (Js.trim phone) "") eqn:He.
  { apply String.eqb_eq in He. simpl. split; [done|]. left. done. }
  apply String.eqb_neq in He.
  destruct (Re.test Validation.PHONE_REGEX (Js.trim phone)) eqn:Ht; simpl.
  2:{ split; [done|]. right. done. }
  pose proof (test_consumes _ _ _ PHONE_REGEX_digits Ht) as Hd. unfold digitsBetween in Hd.
  pose proof Hd as [Hlo Hhi]. unfold Validation.digitsOnly in Hlo, Hhi.
  destruct (_ <? 10)%nat eqn:H10; [apply Nat.ltb_lt in H10; lia|].
  destruct (15 <? _)%nat eqn:H15; [apply Nat.ltb_lt in H15; lia|].
  done.
Qed.


(** X19. [formatPhoneNumber] changes the punctuation only: the digits of the
    formatted text are those of the input, in order; formatting a formatted
    text changes nothing; and whenever the function rewrites its input (ten
    digits, or eleven digits starting with 1) the result is a text
    [validatePhone] accepts. *)
Theorem formatPhoneNumber_keeps_digits (phone : string) :
  Validation.digitsOnly (Validation.formatPhoneNumber phone) = Validation.digitsOnly phone
  ∧ Validation.formatPhoneNumber (Validation.formatPhoneNumber phone)
    = Validation.formatPhoneNumber phone
  ∧ (Validation.formatPhoneNumber phone ≠ phone →
     Validation.validatePhone (Validation.formatPhoneNumber phone) = None).
Proof.
  destruct (formatPhoneNumber_cases phone) as [H10 | [[H11 Hp] | Hsame]].
  - destruct (formatPhoneNumber_national phone H10)
      as (a & b & c & Hf & Hd & [Ha La] & [Hb Lb] & [Hc Lc]).
    assert (Validation.digitsOnly (Validation.formatPhoneNumber phone)
            = Validation.digitsOnly phone) as Hkeep.
    { rewrite Hf, Hd. by apply digitsOnly_national. }
    split; [done|]. split.
    + apply formatPhoneNumber_ext; [done|]. left. by rewrite Hkeep.
    + intros _.
      assert (Js.trim (Validation.formatPhoneNumber phone) = Validation.formatPhoneNumber phone)
        as Htrim.
      { rewrite Hf.
        change ("(" ++ a ++ ") " ++ b ++ "-" ++ c)%string
          with (String "(" (a ++ ") " ++ b ++ "-" ++ c))%string.
        rewrite <- !append_assoc. apply trim_ends_with_digits; [done | done |].
        by destruct c. }
      apply validatePhone_accepts; rewrite Htrim, Hf; [done|].
      by apply PHONE_REGEX_national.
  - destruct (formatPhoneNumber_with_country phone H11 Hp)
      as (a & b & c & Hf & Hd & [Ha La] & [Hb Lb] & [Hc Lc]).
    assert (Validation.digitsOnly (Validation.formatPhoneNumber phone)
            = Validation.digitsOnly phone) as Hkeep.
    { rewrite Hf, Hd. by apply digitsOnly_with_country. }
    split; [done|]. split.
    + apply formatPhoneNumber_ext; [done|]. right. by rewrite Hkeep.
    + intros _.
      assert (Js.trim (Validation.formatPhoneNumber phone) = Validation.formatPhoneNumber phone)
        as Htrim.
      { rewrite Hf.
        change ("+1 (" ++ a ++ ") " ++ b ++ "-" ++ c)%string
          with (String "+" ("1 (" ++ a ++ ") " ++ b ++ "-" ++ c))%string.
        rewrite <- !append_assoc. apply trim_ends_with_digits; [done | done |].
        by destruct c. }
      apply validatePhone_accepts; rewrite Htrim, Hf; [done|].
      by apply PHONE_REGEX_with_country.
  - rewrite !Hsame. done.
Qed.

Lemma formatPhoneNumber_witness :
  Validation.formatPhoneNumber "123.456.7890" ≠ "123.456.7890"
  ∧ Validation.validatePhone (Validation.formatPhoneNumber "123.456.7890") = None.
Proof.
  assert (Validation.formatPhoneNumber "123.456.7890" ≠ "123.456.7890") as Hne
    by (vm_compute; discriminate).
  split; [exact Hne|].
  exact (proj2 (proj2 (formatPhoneNumber_keeps_digits "123.456.7890")) Hne).
Defined.
